(** * Stock-Analyser-Tool: the partitioned ingestion writer of [main.py]

    A shallow embedding of [main.py] (prompting, partition paths, the two
    storage back ends, [fetch_and_store_data] and [main]) together with the
    properties of the ingestion writer.

    Python text is modelled by [string].  The methods [str.lower],
    [str.upper] and [str.strip] follow the Unicode tables of the
    interpreter; they are taken from the environment and nothing is assumed
    about them.  Effects are modelled by a state-and-exception monad over a
    record [World] holding the console, the local file system, the object
    store and a trace of the calls made to the outside. *)

From Stdlib Require Import Ascii String DecimalString ZArith Lia List.
From Stdlib Require Import PrimFloat SpecFloat FloatOps.
From stdpp Require Import base gmap strings list fin_maps.

Local Open Scope stdpp_scope.
Local Open Scope Z_scope.

(** ** Text *)

Module Str.

Definition sep : ascii := "/"%char.

(** [s.startswith("/")] *)
Definition startswith_sep (s : string) : bool :=
  match s with
  | String c _ => bool_decide (c = sep)
  | EmptyString => false
  end.

(** [s.endswith("/")] *)
Fixpoint endswith_sep (s : string) : bool :=
  match s with
  | EmptyString => false
  | String c EmptyString => bool_decide (c = sep)
  | String _ s' => endswith_sep s'
  end.

(** The case and white-space methods on ASCII text.  The program itself
    uses the methods of the environment; these are what they come to on
    the ASCII texts of the sample runs. *)
Definition upper_char (c : ascii) : ascii :=
  let n := nat_of_ascii c in
  if ((97 <=? n) && (n <=? 122))%nat then ascii_of_nat (n - 32) else c.

Definition lower_char (c : ascii) : ascii :=
  let n := nat_of_ascii c in
  if ((65 <=? n) && (n <=? 90))%nat then ascii_of_nat (n + 32) else c.

Fixpoint map_chars (f : ascii → ascii) (s : string) : string :=
  match s with
  | EmptyString => EmptyString
  | String c s' => String (f c) (map_chars f s')
  end.

Definition upper : string → string := map_chars upper_char.
Definition lower : string → string := map_chars lower_char.

(** [str.isspace] on one ASCII character: tab, line feed, vertical tab,
    form feed, carriage return, the four separators 28..31 and space. *)
Definition is_space (c : ascii) : bool :=
  let n := nat_of_ascii c in
  (((9 <=? n) && (n <=? 13)) || ((28 <=? n) && (n <=? 32)))%nat.

Fixpoint lstrip (s : string) : string :=
  match s with
  | EmptyString => EmptyString
  | String c s' => if is_space c then lstrip s' else s
  end.

(** [rstrip] keeps a character when something other than white space
    follows it or when it is not white space itself. *)
Fixpoint rstrip (s : string) : string :=
  match s with
  | EmptyString => EmptyString
  | String c s' =>
      match rstrip s' with
      | EmptyString => if is_space c then EmptyString else String c EmptyString
      | r => String c r
      end
  end.

Definition strip (s : string) : string := rstrip (lstrip s).

(** [str(n)] for a non-negative integer *)
Definition of_nat (n : nat) : string :=
  NilEmpty.string_of_uint (Nat.to_uint n).

(** One decimal digit, the character of [n mod 10]. *)
Definition digit (n : Z) : ascii := ascii_of_N (Z.to_N (48 + n mod 10)).

(** The zero-padded two-digit fields [%m] and [%d] of [strftime]. *)
Definition pad2 (n : Z) : string :=
  String (digit (n / 10)) (String (digit n) EmptyString).

Definition pad4 (n : Z) : string :=
  String (digit (n / 1000)) (String (digit (n / 100)) (pad2 n)).

(** The field [%Y] as the [strftime] of glibc writes it: the year in
    decimal with as many digits as it has, one to four for the years 1 to
    9999.  From the year 1000 on every C library writes these four
    digits. *)
Definition year_digits (y : Z) : string :=
  if y <? 10 then String (digit y) EmptyString
  else if y <? 100 then pad2 y
  else if y <? 1000 then String (digit (y / 100)) (pad2 y)
  else pad4 y.

(** [c * n] for a one-character string [c] *)
Fixpoint repeat_char (c : ascii) (n : nat) : string :=
  match n with
  | O => EmptyString
  | S n' => String c (repeat_char c n')
  end.

(** The line feed, the single quote and the text [repr] gives for a
    string that needs no escaping. *)
Definition nl : string := String "010"%char EmptyString.
Definition quote (s : string) : string := "'" +:+ s +:+ "'".

(** [sep.join(l)] *)
Fixpoint join (sep : string) (l : list string) : string :=
  match l with
  | [] => EmptyString
  | [x] => x
  | x :: l' => x +:+ sep +:+ join sep l'
  end.

End Str.

(** ** Dates *)

(** The index of a daily price table: a calendar date (midnight, no time
    zone). *)
Record Timestamp := { year : Z; month : Z; day : Z }.

Global Instance Timestamp_eq_dec : EqDecision Timestamp.
Proof. solve_decision. Defined.

Definition is_leap (y : Z) : bool :=
  ((y mod 4 =? 0) && negb (y mod 100 =? 0)) || (y mod 400 =? 0).

Definition days_in_month (y m : Z) : Z :=
  match m with
  | 1 | 3 | 5 | 7 | 8 | 10 | 12 => 31
  | 4 | 6 | 9 | 11 => 30
  | 2 => if is_leap y then 29 else 28
  | _ => 0
  end.

(** A date of the proleptic Gregorian calendar that Python can represent:
    years 1 to 9999. *)
Definition valid_date (t : Timestamp) : Prop :=
  1 ≤ year t ≤ 9999 ∧ 1 ≤ month t ≤ 12 ∧ 1 ≤ day t ≤ days_in_month (year t) (month t).

(** [t.strftime('%Y-%m-%d')] *)
Definition strftime_Ymd (t : Timestamp) : string :=
  Str.year_digits (year t) +:+ "-" +:+ Str.pad2 (month t) +:+ "-" +:+ Str.pad2 (day t).

(** ** Partition paths *)

Definition LOCAL_DATA_LAKE_FOLDER : string := "stock_data_lake".

(** [posixpath.join]: a component that starts with the separator replaces
    what came before; a separator is inserted only when the path so far
    does not already end with one. *)
Definition join2 (path b : string) : string :=
  if Str.startswith_sep b || bool_decide (path = "") then b
  else if Str.endswith_sep path then path +:+ b
  else path +:+ "/" +:+ b.

Definition os_path_join (a : string) (p : list string) : string :=
  fold_left join2 p a.

(** The path computed on the first line of [save_data_locally]. *)
Definition local_path (ticker file_date : string) : string :=
  os_path_join LOCAL_DATA_LAKE_FOLDER
    ["ticker=" +:+ ticker; "date=" +:+ file_date +:+ ".csv"].

(** The object name computed on the first line of [upload_data_to_gcs]. *)
Definition blob_name (ticker file_date : string) : string :=
  "ticker=" +:+ ticker +:+ "/date=" +:+ file_date +:+ ".csv".

(** ** Price tables *)

(** One value of a table. *)
Inductive cell :=
| VDate (t : Timestamp)
| VFloat (x : float)
| VInt (n : Z)
| VStr (s : string).

(** A column label, one text per level of the header: one level for plain
    columns, two for columns labelled by price field and ticker. *)
Definition Label := list string.

(** The types the columns of a price table have. *)
Inductive dtype := float64 | int64.

Global Instance dtype_eq_dec : EqDecision dtype.
Proof. solve_decision. Defined.

(** The conversion of an integer to [float64]: the nearest float, ties to
    even. *)
Definition float_of_int (n : Z) : float :=
  SF2Prim (binary_normalize prec emax n 0 false).

Definition has_dtype (t : dtype) (c : cell) : bool :=
  match t, c with
  | float64, VFloat _ => true
  | int64, VInt n => bool_decide (- 2 ^ 63 ≤ n < 2 ^ 63)
  | _, _ => false
  end.

Fixpoint well_typed (ts : list dtype) (cs : list cell) : bool :=
  match ts, cs with
  | [], [] => true
  | t :: ts', c :: cs' => has_dtype t c && well_typed ts' cs'
  | _, _ => false
  end.

(** The labels the loop body gives to the columns it adds. *)
Definition reserved : list string := ["index"; "Date"; "Ticker"].

Definition plain_label (depth : nat) (l : Label) : bool :=
  bool_decide (length l = depth)
  && forallb (λ s, negb (bool_decide (s ∈ reserved))) l.

(** Columns of a price table: at least one, all labels of the same number
    of levels (one or more), no label twice, and no text of a label among
    [index], [Date] and [Ticker]. *)
Definition plain (cols : list Label) : bool :=
  match cols with
  | [] => false
  | c :: _ =>
      negb (bool_decide (c = []))
      && forallb (plain_label (length c)) cols
      && bool_decide (NoDup cols)
  end.

Definition well_formed (cols : list Label) (ts : list dtype)
    (lines : list (Timestamp * list cell)) : bool :=
  plain cols
  && bool_decide (length ts = length cols)
  && forallb (λ line, well_typed ts line.2) lines.

(** [stock_data]: the table [yf.download] returns for daily bars.  Its
    index, named [Date], holds the dates; its columns are price fields of
    type [float64] or [int64], whatever their number, labels and levels;
    every line has one cell per column, of the type of the column. *)
Record PriceSeries := {
  series_columns : list Label;
  series_dtypes : list dtype;
  series_rows : list (Timestamp * list cell);
  series_ok : well_formed series_columns series_dtypes series_rows = true
}.

(** [row]: what [iterrows] gives for one line, a pandas [Series] whose name
    is the date of the line, whose index is the columns of the table and
    whose values have one type. *)
Record PriceRow := {
  Date : Timestamp;
  labels : list Label;
  values : list cell
}.

(** A table with the default integer index (what [reset_index] returns). *)
Record DataFrame := {
  columns : list Label;
  rows : list (list cell)
}.

(** [stock_data.empty]: one of the two axes has length zero. *)
Definition empty (s : PriceSeries) : bool :=
  match series_columns s, series_rows s with
  | _ :: _, _ :: _ => false
  | _, _ => true
  end.

(** [len(stock_data)] *)
Definition len (s : PriceSeries) : nat := length (series_rows s).

Definition astype_float (c : cell) : cell :=
  match c with
  | VInt n => VFloat (float_of_int n)
  | _ => c
  end.

(** The cells of a line in the common type of the columns: integers stay
    integers only when every column is [int64]; as soon as one column is
    [float64] every integer is converted to a float. *)
Definition common_values (ts : list dtype) (cs : list cell) : list cell :=
  if forallb (λ t, bool_decide (t = int64)) ts then cs else map astype_float cs.

(** [stock_data.iterrows()] *)
Definition iterrows (s : PriceSeries) : list PriceRow :=
  map (λ line, {| Date := line.1;
                  labels := series_columns s;
                  values := common_values (series_dtypes s) line.2 |})
      (series_rows s).

(** The number of levels of the labels. *)
Definition depth (cols : list Label) : nat :=
  match cols with
  | c :: _ => length c
  | [] => 1%nat
  end.

(** The label of a column added under a one-level name: the name on the
    first level, the empty text on the others. *)
Definition top_label (name : string) (n : nat) : Label :=
  name :: replicate (n - 1) "".

(** [pd.DataFrame([row]).reset_index()]: the name of the row, which was
    the unnamed index of the one-row table, becomes the first column,
    named [index]. *)
Definition row_frame (r : PriceRow) : DataFrame :=
  {| columns := top_label "index" (depth (labels r)) :: labels r;
     rows := [VDate (Date r) :: values r] |}.

(** [stock_data.reset_index()]: the index, named [Date], becomes the first
    column; the cells keep the types of their columns. *)
Definition reset_index (s : PriceSeries) : DataFrame :=
  {| columns := top_label "Date" (depth (series_columns s)) :: series_columns s;
     rows := map (λ line, VDate line.1 :: line.2) (series_rows s) |}.

(** [df.rename(columns={old: new}, inplace=True)]: the text is replaced on
    every level. *)
Definition rename (old new : string) (df : DataFrame) : DataFrame :=
  {| columns := map (map (λ s, if decide (s = old) then new else s)) (columns df);
     rows := rows df |}.

(** The columns a one-level key selects: those whose first level is the
    key. *)
Definition selects (name : string) (c : Label) : bool :=
  bool_decide (head c = Some name).

(** [df[name] = v] with a scalar [v]: the columns the key selects are
    overwritten; when there is none, a new column is appended on the
    right. *)
Definition setitem (name : string) (v : cell) (df : DataFrame) : DataFrame :=
  if existsb (selects name) (columns df) then
    {| columns := columns df;
       rows := map (λ row, zip_with (λ c x, if selects name c then v else x)
                             (columns df) row)
                   (rows df) |}
  else
    {| columns := columns df ++ [top_label name (depth (columns df))];
       rows := map (λ row, row ++ [v]) (rows df) |}.

Fixpoint positions (name : string) (i : nat) (cols : list Label) : list (nat * Label) :=
  match cols with
  | [] => []
  | c :: cols' =>
      if selects name c then (i, c) :: positions name (S i) cols'
      else positions name (S i) cols'
  end.

(** [df[name].iloc[0]] when it is one cell: the key selects exactly one
    column, whose lower levels are empty, and the table has a first row.
    [None] stands for every other case (a missing key, or a selection
    that is a table and not a column). *)
Definition getitem_iloc0 (name : string) (df : DataFrame) : option cell :=
  match positions name 0 (columns df), rows df with
  | [(i, c)], row :: _ =>
      if forallb (λ s, bool_decide (s = "")) (tail c) then row !! i else None
  | _, _ => None
  end.

(** The text [df.to_csv(index=False)] produces, kept as its records: one
    header line per level of the labels, then one line per row. *)
Record CsvFile := {
  header : list (list string);
  records : list (list cell)
}.

Definition level (k : nat) (cols : list Label) : list string :=
  map (λ c, default "" (c !! k)) cols.

Definition to_csv (df : DataFrame) : CsvFile :=
  {| header := map (λ k, level k (columns df)) (seq 0 (depth (columns df)));
     records := rows df |}.

(** ** The outside world *)

(** A Python exception.  [Exception msg] stands for an instance of
    [Exception] or of one of its subclasses, with the text [str(e)] gives;
    [KeyboardInterrupt] and [SystemExit] are the exceptions outside that
    class, which a handler for [Exception] lets through. *)
Inductive exn :=
| Exception (msg : string)
| KeyboardInterrupt
| SystemExit.

Definition is_exception (e : exn) : bool :=
  match e with
  | Exception _ => true
  | _ => false
  end.

Definition str_exn (e : exn) : string :=
  match e with
  | Exception msg => msg
  | _ => ""
  end.

(** The [EOFError] of [input]. *)
Definition EOFError : exn := Exception "EOF when reading a line".

(** Calls that leave the process. *)
Inductive event :=
| EvDownload (ticker period interval : string)
| EvMakedirs (path : string)
| EvWriteFile (path : string)
| EvClient (bucket_name : string)
| EvUpload (bucket_name key : string)
| EvPlot (ticker period : string).

(** What the operator does at a prompt: type a line, or interrupt the
    program.  An interrupt or exit request is attributed to the call to
    the outside during which it arrives: a prompt, here, or a call to a
    collaborator, in [Env] below. *)
Inductive answer :=
| Line (text : string)
| Interrupt.

Record World := {
  stdin : list answer;
  stdout : list string;
  files : gmap string CsvFile;
  dirs : gset string;
  objects : gmap (string * string) (CsvFile * string);
  trace : list event
}.

(** What the interpreter and the collaborators answer during one run. *)
Record Env := {
  (** the methods [str.lower], [str.upper] and [str.strip] *)
  str_lower : string → string;
  str_upper : string → string;
  str_strip : string → string;
  (** [yf.download(ticker, period=, interval=)]: a table or an exception *)
  yf_download : string → string → string → exn + PriceSeries;
  (** the exception, if any, of [os.makedirs] and of opening a file *)
  makedirs_error : string → option exn;
  open_error : string → option exn;
  (** whether [google.cloud.storage] was imported *)
  storage_imported : bool;
  (** the exception, if any, of [storage.Client().bucket(name)] *)
  client_error : string → option exn;
  (** the exception, if any, of [blob.upload_from_string] *)
  upload_error : string → string → option exn;
  (** whether [matplotlib] and [seaborn] were imported *)
  plotting_imported : bool;
  (** the exception, if any, of drawing the chart *)
  plot_error : option exn;
  (** the text of [df.tail()] *)
  tail_text : DataFrame → string;
  (** the dedented PySpark template for a ticker and a bucket name *)
  db_code : string → string → string;
  (** the module constant, as edited by the operator *)
  GCS_BUCKET_NAME : string
}.

(** The value [GCS_BUCKET_NAME] has in the script as shipped. *)
Definition placeholder_bucket : string := "your-gcs-bucket-name".

(** ** Computations: state plus exceptions *)

Inductive outcome (A : Type) :=
| Ret (a : A)
| Raise (e : exn).
Arguments Ret {A} a.
Arguments Raise {A} e.

Definition M (A : Type) : Type := World → outcome A * World.

Definition ret {A} (a : A) : M A := λ w, (Ret a, w).

Definition raise {A} (e : exn) : M A := λ w, (Raise e, w).

Definition bind {A B} (m : M A) (k : A → M B) : M B :=
  λ w, match m w with
       | (Ret a, w') => k a w'
       | (Raise e, w') => (Raise e, w')
       end.

(** [try: body  except Exception as e: handler e]: an exception of the
    class [Exception] is handed to the handler, any other goes on to the
    caller. *)
Definition try_except {A} (body : M A) (handler : exn → M A) : M A :=
  λ w, match body w with
       | (Ret a, w') => (Ret a, w')
       | (Raise e, w') => if is_exception e then handler e w' else (Raise e, w')
       end.

Notation "'do' x <- m ; k" := (bind m (λ x, k))
  (at level 10, x name, m at level 100, k at level 200).
Notation "m ;; k" := (bind m (λ _, k))
  (at level 100, k at level 200, right associativity).

(** [for x in l: body x] *)
Fixpoint for_each {A} (l : list A) (body : A → M unit) : M unit :=
  match l with
  | [] => ret tt
  | x :: l' => body x ;; for_each l' body
  end.

Definition set_stdin (l : list answer) (w : World) : World :=
  {| stdin := l; stdout := stdout w; files := files w; dirs := dirs w;
     objects := objects w; trace := trace w |}.

Definition set_stdout (l : list string) (w : World) : World :=
  {| stdin := stdin w; stdout := l; files := files w; dirs := dirs w;
     objects := objects w; trace := trace w |}.

Definition set_files (m : gmap string CsvFile) (w : World) : World :=
  {| stdin := stdin w; stdout := stdout w; files := m; dirs := dirs w;
     objects := objects w; trace := trace w |}.

Definition set_dirs (d : gset string) (w : World) : World :=
  {| stdin := stdin w; stdout := stdout w; files := files w; dirs := d;
     objects := objects w; trace := trace w |}.

Definition set_objects (m : gmap (string * string) (CsvFile * string)) (w : World) : World :=
  {| stdin := stdin w; stdout := stdout w; files := files w; dirs := dirs w;
     objects := m; trace := trace w |}.

Definition set_trace (t : list event) (w : World) : World :=
  {| stdin := stdin w; stdout := stdout w; files := files w; dirs := dirs w;
     objects := objects w; trace := t |}.

Definition emit (ev : event) : M unit :=
  λ w, (Ret tt, set_trace (trace w ++ [ev]) w).

(** [print(s)] *)
Definition print (s : string) : M unit :=
  λ w, (Ret tt, set_stdout (stdout w ++ [s]) w).

(** [input(prompt)]: the prompt is written and the operator answers.  A
    typed line is returned; an interrupt raises [KeyboardInterrupt]; at
    the end of the input [EOFError] is raised. *)
Definition input (prompt : string) : M string :=
  λ w, match stdin w with
       | [] => (Raise EOFError, set_stdout (stdout w ++ [prompt]) w)
       | Line text :: rest =>
           (Ret text, set_stdin rest (set_stdout (stdout w ++ [prompt]) w))
       | Interrupt :: rest =>
           (Raise KeyboardInterrupt, set_stdin rest (set_stdout (stdout w ++ [prompt]) w))
       end.

(** An operation of a collaborator that may fail. *)
Definition check (err : option exn) : M unit :=
  match err with
  | Some e => raise e
  | None => ret tt
  end.

(** ** The file system and the object store *)

(** [p.rstrip('/')] *)
Fixpoint rstrip_sep (p : string) : string :=
  match p with
  | EmptyString => EmptyString
  | String c p' =>
      match rstrip_sep p' with
      | EmptyString => if bool_decide (c = Str.sep) then EmptyString else String c EmptyString
      | r => String c r
      end
  end.

(** [p[:p.rfind('/') + 1]]; [None] when [p] has no separator. *)
Fixpoint up_to_last_sep (p : string) : option string :=
  match p with
  | EmptyString => None
  | String c p' =>
      match up_to_last_sep p' with
      | Some h => Some (String c h)
      | None => if bool_decide (c = Str.sep) then Some (String c EmptyString) else None
      end
  end.

(** [posixpath.dirname] *)
Definition dirname (p : string) : string :=
  let head := default EmptyString (up_to_last_sep p) in
  match rstrip_sep head with
  | EmptyString => head
  | h => h
  end.

(** The directory [d] and the directories above it, nearest first. *)
Fixpoint parents (fuel : nat) (d : string) : list string :=
  match fuel with
  | O => []
  | S fuel' => if bool_decide (d = "") then [] else d :: parents fuel' (dirname d)
  end.

(** [os.makedirs(d, exist_ok=True)] *)
Definition makedirs (env : Env) (d : string) : M unit :=
  emit (EvMakedirs d) ;;
  check (makedirs_error env d) ;;
  λ w, (Ret tt, set_dirs (dirs w ∪ list_to_set (parents (String.length d) d)) w).

(** [df.to_csv(path, index=False)]: the file is created or truncated. *)
Definition to_csv_path (env : Env) (df : DataFrame) (path : string) : M unit :=
  emit (EvWriteFile path) ;;
  check (open_error env path) ;;
  λ w, (Ret tt, set_files (<[path := to_csv df]> (files w)) w).

(** A bucket handle, which is the bucket's name. *)
Definition Bucket := string.

(** [bucket.blob(key).upload_from_string(data, content_type)] *)
Definition upload_from_string (env : Env) (bucket : Bucket) (key : string)
    (data : CsvFile) (content_type : string) : M unit :=
  emit (EvUpload bucket key) ;;
  check (upload_error env bucket key) ;;
  λ w, (Ret tt, set_objects (<[(bucket, key) := (data, content_type)]> (objects w)) w).

(** ** The functions of [main.py] *)

(** The second argument of [get_user_choice]: a list or the keys of a
    dictionary. *)
Inductive Options :=
| OList (l : list string)
| OKeys (l : list string).

Definition members (o : Options) : list string :=
  match o with OList l | OKeys l => l end.

(** The text an f-string gives for the options. *)
Definition repr_options (o : Options) : string :=
  match o with
  | OList l => "[" +:+ Str.join ", " (map Str.quote l) +:+ "]"
  | OKeys l => "dict_keys([" +:+ Str.join ", " (map Str.quote l) +:+ "])"
  end.

(** The [while True] loop of [get_user_choice].  Each turn takes one
    answer, so the answers still to come bound the number of turns; with
    none left, [input] raises. *)
Fixpoint get_user_choice_loop (env : Env) (prompt : string) (options : Options)
    (answers : list answer) : M string :=
  match answers with
  | [] => input prompt
  | _ :: answers' =>
      do line <- input prompt;
      let choice := str_strip env (str_lower env line) in
      if bool_decide (choice ∈ members options) then ret choice
      else
        print ("Invalid choice. Please select one of " +:+ repr_options options +:+ ".") ;;
        get_user_choice_loop env prompt options answers'
  end.

Definition get_user_choice (env : Env) (prompt : string) (options : Options) : M string :=
  λ w, get_user_choice_loop env prompt options (stdin w) w.

Definition period_options : list (string * string) :=
  [("1", "7d"); ("2", "1mo"); ("3", "1y"); ("4", "3y"); ("5", "5y"); ("6", "max")].

Definition period_map_display : list (string * string) :=
  [("1", "Weekly (7d)"); ("2", "Monthly (1mo)"); ("3", "Yearly (1y)");
   ("4", "3 Years"); ("5", "5 Years"); ("6", "All Time")].

(** [d[key]]; a missing key raises [KeyError]. *)
Definition dict_get (d : list (string * string)) (key : string) : M string :=
  match list_find (λ kv, kv.1 = key) d with
  | Some (_, (_, v)) => ret v
  | None => raise (Exception (Str.quote key))
  end.

Definition get_analysis_parameters (env : Env) : M (string * string) :=
  print (Str.nl +:+ "--- Asset & Period Selection ---") ;;
  print "Formats: NSE -> RELIANCE.NS | BSE -> 500325.BO | MF -> AXISBLUECHIP.NS" ;;
  do line <- input "Enter ticker symbol: ";
  let ticker := str_strip env (str_upper env line) in
  print (Str.nl +:+ "Select time period:") ;;
  for_each period_map_display (λ kv, print ("  " +:+ kv.1 +:+ ": " +:+ kv.2)) ;;
  do choice <- get_user_choice env "Enter choice (1-6): " (OKeys (map fst period_options));
  do period <- dict_get period_options choice;
  ret (ticker, period).

Definition plot_stock_performance (env : Env) (df : DataFrame)
    (ticker period : string) : M unit :=
  if negb (plotting_imported env) then
    print (Str.nl +:+ "WARNING: Plotting libraries not installed (matplotlib, seaborn). Cannot generate graph.") ;;
    print ("--- Data for {ticker} ---" +:+ Str.nl +:+ " " +:+ tail_text env df)
  else
    print (Str.nl +:+ "Generating plot...") ;;
    emit (EvPlot ticker (str_upper env period)) ;;
    check (plot_error env).

(** The lines [get_gcs_bucket] prints. *)
Definition not_installed_message : string :=
  Str.nl +:+ "FATAL: 'google-cloud-storage' not installed. Run 'pip install google-cloud-storage'.".

Definition no_client_message : string :=
  Str.nl +:+ "FATAL: Could not initialize GCS client. Ensure GOOGLE_APPLICATION_CREDENTIALS is set.".

Definition get_gcs_bucket (env : Env) (bucket_name : string) : M (option Bucket) :=
  if negb (storage_imported env) then
    print not_installed_message ;;
    ret None
  else
    try_except
      (emit (EvClient bucket_name) ;;
       check (client_error env bucket_name) ;;
       ret (Some bucket_name))
      (λ _,
       print no_client_message ;;
       ret None).

Definition save_data_locally (env : Env) (df : DataFrame)
    (ticker file_date : string) : M unit :=
  let path := local_path ticker file_date in
  makedirs env (dirname path) ;;
  to_csv_path env df path.

Definition upload_data_to_gcs (env : Env) (df : DataFrame)
    (ticker file_date : string) (bucket : Bucket) : M unit :=
  upload_from_string env bucket (blob_name ticker file_date) (to_csv df) "text/csv".

(** [day_df]: the one-row table built at the top of the loop body. *)
Definition day_frame (ticker : string) (row : PriceRow) : DataFrame :=
  let day_df := row_frame row in
  let day_df := rename "index" "Date" day_df in
  setitem "Ticker" (VStr ticker) day_df.

(** [x.strftime('%Y-%m-%d')] for the value read from the table; anything
    but a date has no such method. *)
Definition strftime_cell (x : option cell) : M string :=
  match x with
  | Some (VDate t) => ret (strftime_Ymd t)
  | _ => raise (Exception "object has no attribute 'strftime'")
  end.

(** The body of the loop over [stock_data.iterrows()]. *)
Definition store_row (env : Env) (ticker storage_target : string)
    (gcs_bucket : option Bucket) (row : PriceRow) : M unit :=
  let day_df := day_frame ticker row in
  do file_date <- strftime_cell (getitem_iloc0 "Date" day_df);
  if bool_decide (storage_target = "local") then
    save_data_locally env day_df ticker file_date
  else
    match bool_decide (storage_target = "gcp"), gcs_bucket with
    | true, Some bucket => upload_data_to_gcs env day_df ticker file_date bucket
    | _, _ => ret tt
    end.

(** The lines [fetch_and_store_data] prints. *)
Definition fetching_message (env : Env) (ticker storage_target : string) : string :=
  Str.nl +:+ "[1] Fetching data for '" +:+ ticker +:+ "' | Target: "
  +:+ str_upper env storage_target.

Definition no_data_message (ticker : string) : string :=
  "ERROR: No data found for '" +:+ ticker +:+ "'. Please check the symbol.".

Definition fetched_message (n : nat) : string :=
  "-> Fetched " +:+ Str.of_nat n +:+ " data points.".

Definition complete_message : string := "-> Data ingestion complete.".

Definition error_message (e : exn) : string :=
  "An error occurred during data fetch: " +:+ str_exn e.

(** [yf.download(ticker, period=period, interval="1d")] *)
Definition download (env : Env) (ticker period : string) : M PriceSeries :=
  emit (EvDownload ticker period "1d") ;;
  match yf_download env ticker period "1d" with
  | inl e => raise e
  | inr data => ret data
  end.

Definition fetch_and_store_data (env : Env) (ticker period storage_target : string)
    (gcs_bucket : option Bucket) : M (option DataFrame) :=
  print (fetching_message env ticker storage_target) ;;
  try_except
    (do stock_data <- download env ticker period;
     if empty stock_data then
       print (no_data_message ticker) ;;
       ret None
     else
       print (fetched_message (len stock_data)) ;;
       for_each (iterrows stock_data) (store_row env ticker storage_target gcs_bucket) ;;
       print complete_message ;;
       ret (Some (reset_index stock_data)))
    (λ e,
     print (error_message e) ;;
     ret None).

Definition process_data_locally (env : Env) (fetched_data : option DataFrame)
    (ticker period : string) : M unit :=
  print (Str.nl +:+ "[2] Processing data locally for '" +:+ ticker +:+ "'...") ;;
  match fetched_data with
  | None => print "-> No data to process."
  | Some df =>
      match rows df with
      | [] => print "-> No data to process."
      | _ => plot_stock_performance env df ticker period
      end
  end.

Definition provide_databricks_instructions (env : Env) (ticker : string) : M unit :=
  print (Str.nl +:+ "[2] Data is ready for Databricks analysis.") ;;
  print "-> Paste the following PySpark code into a Databricks notebook cell:" ;;
  print (Str.repeat_char "-" 70) ;;
  print (db_code env ticker (GCS_BUCKET_NAME env)) ;;
  print (Str.repeat_char "-" 70).

(** The lines [main] prints when it stops early. *)
Definition no_ticker_message : string := "No ticker provided. Exiting.".

Definition placeholder_message : string :=
  Str.nl +:+ "ERROR: Please update the GCS_BUCKET_NAME in the script before using GCP.".

Definition main (env : Env) : M unit :=
  do storage_target <- get_user_choice env "Select storage target (local/gcp): "
                         (OList ["local"; "gcp"]);
  do processing_target <- get_user_choice env "Select processing target (local/databricks): "
                            (OList ["local"; "databricks"]);
  do params <- get_analysis_parameters env;
  let ticker := params.1 in
  let period := params.2 in
  if bool_decide (ticker = "") then
    print no_ticker_message
  else if bool_decide (storage_target = "gcp")
          && bool_decide (GCS_BUCKET_NAME env = placeholder_bucket) then
    print placeholder_message
  else
    do gcs_bucket <- (if bool_decide (storage_target = "gcp")
                      then get_gcs_bucket env (GCS_BUCKET_NAME env)
                      else ret None);
    if bool_decide (storage_target = "gcp") && bool_decide (gcs_bucket = None) then
      ret tt
    else
      do fetched_data <- fetch_and_store_data env ticker period storage_target gcs_bucket;
      if bool_decide (processing_target = "local") then
        process_data_locally env fetched_data ticker period
      else if bool_decide (processing_target = "databricks") then
        provide_databricks_instructions env ticker
      else ret tt.

(** The value [file_date] has in the loop body for a row. *)
Definition file_date_of (row : PriceRow) : string := strftime_Ymd (Date row).

(** ** Reading a date field back *)

(** The number a text of decimal digits denotes; [None] when a character
    is not a digit.  It is used to state what the fields of a partition
    path contain. *)
Fixpoint read_decimal (acc : Z) (s : string) : option Z :=
  match s with
  | EmptyString => Some acc
  | String c s' =>
      match Ascii.is_nat c with
      | Some n => read_decimal (10 * acc + Z.of_nat n) s'
      | None => None
      end
  end.

(** ** Vocabulary of the statements *)

(** Two worlds with the same files, directories, objects and trace: at
    most console traffic lies between them. *)
Definition same_stores (w w' : World) : Prop :=
  files w' = files w ∧ dirs w' = dirs w ∧ objects w' = objects w ∧ trace w' = trace w.

(** A computation that touches nothing but the console. *)
Definition console_only {A} (m : M A) : Prop :=
  ∀ w, same_stores w (m w).2.

(** The calls to the data source recorded in a trace. *)
Definition is_download (ev : event) : bool :=
  match ev with
  | EvDownload _ _ _ => true
  | _ => false
  end.

Definition downloads (t : list event) : list event := List.filter is_download t.

(** The calls to the object store, and the calls to the local file
    system, recorded in a trace. *)
Definition is_cloud_call (ev : event) : bool :=
  match ev with
  | EvClient _ | EvUpload _ _ => true
  | _ => false
  end.

Definition is_local_call (ev : event) : bool :=
  match ev with
  | EvMakedirs _ | EvWriteFile _ => true
  | _ => false
  end.

Definition cloud_calls (t : list event) : list event := List.filter is_cloud_call t.

Definition local_calls (t : list event) : list event := List.filter is_local_call t.

(** A computation that leaves one observation of the world as it was,
    whatever its outcome. *)
Definition keeps {X A} (f : World → X) (m : M A) : Prop :=
  ∀ w, f (m w).2 = f w.

(** Rows of a price table. *)
Definition price_rows (l : list PriceRow) : Prop :=
  Forall (λ row, plain (labels row) = true) l.

(** What the handler of [fetch_and_store_data] makes of an exception
    raised in the body: the error line and [None] for an exception of the
    class [Exception]; any other is not caught. *)
Definition handled (e : exn) (w : World) : outcome (option DataFrame) * World :=
  if is_exception e then (Ret None, set_stdout (stdout w ++ [error_message e]) w)
  else (Raise e, w).

(** The header of the one-row table of a row, one line per level of the
    labels of the row: on the first line [Date], the first level of each
    label, [Ticker]; on every further line the empty text, that level of
    each label, the empty text. *)
Definition header_lines (row : PriceRow) : list (list string) :=
  map (λ k, (if bool_decide (k = 0%nat) then "Date" else "")
            :: map (λ c, default "" (c !! k)) (labels row)
            ++ [if bool_decide (k = 0%nat) then "Ticker" else ""])
      (seq 0 (depth (labels row))).

Definition first_header_line (row : PriceRow) : list string :=
  "Date" :: map (λ c, default "" (head c)) (labels row) ++ ["Ticker"].

(** The one-row table of a row, as it is written: the header of the row,
    which has as many lines as the labels of the row have levels and
    whose first line names the columns [Date] and [Ticker] around those
    of the row, and one record, which holds the date of the row, its
    values and the ticker. *)
Definition one_row_table (ticker : string) (row : PriceRow) (c : CsvFile) : Prop :=
  header c = header_lines row
  ∧ length (header c) = depth (labels row)
  ∧ head (header c) = Some (first_header_line row)
  ∧ records c = [VDate (Date row) :: values row ++ [VStr ticker]].

(** Collaborators that raise nothing but exceptions of the class
    [Exception]: no interrupt and no exit request comes out of the data
    source, the file system or the object store. *)
Definition no_interrupt (env : Env) : Prop :=
  (∀ ticker period interval e,
     yf_download env ticker period interval = inl e → is_exception e = true)
  ∧ (∀ d e, makedirs_error env d = Some e → is_exception e = true)
  ∧ (∀ path e, open_error env path = Some e → is_exception e = true)
  ∧ (∀ bucket_name e, client_error env bucket_name = Some e → is_exception e = true)
  ∧ (∀ bucket key e, upload_error env bucket key = Some e → is_exception e = true).

(** ** Sample data *)

Definition jan (d : Z) : Timestamp := {| year := 2024; month := 1; day := d |}.

(** Plain columns, four of floats and one of integers. *)
Definition ohlcv : list Label := [["Open"]; ["High"]; ["Low"]; ["Close"]; ["Volume"]].

Definition ohlcv_dtypes : list dtype := [float64; float64; float64; float64; int64].

Definition bar (d : Z) (c : float) (v : Z) : Timestamp * list cell :=
  (jan d, [VFloat c; VFloat c; VFloat c; VFloat c; VInt v]).

Definition three_days : PriceSeries :=
  {| series_columns := ohlcv;
     series_dtypes := ohlcv_dtypes;
     series_rows := [bar 2 2590.5%float 1200; bar 3 2601.25%float 900; bar 4 2588%float 1500];
     series_ok := eq_refl |}.

Definition no_days : PriceSeries :=
  {| series_columns := ohlcv;
     series_dtypes := ohlcv_dtypes;
     series_rows := [];
     series_ok := eq_refl |}.

(** The rows [iterrows] gives for [three_days]: the volume has become a
    float. *)
Definition day_row (d : Z) (c : float) (v : float) : PriceRow :=
  {| Date := jan d; labels := ohlcv;
     values := [VFloat c; VFloat c; VFloat c; VFloat c; VFloat v] |}.

Definition day2 : PriceRow := day_row 2 2590.5%float 1200%float.
Definition day3 : PriceRow := day_row 3 2601.25%float 900%float.
Definition day4 : PriceRow := day_row 4 2588%float 1500%float.

(** A table labelled by price field and ticker, as recent versions of the
    data source return it. *)
Definition by_field_and_ticker : list Label :=
  [["Close"; "TCS.NS"]; ["High"; "TCS.NS"]; ["Low"; "TCS.NS"]; ["Open"; "TCS.NS"];
   ["Volume"; "TCS.NS"]].

Definition two_levels : PriceSeries :=
  {| series_columns := by_field_and_ticker;
     series_dtypes := ohlcv_dtypes;
     series_rows := [bar 2 2590.5%float 1200];
     series_ok := eq_refl |}.

(** One day with a volume beyond the integers that floats hold exactly. *)
Definition heavy_day : PriceSeries :=
  {| series_columns := ohlcv;
     series_dtypes := ohlcv_dtypes;
     series_rows := [bar 2 2590.5%float (2 ^ 53 + 1)];
     series_ok := eq_refl |}.

(** A fresh machine: nothing typed, nothing printed, nothing stored. *)
Definition fresh : World :=
  {| stdin := []; stdout := []; files := ∅; dirs := ∅; objects := ∅; trace := [] |}.

Definition typed (lines : list string) : World := set_stdin (map Line lines) fresh.

(** Collaborators that never fail, around a given data source, with the
    text methods of ASCII. *)
Definition calm (source : string → string → string → exn + PriceSeries)
    (bucket_name : string) : Env :=
  {| str_lower := Str.lower;
     str_upper := Str.upper;
     str_strip := Str.strip;
     yf_download := source;
     makedirs_error := λ _, None;
     open_error := λ _, None;
     storage_imported := true;
     client_error := λ _, None;
     upload_error := λ _ _, None;
     plotting_imported := true;
     plot_error := None;
     tail_text := λ _, "";
     db_code := λ _ _, "";
     GCS_BUCKET_NAME := bucket_name |}.

(** The same, except that the named files cannot be opened and the named
    objects cannot be uploaded. *)
Definition failing_at (bad : list string)
    (source : string → string → string → exn + PriceSeries) : Env :=
  {| str_lower := Str.lower;
     str_upper := Str.upper;
     str_strip := Str.strip;
     yf_download := source;
     makedirs_error := λ _, None;
     open_error := λ p, if bool_decide (p ∈ bad) then Some (Exception "disk full") else None;
     storage_imported := true;
     client_error := λ _, None;
     upload_error := λ _ k, if bool_decide (k ∈ bad) then Some (Exception "503") else None;
     plotting_imported := true;
     plot_error := None;
     tail_text := λ _, "";
     db_code := λ _ _, "";
     GCS_BUCKET_NAME := "lake" |}.

(** Collaborators that never fail, on a machine where the client library
    of the object store is not installed. *)
Definition no_storage_library (source : string → string → string → exn + PriceSeries)
    (bucket_name : string) : Env :=
  {| str_lower := Str.lower;
     str_upper := Str.upper;
     str_strip := Str.strip;
     yf_download := source;
     makedirs_error := λ _, None;
     open_error := λ _, None;
     storage_imported := false;
     client_error := λ _, None;
     upload_error := λ _ _, None;
     plotting_imported := true;
     plot_error := None;
     tail_text := λ _, "";
     db_code := λ _ _, "";
     GCS_BUCKET_NAME := bucket_name |}.

(** Collaborators that never fail, on a machine without credentials for
    the object store. *)
Definition no_credentials (source : string → string → string → exn + PriceSeries)
    (bucket_name : string) : Env :=
  {| str_lower := Str.lower;
     str_upper := Str.upper;
     str_strip := Str.strip;
     yf_download := source;
     makedirs_error := λ _, None;
     open_error := λ _, None;
     storage_imported := true;
     client_error := λ _, Some (Exception "DefaultCredentialsError");
     upload_error := λ _ _, None;
     plotting_imported := true;
     plot_error := None;
     tail_text := λ _, "";
     db_code := λ _ _, "";
     GCS_BUCKET_NAME := bucket_name |}.

Definition source_of (data : PriceSeries) : string → string → string → exn + PriceSeries :=
  λ _ _ _, inr data.

Definition source_down (msg : string) : string → string → string → exn + PriceSeries :=
  λ _ _ _, inl (Exception msg).

(** A data source during whose call the operator interrupts the program. *)
Definition source_interrupted : string → string → string → exn + PriceSeries :=
  λ _ _ _, inl KeyboardInterrupt.

(** * Properties *)

(** ** Text and dates *)

Lemma app_nil_l (t : string) : "" +:+ t = t.
Proof. reflexivity. Qed.

Lemma app_cons (c : ascii) (s t : string) : String c s +:+ t = String c (s +:+ t).
Proof. reflexivity. Qed.

Lemma app_nil_r_str (t : string) : t +:+ "" = t.
Proof. induction t as [|c t IH]; [done|]. rewrite app_cons. by f_equal. Qed.

Lemma app_assoc_str (s t u : string) : (s +:+ t) +:+ u = s +:+ (t +:+ u).
Proof. induction s as [|c s IH]; [done|]. rewrite !app_cons. by f_equal. Qed.

Lemma length_app_str (s t : string) :
  String.length (s +:+ t) = (String.length s + String.length t)%nat.
Proof. induction s as [|c s IH]; [done|]. rewrite app_cons. simpl. by f_equal. Qed.

(** Two texts that end in tails of the same length agree on both parts. *)
Lemma app_inj_tail_str (s s' t t' : string) :
  String.length t = String.length t' →
  s +:+ t = s' +:+ t' → s = s' ∧ t = t'.
Proof.
  revert s'. induction s as [|c s IH]; intros [|c' s'] Hlen Heq.
  - done.
  - rewrite app_nil_l, app_cons in Heq. subst t.
    simpl in Hlen. rewrite length_app_str in Hlen. lia.
  - rewrite app_nil_l, app_cons in Heq. subst t'.
    simpl in Hlen. rewrite length_app_str in Hlen. lia.
  - rewrite !app_cons in Heq. injection Heq as -> Heq.
    destruct (IH s' Hlen Heq) as [-> ->]. done.
Qed.

Lemma digit_code (n : Z) : N_of_ascii (Str.digit n) = Z.to_N (48 + n mod 10).
Proof.
  unfold Str.digit. pose proof (Z.mod_pos_bound n 10 eq_refl).
  apply N_ascii_embedding. lia.
Qed.

Lemma digit_inj (a b : Z) : Str.digit a = Str.digit b → a mod 10 = b mod 10.
Proof.
  intros H. apply (f_equal N_of_ascii) in H. rewrite !digit_code in H.
  pose proof (Z.mod_pos_bound a 10 eq_refl). pose proof (Z.mod_pos_bound b 10 eq_refl). lia.
Qed.

Lemma digit_not_dash (n : Z) : Str.digit n ≠ "-"%char.
Proof.
  intros H. apply (f_equal N_of_ascii) in H. rewrite digit_code in H.
  pose proof (Z.mod_pos_bound n 10 eq_refl). simpl in H. lia.
Qed.

Lemma digit_not_sep (n : Z) : Str.digit n ≠ Str.sep.
Proof.
  intros H. apply (f_equal N_of_ascii) in H. rewrite digit_code in H.
  pose proof (Z.mod_pos_bound n 10 eq_refl). simpl in H. lia.
Qed.

Lemma days_in_month_le (y m : Z) : days_in_month y m ≤ 31.
Proof. unfold days_in_month. repeat (destruct (is_leap _) || case_match); lia. Qed.

(** From the year 1000 on the text of a date has ten characters. *)
Lemma length_strftime (t : Timestamp) :
  1000 ≤ year t → String.length (strftime_Ymd t) = 10%nat.
Proof.
  intros Hy. unfold strftime_Ymd, Str.year_digits.
  destruct (Z.ltb_spec (year t) 10), (Z.ltb_spec (year t) 100),
    (Z.ltb_spec (year t) 1000); try lia.
  reflexivity.
Qed.

Local Ltac dash_clash :=
  match goal with
  | E : Str.digit _ = "-"%char |- _ => destruct (digit_not_dash _ E)
  | E : "-"%char = Str.digit _ |- _ => destruct (digit_not_dash _ (eq_sym E))
  end.

(** On the dates Python can represent, the text determines the date. *)
Lemma strftime_inj (t1 t2 : Timestamp) :
  valid_date t1 → valid_date t2 →
  strftime_Ymd t1 = strftime_Ymd t2 → t1 = t2.
Proof.
  destruct t1 as [y1 m1 d1], t2 as [y2 m2 d2].
  unfold valid_date, strftime_Ymd, Str.year_digits, Str.pad4, Str.pad2.
  cbn [year month day].
  intros (Hy1 & Hm1 & Hd1) (Hy2 & Hm2 & Hd2).
  pose proof (days_in_month_le y1 m1) as Hmax1.
  pose proof (days_in_month_le y2 m2) as Hmax2.
  destruct (Z.ltb_spec y1 10), (Z.ltb_spec y1 100), (Z.ltb_spec y1 1000); try lia;
    destruct (Z.ltb_spec y2 10), (Z.ltb_spec y2 100), (Z.ltb_spec y2 1000); try lia;
    rewrite ?app_cons, ?app_nil_l; intros Heq; injection Heq; intros;
    try dash_clash;
    repeat match goal with
           | E : Str.digit _ = Str.digit _ |- _ => apply digit_inj in E
           end;
    f_equal; Z.div_mod_to_equations; lia.
Qed.

Lemma is_nat_digit (n : Z) : Ascii.is_nat (Str.digit n) = Some (Z.to_nat (n mod 10)).
Proof.
  unfold Str.digit. pose proof (Z.mod_pos_bound n 10 eq_refl) as Hb.
  assert (∃ k : nat, (k < 10)%nat ∧ n mod 10 = Z.of_nat k) as (k & Hk & ->).
  { exists (Z.to_nat (n mod 10)). lia. }
  rewrite Nat2Z.id.
  do 10 (destruct k as [|k]; [reflexivity|]). lia.
Qed.

Lemma read_pad2 (n : Z) : 0 ≤ n < 100 → read_decimal 0 (Str.pad2 n) = Some n.
Proof.
  intros Hn. unfold Str.pad2. simpl. rewrite !is_nat_digit. simpl.
  f_equal. rewrite !Z2Nat.id by (apply Z.mod_pos_bound; lia).
  Z.div_mod_to_equations; lia.
Qed.

Lemma read_pad4 (n : Z) : 0 ≤ n < 10000 → read_decimal 0 (Str.pad4 n) = Some n.
Proof.
  intros Hn. unfold Str.pad4, Str.pad2. simpl. rewrite !is_nat_digit. simpl.
  f_equal. rewrite !Z2Nat.id by (apply Z.mod_pos_bound; lia).
  Z.div_mod_to_equations; lia.
Qed.

Lemma valid_date_bounds (t : Timestamp) :
  valid_date t → 0 ≤ year t < 10000 ∧ 0 ≤ month t < 100 ∧ 0 ≤ day t < 100.
Proof.
  intros (Hy & Hm & Hd). pose proof (days_in_month_le (year t) (month t)). lia.
Qed.

Lemma year_digits_four (y : Z) : 1000 ≤ y → Str.year_digits y = Str.pad4 y.
Proof.
  intros Hy. unfold Str.year_digits.
  destruct (Z.ltb_spec y 10), (Z.ltb_spec y 100), (Z.ltb_spec y 1000); try lia.
  reflexivity.
Qed.

(** ** Partition paths *)

Lemma endswith_sep_app (s t : string) :
  t ≠ "" → Str.endswith_sep (s +:+ t) = Str.endswith_sep t.
Proof.
  intros Ht. induction s as [|c s IH]; [done|].
  rewrite app_cons. simpl. rewrite IH.
  destruct (s +:+ t) eqn:E; [|done].
  destruct s; [rewrite app_nil_l in E; done | by rewrite app_cons in E].
Qed.

Lemma endswith_sep_ticker (ticker : string) :
  Str.endswith_sep ("stock_data_lake/ticker=" +:+ ticker) = Str.endswith_sep ticker.
Proof.
  destruct ticker as [|c t]; [reflexivity|].
  by apply endswith_sep_app.
Qed.

Lemma endswith_sep_snoc (p : string) : Str.endswith_sep (p +:+ "/") = true.
Proof. by rewrite endswith_sep_app. Qed.

(** What [os.path.join] makes of the three components: the separator
    before the file name is left out when the ticker already ends with
    one. *)
Lemma local_path_eq (ticker file_date : string) :
  local_path ticker file_date
  = "stock_data_lake/ticker=" +:+ ticker
    +:+ (if Str.endswith_sep ticker then "" else "/")
    +:+ "date=" +:+ file_date +:+ ".csv".
Proof.
  unfold local_path, os_path_join, LOCAL_DATA_LAKE_FOLDER. simpl.
  assert (join2 "stock_data_lake" ("ticker=" +:+ ticker)
          = "stock_data_lake/ticker=" +:+ ticker) as -> by reflexivity.
  unfold join2.
  assert (Str.startswith_sep ("date=" +:+ file_date +:+ ".csv") = false) as -> by reflexivity.
  assert (bool_decide ("stock_data_lake/ticker=" +:+ ticker = "") = false) as -> by reflexivity.
  rewrite endswith_sep_ticker. cbn [orb].
  destruct (Str.endswith_sep ticker); by rewrite !app_assoc_str.
Qed.

Lemma up_to_last_sep_app_none (q s : string) :
  up_to_last_sep s = None → up_to_last_sep (q +:+ s) = up_to_last_sep q.
Proof.
  intros Hs. induction q as [|c q IH]; [by rewrite app_nil_l|].
  rewrite app_cons. simpl. by rewrite IH.
Qed.

Lemma up_to_last_sep_endswith (q : string) :
  Str.endswith_sep q = true → up_to_last_sep q = Some q.
Proof.
  induction q as [|c q IH]; [done|]. simpl.
  destruct q as [|c' q].
  - simpl. intros Hc. by rewrite Hc.
  - intros Hq. by rewrite (IH Hq).
Qed.

(** A text is cut in one way only into a part that ends with the
    separator and a part without separator. *)
Lemma split_at_last_sep (q1 q2 s1 s2 : string) :
  Str.endswith_sep q1 = true → Str.endswith_sep q2 = true →
  up_to_last_sep s1 = None → up_to_last_sep s2 = None →
  q1 +:+ s1 = q2 +:+ s2 → q1 = q2 ∧ s1 = s2.
Proof.
  intros E1 E2 N1 N2 H.
  assert (q1 = q2) as ->.
  { apply (f_equal up_to_last_sep) in H.
    rewrite !up_to_last_sep_app_none, !up_to_last_sep_endswith in H by done.
    by injection H. }
  split; [done|]. by apply (inj (String.app q2)) in H.
Qed.

(** The file name of a partition has no separator. *)
Lemma file_name_has_no_sep (t : Timestamp) :
  up_to_last_sep ("date=" +:+ strftime_Ymd t +:+ ".csv") = None.
Proof.
  unfold strftime_Ymd, Str.year_digits, Str.pad4, Str.pad2.
  destruct (year t <? 10), (year t <? 100), (year t <? 1000);
    repeat (rewrite app_cons || rewrite app_nil_l); cbn [up_to_last_sep];
    rewrite !(bool_decide_eq_false_2 _ (digit_not_sep _)); reflexivity.
Qed.

Lemma file_name_inj (f1 f2 : string) :
  "date=" +:+ f1 +:+ ".csv" = "date=" +:+ f2 +:+ ".csv" → f1 = f2.
Proof.
  intros H. apply (inj (String.app "date=")) in H.
  by apply app_inj_tail_str in H as [-> _].
Qed.

Lemma blob_name_inj (t1 t2 f1 f2 : string) :
  up_to_last_sep ("date=" +:+ f1 +:+ ".csv") = None →
  up_to_last_sep ("date=" +:+ f2 +:+ ".csv") = None →
  blob_name t1 f1 = blob_name t2 f2 → t1 = t2 ∧ f1 = f2.
Proof.
  unfold blob_name. intros N1 N2 H.
  assert (∀ t f, "ticker=" +:+ t +:+ "/date=" +:+ f +:+ ".csv"
                 = ("ticker=" +:+ t +:+ "/") +:+ ("date=" +:+ f +:+ ".csv")) as Hcut.
  { intros t f. by rewrite !app_assoc_str. }
  rewrite !Hcut in H.
  apply split_at_last_sep in H as [Hq Hs]; try done.
  - apply (inj (String.app "ticker=")) in Hq.
    apply app_inj_tail_str in Hq as [-> _]; [|done].
    split; [done|]. by apply file_name_inj.
  - rewrite <- app_assoc_str. apply endswith_sep_snoc.
  - rewrite <- app_assoc_str. apply endswith_sep_snoc.
Qed.

Lemma local_path_inj (t1 t2 f1 f2 : string) :
  up_to_last_sep ("date=" +:+ f1 +:+ ".csv") = None →
  up_to_last_sep ("date=" +:+ f2 +:+ ".csv") = None →
  Str.endswith_sep t1 = Str.endswith_sep t2 →
  local_path t1 f1 = local_path t2 f2 → t1 = t2 ∧ f1 = f2.
Proof.
  rewrite !local_path_eq. intros N1 N2 Hsep H. rewrite Hsep in H.
  assert (∀ t f u, "stock_data_lake/ticker=" +:+ t +:+ u +:+ "date=" +:+ f +:+ ".csv"
                   = ("stock_data_lake/ticker=" +:+ t +:+ u)
                     +:+ ("date=" +:+ f +:+ ".csv")) as Hcut.
  { intros t f u. by rewrite !app_assoc_str. }
  rewrite !Hcut in H.
  assert (∀ t, Str.endswith_sep t = Str.endswith_sep t2 →
               Str.endswith_sep ("stock_data_lake/ticker=" +:+ t
                                 +:+ (if Str.endswith_sep t2 then "" else "/")) = true)
    as Hend.
  { intros t Ht. destruct (Str.endswith_sep t2).
    - by rewrite app_nil_r_str, endswith_sep_ticker.
    - rewrite <- app_assoc_str. apply endswith_sep_snoc. }
  apply split_at_last_sep in H as [Hq Hs]; auto.
  apply (inj (String.app "stock_data_lake/ticker=")) in Hq.
  apply app_inj_tail_str in Hq as [-> _]; [|done].
  split; [done|]. by apply file_name_inj.
Qed.

(** C4, as the code has it.  Both key constructions are functions of the
    pair (ticker, date).  The object name is injective on all valid dates
    and all tickers.  The local path is injective on the pairs whose
    tickers do not end with the path separator. *)
Theorem partition_key_injective (t1 t2 : string) (d1 d2 : Timestamp) :
  valid_date d1 → valid_date d2 →
  (t1 = t2 → d1 = d2 →
   blob_name t1 (strftime_Ymd d1) = blob_name t2 (strftime_Ymd d2)
   ∧ local_path t1 (strftime_Ymd d1) = local_path t2 (strftime_Ymd d2))
  ∧ (blob_name t1 (strftime_Ymd d1) = blob_name t2 (strftime_Ymd d2) →
     t1 = t2 ∧ d1 = d2)
  ∧ (Str.endswith_sep t1 = false → Str.endswith_sep t2 = false →
     local_path t1 (strftime_Ymd d1) = local_path t2 (strftime_Ymd d2) →
     t1 = t2 ∧ d1 = d2).
Proof.
  intros V1 V2. split; [|split].
  - intros -> ->. done.
  - intros H. apply blob_name_inj in H as [-> H]; [|apply file_name_has_no_sep..].
    split; [done|]. by apply strftime_inj.
  - intros E1 E2 H.
    apply local_path_inj in H as [-> H];
      [|apply file_name_has_no_sep..|congruence].
    split; [done|]. by apply strftime_inj.
Qed.

Lemma valid_jan (d : Z) : 1 ≤ d ≤ 31 → valid_date (jan d).
Proof. unfold valid_date. simpl. lia. Qed.

Lemma partition_key_injective_witness :
  (blob_name "TCS.NS" (strftime_Ymd (jan 2)) = blob_name "INFY.NS" (strftime_Ymd (jan 3)) →
   "TCS.NS" = "INFY.NS" ∧ jan 2 = jan 3)
  ∧ (local_path "TCS.NS" (strftime_Ymd (jan 2)) = local_path "INFY.NS" (strftime_Ymd (jan 3)) →
     "TCS.NS" = "INFY.NS" ∧ jan 2 = jan 3).
Proof.
  destruct (partition_key_injective "TCS.NS" "INFY.NS" (jan 2) (jan 3)) as (_ & Hb & Hl).
  - apply valid_jan. lia.
  - apply valid_jan. lia.
  - split; [exact Hb | exact (Hl eq_refl eq_refl)].
Defined.

(** C4 as stated fails for the local path: the tickers [A/] and [A], both
    non-empty, upper case and trimmed, share every partition path. *)
Lemma local_path_collision :
  valid_date (jan 2)
  ∧ Str.strip (Str.upper "A/") = "A/" ∧ Str.strip (Str.upper "A") = "A"
  ∧ bool_decide ("A/" = "A") = false
  ∧ local_path "A/" (strftime_Ymd (jan 2)) = "stock_data_lake/ticker=A/date=2024-01-02.csv"
  ∧ local_path "A" (strftime_Ymd (jan 2)) = "stock_data_lake/ticker=A/date=2024-01-02.csv".
Proof.
  split; [apply valid_jan; lia|]. repeat split; reflexivity.
Qed.

(** C5, as the code has it.  For a date whose year has four digits the
    date field is the zero-padded text YYYY-MM-DD of the date.  The object
    name is ticker=TICKER/date=YYYY-MM-DD.csv for every ticker.  The local
    path is stock_data_lake/ticker=TICKER/date=YYYY-MM-DD.csv for every
    ticker that does not end with the path separator. *)
Theorem partition_path_form (ticker : string) (d : Timestamp) :
  valid_date d →
  1000 ≤ year d →
  ∃ yyyy mm dd : string,
    (String.length yyyy = 4%nat ∧ read_decimal 0 yyyy = Some (year d))
    ∧ (String.length mm = 2%nat ∧ read_decimal 0 mm = Some (month d))
    ∧ (String.length dd = 2%nat ∧ read_decimal 0 dd = Some (day d))
    ∧ strftime_Ymd d = yyyy +:+ "-" +:+ mm +:+ "-" +:+ dd
    ∧ blob_name ticker (strftime_Ymd d)
      = "ticker=" +:+ ticker +:+ "/date=" +:+ (yyyy +:+ "-" +:+ mm +:+ "-" +:+ dd) +:+ ".csv"
    ∧ (Str.endswith_sep ticker = false →
       local_path ticker (strftime_Ymd d)
       = "stock_data_lake/ticker=" +:+ ticker +:+ "/date="
         +:+ (yyyy +:+ "-" +:+ mm +:+ "-" +:+ dd) +:+ ".csv").
Proof.
  intros V Hy. apply valid_date_bounds in V as (Hb & Hm & Hd).
  assert (strftime_Ymd d
          = Str.pad4 (year d) +:+ "-" +:+ Str.pad2 (month d) +:+ "-" +:+ Str.pad2 (day d))
    as Htext by (unfold strftime_Ymd; by rewrite year_digits_four).
  exists (Str.pad4 (year d)), (Str.pad2 (month d)), (Str.pad2 (day d)).
  split; [split; [reflexivity | by apply read_pad4]|].
  split; [split; [reflexivity | by apply read_pad2]|].
  split; [split; [reflexivity | by apply read_pad2]|].
  split; [exact Htext|]. rewrite Htext. split; [reflexivity|].
  intros Hsep. rewrite local_path_eq, Hsep. reflexivity.
Qed.

Lemma partition_path_form_witness :
  ∃ yyyy mm dd : string,
    (String.length yyyy = 4%nat ∧ read_decimal 0 yyyy = Some 2024)
    ∧ (String.length mm = 2%nat ∧ read_decimal 0 mm = Some 1)
    ∧ (String.length dd = 2%nat ∧ read_decimal 0 dd = Some 5)
    ∧ strftime_Ymd (jan 5) = yyyy +:+ "-" +:+ mm +:+ "-" +:+ dd
    ∧ blob_name "RELIANCE.NS" (strftime_Ymd (jan 5))
      = "ticker=" +:+ "RELIANCE.NS" +:+ "/date=" +:+ (yyyy +:+ "-" +:+ mm +:+ "-" +:+ dd) +:+ ".csv"
    ∧ (Str.endswith_sep "RELIANCE.NS" = false →
       local_path "RELIANCE.NS" (strftime_Ymd (jan 5))
       = "stock_data_lake/ticker=" +:+ "RELIANCE.NS" +:+ "/date="
         +:+ (yyyy +:+ "-" +:+ mm +:+ "-" +:+ dd) +:+ ".csv").
Proof.
  apply (partition_path_form "RELIANCE.NS" (jan 5)); [apply valid_jan; lia|].
  simpl. lia.
Defined.

(** C5 as stated fails for a ticker that ends with the separator: the
    path has one separator where the stated form has two. *)
Lemma local_path_form_fails :
  local_path "A/" (strftime_Ymd (jan 2)) = "stock_data_lake/ticker=A/date=2024-01-02.csv"
  ∧ "stock_data_lake/ticker=" +:+ "A/" +:+ "/date=" +:+ "2024-01-02" +:+ ".csv"
    = "stock_data_lake/ticker=A//date=2024-01-02.csv"
  ∧ bool_decide (local_path "A/" (strftime_Ymd (jan 2))
                 = "stock_data_lake/ticker=" +:+ "A/" +:+ "/date=" +:+ "2024-01-02" +:+ ".csv")
    = false.
Proof. repeat split; reflexivity. Qed.

Example local_path_reliance :
  local_path "RELIANCE.NS" (strftime_Ymd (jan 5))
  = "stock_data_lake/ticker=RELIANCE.NS/date=2024-01-05.csv".
Proof. reflexivity. Qed.

Example blob_name_reliance :
  blob_name "RELIANCE.NS" (strftime_Ymd (jan 5))
  = "ticker=RELIANCE.NS/date=2024-01-05.csv".
Proof. reflexivity. Qed.

Example strip_upper_example : Str.strip (Str.upper "  tcs.ns ") = "TCS.NS".
Proof. reflexivity. Qed.

(** Below the year 1000 the year field is shorter than four digits. *)
Example strftime_year_999 :
  valid_date {| year := 999; month := 1; day := 1 |}
  ∧ strftime_Ymd {| year := 999; month := 1; day := 1 |} = "999-01-01".
Proof. split; [unfold valid_date; simpl; lia | reflexivity]. Qed.

(** ** Price tables *)

Lemma plain_spec (cols : list Label) :
  plain cols = true →
  (0 < depth cols)%nat
  ∧ cols ≠ []
  ∧ Forall (λ c, length c = depth cols ∧ Forall (λ s, s ∉ reserved) c) cols.
Proof.
  destruct cols as [|c cols]; [discriminate|].
  unfold plain. cbn [depth].
  intros H. apply andb_prop in H as [H _]. apply andb_prop in H as [Hc Hall].
  apply negb_true_iff, bool_decide_eq_false in Hc.
  split; [destruct c; [done | simpl; lia]|]. split; [done|].
  apply Forall_forall. intros l Hl.
  rewrite forallb_forall in Hall. specialize (Hall l).
  rewrite <- list_elem_of_In in Hall. specialize (Hall Hl).
  unfold plain_label in Hall. apply andb_prop in Hall as [Hlen Hres].
  apply bool_decide_eq_true in Hlen. split; [done|].
  apply Forall_forall. intros s Hs.
  rewrite forallb_forall in Hres. specialize (Hres s).
  rewrite <- list_elem_of_In in Hres. specialize (Hres Hs).
  by apply negb_true_iff, bool_decide_eq_false in Hres.
Qed.

Lemma series_plain (data : PriceSeries) : plain (series_columns data) = true.
Proof.
  pose proof (series_ok data) as H. unfold well_formed in H.
  apply andb_prop in H as [H _]. by apply andb_prop in H as [H _].
Qed.

Lemma iterrows_plain (data : PriceSeries) :
  Forall (λ row, plain (labels row) = true) (iterrows data).
Proof.
  unfold iterrows. apply Forall_map, Forall_forall. intros line _. apply series_plain.
Qed.

Lemma length_iterrows (data : PriceSeries) : length (iterrows data) = len data.
Proof. unfold iterrows, len. apply length_map. Qed.

(** A price table is empty exactly when it has no line. *)
Lemma empty_iterrows (data : PriceSeries) :
  empty data = false ↔ iterrows data ≠ [].
Proof.
  pose proof (series_plain data) as Hp. unfold empty, iterrows.
  destruct (series_columns data); [discriminate|].
  destruct (series_rows data); simpl; split; done.
Qed.

Lemma rename_id (old new : string) (c : Label) :
  old ∉ c → map (λ s, if decide (s = old) then new else s) c = c.
Proof.
  induction c as [|s c IH]; [done|]. intros Hc. simpl.
  rewrite decide_False by (intros ->; apply Hc; left).
  f_equal. apply IH. intros H. apply Hc. by right.
Qed.

Lemma rename_top_label (n : nat) :
  map (λ s, if decide (s = "index") then "Date" else s) (top_label "index" n)
  = top_label "Date" n.
Proof.
  unfold top_label. simpl. f_equal.
  induction (n - 1)%nat as [|k IH]; [done|]. simpl. by f_equal.
Qed.

Lemma length_top_label (name : string) (n : nat) :
  (0 < n)%nat → length (top_label name n) = n.
Proof. intros Hn. unfold top_label. simpl. rewrite length_replicate. lia. Qed.

Lemma tail_top_label (name : string) (n : nat) :
  forallb (λ s, bool_decide (s = "")) (tail (top_label name n)) = true.
Proof.
  unfold top_label. simpl. induction (n - 1)%nat as [|k IH]; [done|]. exact IH.
Qed.

Lemma lookup_top_label (name : string) (n k : nat) :
  default "" (top_label name n !! k) = if bool_decide (k = 0%nat) then name else "".
Proof.
  unfold top_label. destruct k as [|k]; [done|]. cbn [lookup list_lookup].
  rewrite bool_decide_eq_false_2 by done.
  destruct (replicate (n - 1) "" !! k) as [s|] eqn:Hk; [|done].
  apply lookup_replicate in Hk as [-> _]. done.
Qed.

Lemma positions_app (name : string) (i : nat) (l1 l2 : list Label) :
  positions name i (l1 ++ l2)
  = positions name i l1 ++ positions name (i + length l1) l2.
Proof.
  revert i. induction l1 as [|c l1 IH]; intros i; simpl.
  - by rewrite Nat.add_0_r.
  - rewrite IH, Nat.add_succ_r. by destruct (selects name c).
Qed.

Section PlainLabels.

Variable cols : list Label.
Hypothesis cols_plain : plain cols = true.

Lemma plain_not_selected (name : string) (l : list Label) :
  name ∈ reserved →
  Forall (λ c, length c = depth cols ∧ Forall (λ s, s ∉ reserved) c) l →
  existsb (selects name) l = false ∧ ∀ i, positions name i l = [].
Proof.
  intros Hname Hl. induction Hl as [|c l [Hlen Hc] _ [IH1 IH2]]; [done|].
  assert (selects name c = false) as Hsel.
  { unfold selects. apply bool_decide_eq_false. intros Hh.
    destruct c as [|s c]; [done|]. injection Hh as ->.
    apply Forall_cons in Hc as [Hs _]. done. }
  simpl. rewrite Hsel, IH1. split; [done|]. intros i. apply IH2.
Qed.

Lemma plain_rename :
  map (map (λ s, if decide (s = "index") then "Date" else s)) cols = cols.
Proof.
  destruct (plain_spec cols cols_plain) as (_ & _ & Hall).
  induction Hall as [|c l [_ Hc] _ IH]; [done|].
  simpl. rewrite IH. f_equal. apply rename_id.
  rewrite Forall_forall in Hc. intros Hin. apply (Hc _ Hin).
  unfold reserved. left.
Qed.

End PlainLabels.

(** The one-row table of a row of a price table: the column of the date
    first, then the columns of the row, then the column of the ticker. *)
Lemma day_frame_eq (ticker : string) (row : PriceRow) :
  plain (labels row) = true →
  day_frame ticker row
  = {| columns := top_label "Date" (depth (labels row))
                  :: labels row ++ [top_label "Ticker" (depth (labels row))];
       rows := [VDate (Date row) :: values row ++ [VStr ticker]] |}.
Proof.
  intros Hp. destruct (plain_spec _ Hp) as (Hd & _ & Hall).
  unfold day_frame, row_frame, rename, setitem. cbn [columns rows map].
  rewrite rename_top_label, (plain_rename _ Hp).
  destruct (plain_not_selected (labels row) "Ticker" (labels row)) as [Hex _];
    [unfold reserved; set_solver | done|].
  cbn [existsb]. rewrite Hex.
  assert (selects "Ticker" (top_label "Date" (depth (labels row))) = false) as ->
    by reflexivity.
  cbn [orb depth]. rewrite length_top_label by done. reflexivity.
Qed.

(** The date the loop body reads back from the one-row table is the date
    of the row. *)
Lemma strftime_day_frame (ticker : string) (row : PriceRow) :
  plain (labels row) = true →
  strftime_cell (getitem_iloc0 "Date" (day_frame ticker row)) = ret (file_date_of row).
Proof.
  intros Hp. rewrite (day_frame_eq _ _ Hp).
  destruct (plain_spec _ Hp) as (Hd & _ & Hall).
  unfold getitem_iloc0. cbn [columns rows positions].
  assert (selects "Date" (top_label "Date" (depth (labels row))) = true) as ->
    by reflexivity.
  destruct (plain_not_selected (labels row) "Date" (labels row)) as [_ Hpos];
    [unfold reserved; set_solver | done|].
  rewrite positions_app, Hpos. cbn [positions app].
  assert (selects "Date" (top_label "Ticker" (depth (labels row))) = false) as ->
    by reflexivity.
  rewrite tail_top_label. reflexivity.
Qed.

(** What is written for a row of a price table. *)
Lemma to_csv_day_frame (ticker : string) (row : PriceRow) :
  plain (labels row) = true →
  one_row_table ticker row (to_csv (day_frame ticker row)).
Proof.
  intros Hp. rewrite (day_frame_eq _ _ Hp).
  destruct (plain_spec _ Hp) as (Hd & _ & Hall).
  unfold one_row_table, to_csv. cbn [header records columns rows depth].
  rewrite length_top_label by done.
  split.
  { unfold header_lines. apply map_ext. intros k.
    unfold level. cbn [map]. rewrite map_app. cbn [map].
    by rewrite !lookup_top_label. }
  split; [by rewrite length_map, length_seq|].
  split; [|done].
  destruct (depth (labels row)) as [|n] eqn:Hn; [lia|].
  cbn [seq map head]. f_equal. unfold level, first_header_line. cbn [map].
  f_equal. rewrite map_app. f_equal.
  apply map_ext. intros c. by destruct c.
Qed.

(** The conversion to floats keeps the integers that floats hold exactly
    and rounds the others: a volume of 2^53 + 1 is written as 2^53. *)
Example iterrows_rounds_volume :
  map values (iterrows heavy_day)
  = [[VFloat 2590.5; VFloat 2590.5; VFloat 2590.5; VFloat 2590.5;
      VFloat 9007199254740992]]
  ∧ map values (iterrows three_days)
    = [[VFloat 2590.5; VFloat 2590.5; VFloat 2590.5; VFloat 2590.5; VFloat 1200];
       [VFloat 2601.25; VFloat 2601.25; VFloat 2601.25; VFloat 2601.25; VFloat 900];
       [VFloat 2588; VFloat 2588; VFloat 2588; VFloat 2588; VFloat 1500]].
Proof. split; reflexivity. Qed.

Example iterrows_three_days : iterrows three_days = [day2; day3; day4].
Proof. reflexivity. Qed.


Section Ingestion.

Variable env : Env.

(** ** The two back ends *)

Lemma save_data_locally_ok (df : DataFrame) (ticker file_date : string) (w : World) :
  makedirs_error env (dirname (local_path ticker file_date)) = None →
  open_error env (local_path ticker file_date) = None →
  save_data_locally env df ticker file_date w
  = (Ret tt,
     {| stdin := stdin w; stdout := stdout w;
        files := <[local_path ticker file_date := to_csv df]> (files w);
        dirs := dirs w ∪ list_to_set
                  (parents (String.length (dirname (local_path ticker file_date)))
                           (dirname (local_path ticker file_date)));
        objects := objects w;
        trace := trace w ++ [EvMakedirs (dirname (local_path ticker file_date));
                             EvWriteFile (local_path ticker file_date)] |}).
Proof.
  intros Hmk Hop.
  unfold save_data_locally, makedirs, to_csv_path, bind, emit, check.
  rewrite Hmk, Hop. simpl. by rewrite <- app_assoc.
Qed.

Lemma save_data_locally_raises (df : DataFrame) (ticker file_date : string)
    (w : World) (e : exn) :
  makedirs_error env (dirname (local_path ticker file_date)) = Some e
  ∨ (makedirs_error env (dirname (local_path ticker file_date)) = None
     ∧ open_error env (local_path ticker file_date) = Some e) →
  ∃ w', save_data_locally env df ticker file_date w = (Raise e, w')
        ∧ files w' = files w ∧ objects w' = objects w ∧ stdout w' = stdout w.
Proof.
  intros [Hmk | [Hmk Hop]];
    unfold save_data_locally, makedirs, to_csv_path, bind, emit, check;
    rewrite Hmk; [|rewrite Hop]; simpl; eauto.
Qed.

(** A local write that returns has found no obstacle. *)
Lemma save_data_locally_ret (df : DataFrame) (ticker file_date : string) (w w' : World) :
  save_data_locally env df ticker file_date w = (Ret tt, w') →
  makedirs_error env (dirname (local_path ticker file_date)) = None
  ∧ open_error env (local_path ticker file_date) = None.
Proof.
  unfold save_data_locally, makedirs, to_csv_path, bind, emit, check.
  destruct (makedirs_error env _); [discriminate|].
  by destruct (open_error env _).
Qed.

Lemma upload_data_to_gcs_ok (df : DataFrame) (ticker file_date : string)
    (bucket : Bucket) (w : World) :
  upload_error env bucket (blob_name ticker file_date) = None →
  upload_data_to_gcs env df ticker file_date bucket w
  = (Ret tt,
     {| stdin := stdin w; stdout := stdout w; files := files w; dirs := dirs w;
        objects := <[(bucket, blob_name ticker file_date) := (to_csv df, "text/csv")]> (objects w);
        trace := trace w ++ [EvUpload bucket (blob_name ticker file_date)] |}).
Proof.
  intros Hup.
  unfold upload_data_to_gcs, upload_from_string, bind, emit, check.
  rewrite Hup. reflexivity.
Qed.

Lemma upload_data_to_gcs_raises (df : DataFrame) (ticker file_date : string)
    (bucket : Bucket) (w : World) (e : exn) :
  upload_error env bucket (blob_name ticker file_date) = Some e →
  ∃ w', upload_data_to_gcs env df ticker file_date bucket w = (Raise e, w')
        ∧ files w' = files w ∧ objects w' = objects w ∧ stdout w' = stdout w.
Proof.
  intros Hup.
  unfold upload_data_to_gcs, upload_from_string, bind, emit, check.
  rewrite Hup. simpl. eauto.
Qed.

Lemma upload_data_to_gcs_ret (df : DataFrame) (ticker file_date : string)
    (bucket : Bucket) (w w' : World) :
  upload_data_to_gcs env df ticker file_date bucket w = (Ret tt, w') →
  upload_error env bucket (blob_name ticker file_date) = None.
Proof.
  unfold upload_data_to_gcs, upload_from_string, bind, emit, check.
  by destruct (upload_error env _ _).
Qed.

(** ** The loop over the rows *)

Lemma store_row_eq (ticker storage_target : string) (gcs_bucket : option Bucket)
    (row : PriceRow) :
  plain (labels row) = true →
  store_row env ticker storage_target gcs_bucket row
  = if bool_decide (storage_target = "local") then
      save_data_locally env (day_frame ticker row) ticker (file_date_of row)
    else
      match bool_decide (storage_target = "gcp"), gcs_bucket with
      | true, Some bucket =>
          upload_data_to_gcs env (day_frame ticker row) ticker (file_date_of row) bucket
      | _, _ => ret tt
      end.
Proof.
  intros Hp. unfold store_row. cbn zeta. by rewrite (strftime_day_frame _ _ Hp).
Qed.

Lemma for_each_app {A} (l1 l2 : list A) (body : A → M unit) (w : World) :
  for_each (l1 ++ l2) body w
  = match for_each l1 body w with
    | (Ret _, w') => for_each l2 body w'
    | (Raise e, w') => (Raise e, w')
    end.
Proof.
  revert w. induction l1 as [|x l1 IH]; intros w; [done|].
  simpl. unfold bind. destruct (body x w) as [[[]|e] w1]; [apply IH | done].
Qed.


Lemma for_each_local_ok (ticker : string) (gcs_bucket : option Bucket)
    (l : list PriceRow) (w : World) :
  price_rows l →
  (∀ row, row ∈ l →
     makedirs_error env (dirname (local_path ticker (file_date_of row))) = None
     ∧ open_error env (local_path ticker (file_date_of row)) = None) →
  ∃ w', for_each l (store_row env ticker "local" gcs_bucket) w = (Ret tt, w')
        ∧ stdin w' = stdin w ∧ stdout w' = stdout w ∧ objects w' = objects w
        ∧ files w'
          = fold_left (λ m row, <[local_path ticker (file_date_of row)
                                  := to_csv (day_frame ticker row)]> m)
              l (files w)
        ∧ trace w'
          = trace w ++ flat_map (λ row,
                        [EvMakedirs (dirname (local_path ticker (file_date_of row)));
                         EvWriteFile (local_path ticker (file_date_of row))]) l.
Proof.
  intros Hp. revert w. induction Hp as [|row l Hrow _ IH]; intros w Hok.
  - exists w. simpl. by rewrite app_nil_r.
  - destruct (Hok row) as [Hmk Hop]; [left|].
    simpl. unfold bind. rewrite (store_row_eq _ _ _ _ Hrow). simpl.
    rewrite (save_data_locally_ok _ _ _ _ Hmk Hop).
    edestruct IH as (w' & -> & ? & ? & ? & ? & Htr).
    { intros r Hr. apply Hok. by right. }
    exists w'. simpl in *. rewrite Htr, <- app_assoc. done.
Qed.

Lemma for_each_gcp_ok (ticker : string) (bucket : Bucket)
    (l : list PriceRow) (w : World) :
  price_rows l →
  (∀ row, row ∈ l →
     upload_error env bucket (blob_name ticker (file_date_of row)) = None) →
  ∃ w', for_each l (store_row env ticker "gcp" (Some bucket)) w = (Ret tt, w')
        ∧ stdin w' = stdin w ∧ stdout w' = stdout w ∧ files w' = files w
        ∧ objects w'
          = fold_left (λ m row, <[(bucket, blob_name ticker (file_date_of row))
                                  := (to_csv (day_frame ticker row), "text/csv")]> m)
              l (objects w)
        ∧ trace w'
          = trace w ++ map (λ row, EvUpload bucket (blob_name ticker (file_date_of row))) l.
Proof.
  intros Hp. revert w. induction Hp as [|row l Hrow _ IH]; intros w Hok.
  - exists w. simpl. by rewrite app_nil_r.
  - simpl. unfold bind. rewrite (store_row_eq _ _ _ _ Hrow). simpl.
    rewrite upload_data_to_gcs_ok by (apply Hok; left).
    edestruct IH as (w' & -> & ? & ? & ? & ? & Htr).
    { intros r Hr. apply Hok. by right. }
    exists w'. simpl in *. rewrite Htr, <- app_assoc. done.
Qed.

(** A loop that has returned has written every row. *)
Lemma for_each_local_ret (ticker : string) (gcs_bucket : option Bucket)
    (l : list PriceRow) (w w' : World) :
  price_rows l →
  for_each l (store_row env ticker "local" gcs_bucket) w = (Ret tt, w') →
  ∀ row, row ∈ l →
    makedirs_error env (dirname (local_path ticker (file_date_of row))) = None
    ∧ open_error env (local_path ticker (file_date_of row)) = None.
Proof.
  intros Hp. revert w. induction Hp as [|row l Hrow _ IH]; intros w Hrun r Hr.
  - by apply elem_of_nil in Hr.
  - simpl in Hrun. unfold bind in Hrun.
    rewrite (store_row_eq _ _ _ _ Hrow) in Hrun. simpl in Hrun.
    destruct (save_data_locally env _ _ _ w) as [[[]|e] w1] eqn:Hsave; [|discriminate].
    apply elem_of_cons in Hr as [-> | Hr].
    + by apply save_data_locally_ret in Hsave.
    + by apply (IH w1).
Qed.

Lemma for_each_gcp_ret (ticker : string) (bucket : Bucket)
    (l : list PriceRow) (w w' : World) :
  price_rows l →
  for_each l (store_row env ticker "gcp" (Some bucket)) w = (Ret tt, w') →
  ∀ row, row ∈ l →
    upload_error env bucket (blob_name ticker (file_date_of row)) = None.
Proof.
  intros Hp. revert w. induction Hp as [|row l Hrow _ IH]; intros w Hrun r Hr.
  - by apply elem_of_nil in Hr.
  - simpl in Hrun. unfold bind in Hrun.
    rewrite (store_row_eq _ _ _ _ Hrow) in Hrun. simpl in Hrun.
    destruct (upload_data_to_gcs env _ _ _ _ w) as [[[]|e] w1] eqn:Hup; [|discriminate].
    apply elem_of_cons in Hr as [-> | Hr].
    + by apply upload_data_to_gcs_ret in Hup.
    + by apply (IH w1).
Qed.

Lemma for_each_local_raises (ticker : string) (gcs_bucket : option Bucket)
    (pre post : list PriceRow) (row : PriceRow) (e : exn) (w : World) :
  price_rows (pre ++ row :: post) →
  (∀ r, r ∈ pre →
     makedirs_error env (dirname (local_path ticker (file_date_of r))) = None
     ∧ open_error env (local_path ticker (file_date_of r)) = None) →
  makedirs_error env (dirname (local_path ticker (file_date_of row))) = Some e
  ∨ (makedirs_error env (dirname (local_path ticker (file_date_of row))) = None
     ∧ open_error env (local_path ticker (file_date_of row)) = Some e) →
  ∃ w', for_each (pre ++ row :: post) (store_row env ticker "local" gcs_bucket) w
        = (Raise e, w')
        ∧ stdout w' = stdout w ∧ objects w' = objects w
        ∧ files w'
          = fold_left (λ m r, <[local_path ticker (file_date_of r)
                                := to_csv (day_frame ticker r)]> m)
              pre (files w).
Proof.
  intros Hp Hpre Hrow. rewrite for_each_app.
  apply Forall_app in Hp as [Hp1 Hp2]. apply Forall_cons in Hp2 as [Hp2 _].
  destruct (for_each_local_ok ticker gcs_bucket pre w Hp1 Hpre)
    as (w1 & -> & _ & Hout & Hobj & Hfiles & _).
  simpl. unfold bind. rewrite (store_row_eq _ _ _ _ Hp2). simpl.
  destruct (save_data_locally_raises (day_frame ticker row) ticker (file_date_of row) w1 e Hrow)
    as (w2 & -> & ? & ? & ?).
  exists w2. repeat split; congruence.
Qed.

Lemma for_each_gcp_raises (ticker : string) (bucket : Bucket)
    (pre post : list PriceRow) (row : PriceRow) (e : exn) (w : World) :
  price_rows (pre ++ row :: post) →
  (∀ r, r ∈ pre → upload_error env bucket (blob_name ticker (file_date_of r)) = None) →
  upload_error env bucket (blob_name ticker (file_date_of row)) = Some e →
  ∃ w', for_each (pre ++ row :: post) (store_row env ticker "gcp" (Some bucket)) w
        = (Raise e, w')
        ∧ stdout w' = stdout w ∧ files w' = files w
        ∧ objects w'
          = fold_left (λ m r, <[(bucket, blob_name ticker (file_date_of r))
                                := (to_csv (day_frame ticker r), "text/csv")]> m)
              pre (objects w).
Proof.
  intros Hp Hpre Hrow. rewrite for_each_app.
  apply Forall_app in Hp as [Hp1 Hp2]. apply Forall_cons in Hp2 as [Hp2 _].
  destruct (for_each_gcp_ok ticker bucket pre w Hp1 Hpre)
    as (w1 & -> & _ & Hout & Hfiles & Hobj & _).
  simpl. unfold bind. rewrite (store_row_eq _ _ _ _ Hp2). simpl.
  destruct (upload_data_to_gcs_raises (day_frame ticker row) ticker (file_date_of row) bucket w1 e Hrow)
    as (w2 & -> & ? & ? & ?).
  exists w2. repeat split; congruence.
Qed.

(** ** [fetch_and_store_data] *)

(** The function, case by case: the download raises, it returns an empty
    table, or the loop runs and either completes or raises. *)
Lemma fetch_and_store_data_eq (ticker period storage_target : string)
    (gcs_bucket : option Bucket) (w : World) :
  fetch_and_store_data env ticker period storage_target gcs_bucket w
  = let w1 := {| stdin := stdin w;
                 stdout := stdout w ++ [fetching_message env ticker storage_target];
                 files := files w; dirs := dirs w; objects := objects w;
                 trace := trace w ++ [EvDownload ticker period "1d"] |} in
    match yf_download env ticker period "1d" with
    | inl e => handled e w1
    | inr data =>
        if empty data then
          (Ret None, set_stdout (stdout w1 ++ [no_data_message ticker]) w1)
        else
          match for_each (iterrows data) (store_row env ticker storage_target gcs_bucket)
                  (set_stdout (stdout w1 ++ [fetched_message (len data)]) w1) with
          | (Ret _, w2) =>
              (Ret (Some (reset_index data)), set_stdout (stdout w2 ++ [complete_message]) w2)
          | (Raise e, w2) => handled e w2
          end
    end.
Proof.
  unfold fetch_and_store_data, download, try_except, bind, print, emit, handled.
  cbn [fst snd].
  destruct (yf_download env ticker period "1d") as [e | data];
    [by destruct e|].
  cbn [ret]. destruct (empty data); [reflexivity|].
  destruct (for_each _ _ _) as [[[]|e] w2]; [reflexivity | by destruct e].
Qed.

(** C2.  When the data source returns an empty table, the function prints
    the no-data line and returns [None]; nothing but the download call
    reaches the outside, and the files, directories and objects are those
    of before. *)
Theorem empty_series_no_data (ticker period storage_target : string)
    (gcs_bucket : option Bucket) (data : PriceSeries) (w : World) :
  yf_download env ticker period "1d" = inr data →
  empty data = true →
  fetch_and_store_data env ticker period storage_target gcs_bucket w
  = (Ret None,
     {| stdin := stdin w;
        stdout := stdout w ++ [fetching_message env ticker storage_target;
                               no_data_message ticker];
        files := files w; dirs := dirs w; objects := objects w;
        trace := trace w ++ [EvDownload ticker period "1d"] |}).
Proof.
  intros Hsrc Hempty. rewrite fetch_and_store_data_eq, Hsrc. cbn zeta. rewrite Hempty.
  unfold set_stdout. simpl. by rewrite <- app_assoc.
Qed.

(** C9.  When the download raises an exception of the class [Exception],
    it is caught: the function prints the error line with the text of the
    exception and returns [None].  The download was called once, and
    nothing was written. *)
Theorem source_failure_reported (ticker period storage_target : string)
    (gcs_bucket : option Bucket) (msg : string) (w : World) :
  yf_download env ticker period "1d" = inl (Exception msg) →
  fetch_and_store_data env ticker period storage_target gcs_bucket w
  = (Ret None,
     {| stdin := stdin w;
        stdout := stdout w ++ [fetching_message env ticker storage_target;
                               "An error occurred during data fetch: " +:+ msg];
        files := files w; dirs := dirs w; objects := objects w;
        trace := trace w ++ [EvDownload ticker period "1d"] |}).
Proof.
  intros Hsrc. rewrite fetch_and_store_data_eq, Hsrc. cbn zeta.
  unfold handled, set_stdout, error_message. simpl. by rewrite <- app_assoc.
Qed.


(** After a run of inserts, every inserted key holds the value of an
    element with that key. *)
Lemma fold_insert_lookup `{Countable K} {A V} (key : A → K) (val : A → V)
    (l : list A) (m : gmap K V) (x : A) :
  x ∈ l →
  ∃ x', x' ∈ l ∧ key x' = key x
        ∧ fold_left (λ m y, <[key y := val y]> m) l m !! key x = Some (val x').
Proof.
  revert x. induction l as [|y l IH] using rev_ind; intros x Hx.
  - by apply elem_of_nil in Hx.
  - rewrite fold_left_app. simpl.
    destruct (decide (key y = key x)) as [Heq | Hne].
    + exists y. split; [apply elem_of_app; right; by left|].
      split; [done|]. rewrite Heq. apply lookup_insert_eq.
    + apply elem_of_app in Hx as [Hx | Hx].
      * destruct (IH x Hx) as (x' & Hx' & Hk & Hl).
        exists x'. split; [apply elem_of_app; by left|].
        split; [done|]. by rewrite lookup_insert_ne.
      * apply list_elem_of_singleton in Hx. by subst.
Qed.

Lemma run_local_ok (ticker period : string) (data : PriceSeries)
    (gcs_bucket : option Bucket) (w : World) :
  yf_download env ticker period "1d" = inr data →
  empty data = false →
  (∀ row, row ∈ iterrows data →
     makedirs_error env (dirname (local_path ticker (file_date_of row))) = None
     ∧ open_error env (local_path ticker (file_date_of row)) = None) →
  ∃ w',
    fetch_and_store_data env ticker period "local" gcs_bucket w
    = (Ret (Some (reset_index data)), w')
    ∧ files w'
      = fold_left (λ m row, <[local_path ticker (file_date_of row)
                              := to_csv (day_frame ticker row)]> m)
          (iterrows data) (files w)
    ∧ objects w' = objects w
    ∧ trace w'
      = trace w ++ EvDownload ticker period "1d"
        :: flat_map (λ row,
             [EvMakedirs (dirname (local_path ticker (file_date_of row)));
              EvWriteFile (local_path ticker (file_date_of row))]) (iterrows data)
    ∧ stdout w'
      = stdout w ++ [fetching_message env ticker "local"; fetched_message (len data);
                     complete_message].
Proof.
  intros Hsrc Hne Hok.
  rewrite fetch_and_store_data_eq, Hsrc. cbn zeta. rewrite Hne.
  edestruct (for_each_local_ok ticker gcs_bucket (iterrows data))
    as (w' & -> & ? & Hout & Hobj & Hfl & Htr); [apply iterrows_plain | exact Hok|].
  eexists. split; [reflexivity|]. simpl in *.
  split; [done|]. split; [done|].
  split; [by rewrite Htr, <- app_assoc|].
  rewrite Hout. by rewrite <- !app_assoc.
Qed.

Lemma run_gcp_ok (ticker period : string) (data : PriceSeries)
    (bucket : Bucket) (w : World) :
  yf_download env ticker period "1d" = inr data →
  empty data = false →
  (∀ row, row ∈ iterrows data →
     upload_error env bucket (blob_name ticker (file_date_of row)) = None) →
  ∃ w',
    fetch_and_store_data env ticker period "gcp" (Some bucket) w
    = (Ret (Some (reset_index data)), w')
    ∧ objects w'
      = fold_left (λ m row, <[(bucket, blob_name ticker (file_date_of row))
                              := (to_csv (day_frame ticker row), "text/csv")]> m)
          (iterrows data) (objects w)
    ∧ files w' = files w
    ∧ trace w'
      = trace w ++ EvDownload ticker period "1d"
        :: map (λ row, EvUpload bucket (blob_name ticker (file_date_of row))) (iterrows data)
    ∧ stdout w'
      = stdout w ++ [fetching_message env ticker "gcp"; fetched_message (len data);
                     complete_message].
Proof.
  intros Hsrc Hne Hok.
  rewrite fetch_and_store_data_eq, Hsrc. cbn zeta. rewrite Hne.
  edestruct (for_each_gcp_ok ticker bucket (iterrows data))
    as (w' & -> & ? & Hout & Hfl & Hobj & Htr); [apply iterrows_plain | exact Hok|].
  eexists. split; [reflexivity|]. simpl in *.
  split; [done|]. split; [done|].
  split; [by rewrite Htr, <- app_assoc|].
  rewrite Hout. by rewrite <- !app_assoc.
Qed.

(** The artifact found at the key of a row after the writes of a list of
    rows is the one-row table of a row of the list with the same date
    text. *)
Lemma local_lookup (ticker : string) (l : list PriceRow) (m : gmap string CsvFile)
    (row : PriceRow) :
  row ∈ l →
  ∃ row', row' ∈ l ∧ file_date_of row' = file_date_of row
          ∧ fold_left (λ m r, <[local_path ticker (file_date_of r)
                                := to_csv (day_frame ticker r)]> m) l m
            !! local_path ticker (file_date_of row)
            = Some (to_csv (day_frame ticker row')).
Proof.
  intros Hrow.
  destruct (fold_insert_lookup (λ r, local_path ticker (file_date_of r))
              (λ r, to_csv (day_frame ticker r)) l m row Hrow)
    as (row' & Hin & Hk & Hl).
  exists row'. split; [done|]. split; [|done].
  apply local_path_inj in Hk as [_ Hk]; [done| | |done];
    unfold file_date_of; apply file_name_has_no_sep.
Qed.

Lemma blob_lookup (ticker : string) (bucket : Bucket) (l : list PriceRow)
    (m : gmap (string * string) (CsvFile * string)) (row : PriceRow) :
  row ∈ l →
  ∃ row', row' ∈ l ∧ file_date_of row' = file_date_of row
          ∧ fold_left (λ m r, <[(bucket, blob_name ticker (file_date_of r))
                                := (to_csv (day_frame ticker r), "text/csv")]> m) l m
            !! (bucket, blob_name ticker (file_date_of row))
            = Some (to_csv (day_frame ticker row'), "text/csv").
Proof.
  intros Hrow.
  destruct (fold_insert_lookup (λ r, (bucket, blob_name ticker (file_date_of r)))
              (λ r, (to_csv (day_frame ticker r), "text/csv")) l m row Hrow)
    as (row' & Hin & Hk & Hl).
  exists row'. split; [done|]. split; [|done].
  apply (f_equal snd) in Hk. cbn [snd] in Hk.
  apply blob_name_inj in Hk as [_ Hk]; [done|..];
    unfold file_date_of; apply file_name_has_no_sep.
Qed.


(** C1, as the code has it.  A write that raises ends the run at that
    row: the rows before it have been written, no later row is, the
    exception is caught by the handler around the whole function body,
    its text is printed, and the function returns [None]. *)
Theorem write_failure_aborts (ticker period : string) (data : PriceSeries)
    (pre post : list PriceRow) (row : PriceRow) (msg : string) (w : World) :
  yf_download env ticker period "1d" = inr data →
  iterrows data = pre ++ row :: post →
  ((∀ r, r ∈ pre →
      makedirs_error env (dirname (local_path ticker (file_date_of r))) = None
      ∧ open_error env (local_path ticker (file_date_of r)) = None) →
   makedirs_error env (dirname (local_path ticker (file_date_of row))) = Some (Exception msg)
   ∨ (makedirs_error env (dirname (local_path ticker (file_date_of row))) = None
      ∧ open_error env (local_path ticker (file_date_of row)) = Some (Exception msg)) →
   ∀ gcs_bucket, ∃ w',
     fetch_and_store_data env ticker period "local" gcs_bucket w = (Ret None, w')
     ∧ files w'
       = fold_left (λ m r, <[local_path ticker (file_date_of r)
                             := to_csv (day_frame ticker r)]> m)
           pre (files w)
     ∧ objects w' = objects w
     ∧ stdout w'
       = stdout w ++ [fetching_message env ticker "local";
                      fetched_message (length (pre ++ row :: post));
                      "An error occurred during data fetch: " +:+ msg])
  ∧ (∀ bucket : Bucket,
     (∀ r, r ∈ pre → upload_error env bucket (blob_name ticker (file_date_of r)) = None) →
     upload_error env bucket (blob_name ticker (file_date_of row)) = Some (Exception msg) →
     ∃ w',
       fetch_and_store_data env ticker period "gcp" (Some bucket) w = (Ret None, w')
       ∧ objects w'
         = fold_left (λ m r, <[(bucket, blob_name ticker (file_date_of r))
                               := (to_csv (day_frame ticker r), "text/csv")]> m)
             pre (objects w)
       ∧ files w' = files w
       ∧ stdout w'
         = stdout w ++ [fetching_message env ticker "gcp";
                        fetched_message (length (pre ++ row :: post));
                        "An error occurred during data fetch: " +:+ msg]).
Proof.
  intros Hsrc Hrows.
  assert (empty data = false) as Hne
    by (apply empty_iterrows; rewrite Hrows; by destruct pre).
  assert (len data = length (pre ++ row :: post)) as Hlen
    by (by rewrite <- length_iterrows, Hrows).
  pose proof (iterrows_plain data) as Hp. rewrite Hrows in Hp.
  split.
  - intros Hpre Hrow gcs_bucket.
    rewrite fetch_and_store_data_eq, Hsrc. cbn zeta. rewrite Hne, Hrows, Hlen.
    edestruct (for_each_local_raises ticker gcs_bucket pre post row (Exception msg))
      as (w' & -> & Hout & Hobj & Hfl); [exact Hp | exact Hpre | exact Hrow |].
    eexists. split; [reflexivity|]. simpl in *.
    split; [done|]. split; [done|].
    rewrite Hout. unfold error_message. simpl. by rewrite <- !app_assoc.
  - intros bucket Hpre Hrow.
    rewrite fetch_and_store_data_eq, Hsrc. cbn zeta. rewrite Hne, Hrows, Hlen.
    edestruct (for_each_gcp_raises ticker bucket pre post row (Exception msg))
      as (w' & -> & Hout & Hfl & Hobj); [exact Hp | exact Hpre | exact Hrow |].
    eexists. split; [reflexivity|]. simpl in *.
    split; [done|]. split; [done|].
    rewrite Hout. unfold error_message. simpl. by rewrite <- !app_assoc.
Qed.

(** ** Overwriting *)

(** C7.  Two writes of the same (ticker, date) through either back end
    leave, at that key, the content of the second write; the store is the
    one a single write of the second content gives, and the second write
    adds no key to those present after the first. *)
Theorem second_write_wins (df1 df2 : DataFrame) (ticker file_date : string)
    (bucket : Bucket) (w : World) :
  makedirs_error env (dirname (local_path ticker file_date)) = None →
  open_error env (local_path ticker file_date) = None →
  upload_error env bucket (blob_name ticker file_date) = None →
  (∃ w1 w2,
     save_data_locally env df1 ticker file_date w = (Ret tt, w1)
     ∧ save_data_locally env df2 ticker file_date w1 = (Ret tt, w2)
     ∧ files w2 !! local_path ticker file_date = Some (to_csv df2)
     ∧ files w2 = <[local_path ticker file_date := to_csv df2]> (files w)
     ∧ dom (files w2) = dom (files w1))
  ∧ (∃ w1 w2,
     upload_data_to_gcs env df1 ticker file_date bucket w = (Ret tt, w1)
     ∧ upload_data_to_gcs env df2 ticker file_date bucket w1 = (Ret tt, w2)
     ∧ objects w2 !! (bucket, blob_name ticker file_date) = Some (to_csv df2, "text/csv")
     ∧ objects w2
       = <[(bucket, blob_name ticker file_date) := (to_csv df2, "text/csv")]> (objects w)
     ∧ dom (objects w2) = dom (objects w1)).
Proof.
  intros Hmk Hop Hup. split.
  - do 2 eexists.
    split; [by apply save_data_locally_ok|].
    split; [by apply save_data_locally_ok|]. simpl.
    split; [apply lookup_insert_eq|].
    split; [apply insert_insert_eq|].
    rewrite !dom_insert_L. by rewrite union_assoc_L, union_idemp_L.
  - do 2 eexists.
    split; [by apply upload_data_to_gcs_ok|].
    split; [by apply upload_data_to_gcs_ok|]. simpl.
    split; [apply lookup_insert_eq|].
    split; [apply insert_insert_eq|].
    rewrite !dom_insert_L. by rewrite union_assoc_L, union_idemp_L.
Qed.

(** ** What a run leaves behind *)

Lemma store_row_written (ticker storage_target : string) (gcs_bucket : option Bucket)
    (row : PriceRow) (w : World) :
  plain (labels row) = true →
  (∀ path c,
     files (store_row env ticker storage_target gcs_bucket row w).2 !! path = Some c →
     files w !! path = Some c
     ∨ (storage_target = "local"
        ∧ path = local_path ticker (file_date_of row) ∧ c = to_csv (day_frame ticker row)))
  ∧ (∀ key x,
     objects (store_row env ticker storage_target gcs_bucket row w).2 !! key = Some x →
     objects w !! key = Some x
     ∨ (∃ bucket, storage_target = "gcp" ∧ gcs_bucket = Some bucket
                  ∧ key = (bucket, blob_name ticker (file_date_of row))
                  ∧ x = (to_csv (day_frame ticker row), "text/csv"))).
Proof.
  intros Hp. rewrite (store_row_eq _ _ _ _ Hp). case_bool_decide.
  - unfold save_data_locally, makedirs, to_csv_path, bind, emit, check.
    destruct (makedirs_error env _); simpl; [by split; left|].
    destruct (open_error env _); simpl; [by split; left|].
    split; [|by left].
    intros path c. rewrite lookup_insert. case_decide; naive_solver.
  - case_bool_decide; [|by split; left].
    destruct gcs_bucket as [bucket|]; [|by split; left].
    unfold upload_data_to_gcs, upload_from_string, bind, emit, check.
    destruct (upload_error env _ _); simpl; [by split; left|].
    split; [by left|].
    intros key x. rewrite lookup_insert. case_decide; naive_solver.
Qed.

Lemma for_each_written (ticker storage_target : string) (gcs_bucket : option Bucket)
    (l : list PriceRow) (w : World) :
  price_rows l →
  (∀ path c,
     files (for_each l (store_row env ticker storage_target gcs_bucket) w).2 !! path
     = Some c →
     files w !! path = Some c
     ∨ (∃ row, row ∈ l ∧ storage_target = "local"
               ∧ path = local_path ticker (file_date_of row)
               ∧ c = to_csv (day_frame ticker row)))
  ∧ (∀ key x,
     objects (for_each l (store_row env ticker storage_target gcs_bucket) w).2 !! key
     = Some x →
     objects w !! key = Some x
     ∨ (∃ row bucket, row ∈ l ∧ storage_target = "gcp" ∧ gcs_bucket = Some bucket
                      ∧ key = (bucket, blob_name ticker (file_date_of row))
                      ∧ x = (to_csv (day_frame ticker row), "text/csv"))).
Proof.
  intros Hp. revert w. induction Hp as [|row l Hrow _ IH]; intros w.
  - simpl. by split; left.
  - simpl. unfold bind.
    destruct (store_row_written ticker storage_target gcs_bucket row w Hrow) as [Hf Ho].
    destruct (store_row env ticker storage_target gcs_bucket row w) as [[[]|e] w1].
    + destruct (IH w1) as [Hf' Ho']. simpl in *. split.
      * intros path c Hc. destruct (Hf' path c Hc) as [H1 | (r & Hr & ? & ? & ?)].
        -- destruct (Hf path c H1) as [? | (? & ? & ?)]; [by left|].
           right. exists row. split; [by left | done].
        -- right. exists r. split; [by right | done].
      * intros key x Hx. destruct (Ho' key x Hx) as [H1 | (r & bk & Hr & ? & ? & ? & ?)].
        -- destruct (Ho key x H1) as [? | (bk & ? & ? & ? & ?)]; [by left|].
           right. exists row, bk. split; [by left | done].
        -- right. exists r, bk. split; [by right | done].
    + simpl in *. split.
      * intros path c Hc. destruct (Hf path c Hc) as [? | (? & ? & ?)]; [by left|].
        right. exists row. split; [by left | done].
      * intros key x Hx. destruct (Ho key x Hx) as [? | (bk & ? & ? & ? & ?)]; [by left|].
        right. exists row, bk. split; [by left | done].
Qed.

(** A run that returns a table has fetched a non-empty table and has
    gone through the whole loop. *)
Lemma fetch_returns_table (ticker period storage_target : string)
    (gcs_bucket : option Bucket) (df : DataFrame) (w w' : World) :
  fetch_and_store_data env ticker period storage_target gcs_bucket w = (Ret (Some df), w') →
  ∃ data w2,
    yf_download env ticker period "1d" = inr data
    ∧ empty data = false
    ∧ df = reset_index data
    ∧ for_each (iterrows data) (store_row env ticker storage_target gcs_bucket)
        {| stdin := stdin w;
           stdout := stdout w ++ [fetching_message env ticker storage_target;
                                  fetched_message (len data)];
           files := files w; dirs := dirs w; objects := objects w;
           trace := trace w ++ [EvDownload ticker period "1d"] |}
      = (Ret tt, w2)
    ∧ w' = set_stdout (stdout w2 ++ [complete_message]) w2.
Proof.
  rewrite fetch_and_store_data_eq. cbn zeta.
  destruct (yf_download env ticker period "1d") as [e | data];
    [unfold handled; destruct (is_exception e); discriminate|].
  destruct (empty data) eqn:Hne; [discriminate|].
  match goal with
  | |- context [for_each ?l ?f ?w0] =>
      assert (w0 = {| stdin := stdin w;
                      stdout := stdout w ++ [fetching_message env ticker storage_target;
                                             fetched_message (len data)];
                      files := files w; dirs := dirs w; objects := objects w;
                      trace := trace w ++ [EvDownload ticker period "1d"] |}) as Hw0
        by (unfold set_stdout; simpl; by rewrite <- app_assoc);
      destruct (for_each l f w0) as [[[]|e] w2] eqn:Hloop;
        [|unfold handled; destruct (is_exception e); discriminate]
  end.
  intros [= <- <-]. exists data, w2. rewrite <- Hw0. done.
Qed.

(** C6, as the code has it.  Whatever a run of [fetch_and_store_data] has
    put in either store is the one-row table of a fetched row, at the path
    or object name of the ticker and of the date of that row: a header of
    as many lines as the labels of the fetched table have levels, whose
    first line reads [Date], the first level of the labels, [Ticker] and
    whose further lines read the further levels of the labels between two
    empty texts, and one record that holds the date of the row, its values
    as [iterrows] gives them, and the ticker.  When the run returns a
    table, every fetched row has such an artifact of its date at its
    key. *)
Theorem artifacts_are_one_row_tables (ticker period storage_target : string)
    (gcs_bucket : option Bucket) (w : World) :
  (∀ path c,
     files (fetch_and_store_data env ticker period storage_target gcs_bucket w).2 !! path
     = Some c →
     files w !! path = Some c
     ∨ (∃ data row,
          yf_download env ticker period "1d" = inr data ∧ row ∈ iterrows data
          ∧ storage_target = "local"
          ∧ path = local_path ticker (strftime_Ymd (Date row))
          ∧ one_row_table ticker row c))
  ∧ (∀ key c content_type,
     objects (fetch_and_store_data env ticker period storage_target gcs_bucket w).2 !! key
     = Some (c, content_type) →
     objects w !! key = Some (c, content_type)
     ∨ (∃ data row bucket,
          yf_download env ticker period "1d" = inr data ∧ row ∈ iterrows data
          ∧ storage_target = "gcp" ∧ gcs_bucket = Some bucket
          ∧ key = (bucket, blob_name ticker (strftime_Ymd (Date row)))
          ∧ content_type = "text/csv"
          ∧ one_row_table ticker row c))
  ∧ (∀ df w',
     fetch_and_store_data env ticker period storage_target gcs_bucket w
     = (Ret (Some df), w') →
     ∃ data,
       yf_download env ticker period "1d" = inr data
       ∧ iterrows data ≠ []
       ∧ (storage_target = "local" →
          ∀ row, row ∈ iterrows data →
            ∃ c row',
              files w' !! local_path ticker (strftime_Ymd (Date row)) = Some c
              ∧ row' ∈ iterrows data
              ∧ strftime_Ymd (Date row') = strftime_Ymd (Date row)
              ∧ one_row_table ticker row' c)
       ∧ (∀ bucket : Bucket,
          storage_target = "gcp" → gcs_bucket = Some bucket →
          ∀ row, row ∈ iterrows data →
            ∃ c row',
              objects w' !! (bucket, blob_name ticker (strftime_Ymd (Date row)))
              = Some (c, "text/csv")
              ∧ row' ∈ iterrows data
              ∧ strftime_Ymd (Date row') = strftime_Ymd (Date row)
              ∧ one_row_table ticker row' c)).
Proof.
  split; [|split].
  - rewrite fetch_and_store_data_eq. cbn zeta.
    destruct (yf_download env ticker period "1d") as [e | data] eqn:Hsrc;
      [unfold handled; destruct (is_exception e); by left|].
    destruct (empty data); [by left|].
    pose proof (iterrows_plain data) as Hp.
    match goal with
    | |- context [for_each ?l ?f ?w0] =>
        destruct (for_each_written ticker storage_target gcs_bucket l w0 Hp) as [Hf _];
        destruct (for_each l f w0) as [[[]|e] w2]
    end; [|unfold handled; destruct (is_exception e)]; simpl in *.
    all: intros path c Hc; destruct (Hf path c Hc) as [? | (row & Hr & -> & -> & ->)];
      [by left | right; exists data, row].
    all: repeat split; try done; apply to_csv_day_frame;
      rewrite Forall_forall in Hp; by apply Hp.
  - rewrite fetch_and_store_data_eq. cbn zeta.
    destruct (yf_download env ticker period "1d") as [e | data] eqn:Hsrc;
      [unfold handled; destruct (is_exception e); by left|].
    destruct (empty data); [by left|].
    pose proof (iterrows_plain data) as Hp.
    match goal with
    | |- context [for_each ?l ?f ?w0] =>
        destruct (for_each_written ticker storage_target gcs_bucket l w0 Hp) as [_ Ho];
        destruct (for_each l f w0) as [[[]|e] w2]
    end; [|unfold handled; destruct (is_exception e)]; simpl in *.
    all: intros key c ct Hc;
      destruct (Ho key (c, ct) Hc) as [? | (row & bk & Hr & -> & -> & -> & Hx)];
      [by left | right; exists data, row, bk].
    all: injection Hx as -> ->; repeat split; try done; apply to_csv_day_frame;
      rewrite Forall_forall in Hp; by apply Hp.
  - intros df w' Hrun.
    apply fetch_returns_table in Hrun as (data & w2 & Hsrc & Hne & _ & Hloop & ->).
    exists data. split; [done|]. split; [by apply empty_iterrows|].
    pose proof (iterrows_plain data) as Hp.
    split.
    + intros -> row Hrow.
      pose proof (for_each_local_ret ticker gcs_bucket _ _ _ Hp Hloop) as Hok.
      match type of Hloop with
      | for_each _ _ ?w0 = _ =>
          destruct (for_each_local_ok ticker gcs_bucket (iterrows data) w0 Hp Hok)
            as (w3 & Hloop' & _ & _ & _ & Hfl & _)
      end.
      rewrite Hloop in Hloop'. injection Hloop' as <-.
      destruct (local_lookup ticker (iterrows data) (files w) row Hrow)
        as (row' & Hin & Hdate & Hget).
      exists (to_csv (day_frame ticker row')), row'.
      cbn [files set_stdout]. rewrite Hfl. cbn [files].
      split; [exact Hget|]. split; [done|]. split; [done|].
      apply to_csv_day_frame. rewrite Forall_forall in Hp. by apply Hp.
    + intros bucket -> -> row Hrow.
      pose proof (for_each_gcp_ret ticker bucket _ _ _ Hp Hloop) as Hok.
      match type of Hloop with
      | for_each _ _ ?w0 = _ =>
          destruct (for_each_gcp_ok ticker bucket (iterrows data) w0 Hp Hok)
            as (w3 & Hloop' & _ & _ & _ & Hobj & _)
      end.
      rewrite Hloop in Hloop'. injection Hloop' as <-.
      destruct (blob_lookup ticker bucket (iterrows data) (objects w) row Hrow)
        as (row' & Hin & Hdate & Hget).
      exists (to_csv (day_frame ticker row')), row'.
      cbn [objects set_stdout]. rewrite Hobj. cbn [objects].
      split; [exact Hget|]. split; [done|]. split; [done|].
      apply to_csv_day_frame. rewrite Forall_forall in Hp. by apply Hp.
Qed.

(** ** The prompts and [main] *)

Lemma same_stores_trans (w1 w2 w3 : World) :
  same_stores w1 w2 → same_stores w2 w3 → same_stores w1 w3.
Proof. unfold same_stores. intros (?&?&?&?) (?&?&?&?). repeat split; congruence. Qed.

Lemma console_only_ret {A} (a : A) : console_only (ret a).
Proof. intros w. done. Qed.

Lemma console_only_raise {A} (e : exn) : console_only (@raise A e).
Proof. intros w. done. Qed.

Lemma console_only_print (s : string) : console_only (print s).
Proof. intros w. done. Qed.

Lemma console_only_input (prompt : string) : console_only (input prompt).
Proof. intros w. unfold input. by destruct (stdin w) as [|[]]. Qed.

Lemma console_only_bind {A B} (m : M A) (k : A → M B) :
  console_only m → (∀ a, console_only (k a)) → console_only (bind m k).
Proof.
  intros Hm Hk w. unfold bind. specialize (Hm w).
  destruct (m w) as [[a|e] w1]; [|done].
  eapply same_stores_trans; [exact Hm | apply Hk].
Qed.

Lemma console_only_for_each {A} (l : list A) (body : A → M unit) :
  (∀ x, console_only (body x)) → console_only (for_each l body).
Proof.
  intros Hb. induction l as [|x l IH]; simpl.
  - apply console_only_ret.
  - apply console_only_bind; [apply Hb | intros _; exact IH].
Qed.

Lemma console_only_get_user_choice_loop (prompt : string) (options : Options)
    (answers : list answer) :
  console_only (get_user_choice_loop env prompt options answers).
Proof.
  induction answers as [|l answers IH]; simpl.
  - apply console_only_input.
  - apply console_only_bind; [apply console_only_input|].
    intros line. case_bool_decide; [apply console_only_ret|].
    apply console_only_bind; [apply console_only_print | intros _; exact IH].
Qed.

Lemma console_only_get_user_choice (prompt : string) (options : Options) :
  console_only (get_user_choice env prompt options).
Proof. intros w. apply console_only_get_user_choice_loop. Qed.

Lemma console_only_get_analysis_parameters : console_only (get_analysis_parameters env).
Proof.
  unfold get_analysis_parameters.
  repeat first
    [ apply console_only_print | apply console_only_input | apply console_only_ret
    | apply console_only_get_user_choice
    | apply console_only_for_each; intros ?
    | apply console_only_bind; [|intros ?] ].
  unfold dict_get. destruct (list_find _ _) as [[? [? ?]]|].
  - apply console_only_ret.
  - apply console_only_raise.
Qed.

(** C3, as the code has it.  With [gcp] chosen and the bucket name still
    the placeholder, [main] returns without any call to the outside: no
    client, no download, no write.  When the ticker is not empty its last
    line is the request to edit the bucket name; an empty ticker is turned
    away first, by the guard before it. *)
Theorem placeholder_bucket_stops_run (processing_target ticker period : string)
    (w w1 w2 w3 : World) :
  GCS_BUCKET_NAME env = placeholder_bucket →
  get_user_choice env "Select storage target (local/gcp): " (OList ["local"; "gcp"]) w
  = (Ret "gcp", w1) →
  get_user_choice env "Select processing target (local/databricks): "
    (OList ["local"; "databricks"]) w1
  = (Ret processing_target, w2) →
  get_analysis_parameters env w2 = (Ret (ticker, period), w3) →
  ∃ w', main env w = (Ret tt, w')
        ∧ trace w' = trace w ∧ files w' = files w ∧ dirs w' = dirs w
        ∧ objects w' = objects w
        ∧ (ticker ≠ "" → stdout w' = stdout w3 ++ [placeholder_message])
        ∧ (ticker = "" → stdout w' = stdout w3 ++ [no_ticker_message]).
Proof.
  intros Hcfg H1 H2 H3.
  assert (same_stores w w3) as (Hf & Hd & Ho & Ht).
  { pose proof (console_only_get_user_choice
                  "Select storage target (local/gcp): " (OList ["local"; "gcp"]) w) as S1.
    pose proof (console_only_get_user_choice
                  "Select processing target (local/databricks): "
                  (OList ["local"; "databricks"]) w1) as S2.
    pose proof (console_only_get_analysis_parameters w2) as S3.
    rewrite H1 in S1. rewrite H2 in S2. rewrite H3 in S3.
    eapply same_stores_trans; [exact S1|].
    eapply same_stores_trans; [exact S2 | exact S3]. }
  unfold main, bind. rewrite H1, H2, H3. cbn [fst snd].
  case_bool_decide as Ht0.
  - eexists. split; [reflexivity|]. simpl. repeat split; done.
  - rewrite Hcfg. rewrite !bool_decide_eq_true_2 by done. cbn [andb].
    eexists. split; [reflexivity|]. simpl. repeat split; done.
Qed.

(** ** Further properties of a run *)

(** What the handler leaves of an exception raised in the body. *)
Lemma handled_spec (e : exn) (w : World) :
  (is_exception e = true
   ∧ handled e w = (Ret None, set_stdout (stdout w ++ [error_message e]) w))
  ∨ (is_exception e = false ∧ handled e w = (Raise e, w)).
Proof. unfold handled. destruct (is_exception e); auto. Qed.

Lemma store_row_raises (ticker storage_target : string) (gcs_bucket : option Bucket)
    (row : PriceRow) (e : exn) (w w' : World) :
  plain (labels row) = true →
  store_row env ticker storage_target gcs_bucket row w = (Raise e, w') →
  makedirs_error env (dirname (local_path ticker (file_date_of row))) = Some e
  ∨ open_error env (local_path ticker (file_date_of row)) = Some e
  ∨ ∃ bucket, upload_error env bucket (blob_name ticker (file_date_of row)) = Some e.
Proof.
  intros Hp. rewrite (store_row_eq _ _ _ _ Hp). case_bool_decide.
  - unfold save_data_locally, makedirs, to_csv_path, bind, emit, check.
    destruct (makedirs_error env _) as [e1|]; simpl; [intros [= <- _]; by left|].
    destruct (open_error env _) as [e2|]; simpl; [intros [= <- _]; auto | discriminate].
  - destruct (bool_decide (storage_target = "gcp")), gcs_bucket as [bucket|];
      try discriminate.
    unfold upload_data_to_gcs, upload_from_string, bind, emit, check.
    destruct (upload_error env _ _) as [e1|] eqn:Hup; simpl; [|discriminate].
    intros [= <- _]. right. right. by exists bucket.
Qed.

Lemma for_each_raises (ticker storage_target : string) (gcs_bucket : option Bucket)
    (l : list PriceRow) (e : exn) (w w' : World) :
  price_rows l →
  for_each l (store_row env ticker storage_target gcs_bucket) w = (Raise e, w') →
  (∃ d, makedirs_error env d = Some e)
  ∨ (∃ path, open_error env path = Some e)
  ∨ (∃ bucket key, upload_error env bucket key = Some e).
Proof.
  intros Hp. revert w. induction Hp as [|row l Hrow _ IH]; intros w; [discriminate|].
  simpl. unfold bind.
  destruct (store_row env ticker storage_target gcs_bucket row w) as [[[]|e1] w1] eqn:Hrun.
  - apply IH.
  - intros [= <- _].
    apply store_row_raises in Hrun as [H | [H | [bucket H]]]; eauto.
Qed.

(** X1.  [fetch_and_store_data] lets no exception of the class
    [Exception] out: what it raises was raised by the data source or by a
    write and is an interrupt or an exit request, which its handler does
    not catch.  When the collaborators raise nothing of that kind, it
    returns. *)
Theorem fetch_and_store_data_returns (ticker period storage_target : string)
    (gcs_bucket : option Bucket) (w : World) :
  (∀ e w',
     fetch_and_store_data env ticker period storage_target gcs_bucket w = (Raise e, w') →
     is_exception e = false
     ∧ (yf_download env ticker period "1d" = inl e
        ∨ (∃ d, makedirs_error env d = Some e)
        ∨ (∃ path, open_error env path = Some e)
        ∨ (∃ bucket key, upload_error env bucket key = Some e)))
  ∧ (no_interrupt env →
     ∃ r w', fetch_and_store_data env ticker period storage_target gcs_bucket w
             = (Ret r, w')).
Proof.
  rewrite fetch_and_store_data_eq. cbn zeta.
  assert (∀ e w0 e' w',
            handled e w0 = (Raise e', w') → e' = e ∧ is_exception e = false) as Hesc.
  { intros e w0 e' w'. unfold handled.
    destruct (is_exception e); [discriminate|]. by intros [= <- _]. }
  split.
  - intros e w'.
    destruct (yf_download env ticker period "1d") as [e0 | data] eqn:Hsrc.
    + intros H. apply Hesc in H as [-> ?]. auto.
    + destruct (empty data); [discriminate|].
      destruct (for_each _ _ _) as [[[]|e0] w2] eqn:Hloop; [discriminate|].
      intros H. apply Hesc in H as [-> ?]. split; [done|]. right.
      eapply for_each_raises; [apply iterrows_plain | exact Hloop].
  - intros (Hdl & Hmk & Hop & _ & Hup).
    destruct (yf_download env ticker period "1d") as [e0 | data] eqn:Hsrc.
    + unfold handled. rewrite (Hdl _ _ _ _ Hsrc). by eauto.
    + destruct (empty data); [by eauto|].
      destruct (for_each _ _ _) as [[[]|e0] w2] eqn:Hloop; [by eauto|].
      apply for_each_raises in Hloop as [[d H] | [[path H] | (bucket & key & H)]];
        [| | |apply iterrows_plain];
        unfold handled; [rewrite (Hmk _ _ H) | rewrite (Hop _ _ H) | rewrite (Hup _ _ _ H)];
        by eauto.
Qed.

Lemma downloads_app (t1 t2 : list event) : downloads (t1 ++ t2) = downloads t1 ++ downloads t2.
Proof. apply List.filter_app. Qed.

Lemma store_row_downloads (ticker storage_target : string) (gcs_bucket : option Bucket)
    (row : PriceRow) (w : World) :
  plain (labels row) = true →
  downloads (trace (store_row env ticker storage_target gcs_bucket row w).2)
  = downloads (trace w).
Proof.
  intros Hp. rewrite (store_row_eq _ _ _ _ Hp). case_bool_decide.
  - unfold save_data_locally, makedirs, to_csv_path, bind, emit, check.
    destruct (makedirs_error env _); simpl;
      [by rewrite downloads_app, app_nil_r|].
    destruct (open_error env _); simpl;
      by rewrite !downloads_app, !app_nil_r.
  - destruct (bool_decide (storage_target = "gcp")), gcs_bucket as [bucket|]; try done.
    unfold upload_data_to_gcs, upload_from_string, bind, emit, check.
    destruct (upload_error env _ _); simpl; by rewrite downloads_app, app_nil_r.
Qed.

Lemma for_each_downloads (ticker storage_target : string) (gcs_bucket : option Bucket)
    (l : list PriceRow) (w : World) :
  price_rows l →
  downloads (trace (for_each l (store_row env ticker storage_target gcs_bucket) w).2)
  = downloads (trace w).
Proof.
  intros Hp. revert w. induction Hp as [|row l Hrow _ IH]; intros w; [done|].
  simpl. unfold bind.
  pose proof (store_row_downloads ticker storage_target gcs_bucket row w Hrow) as Hd.
  destruct (store_row env ticker storage_target gcs_bucket row w) as [[[]|e] w1];
    simpl in *; [by rewrite IH | done].
Qed.

(** Whatever the handler does, it leaves the stores and the trace as they
    are. *)
Lemma handled_frame (e : exn) (w : World) :
  files (handled e w).2 = files w ∧ dirs (handled e w).2 = dirs w
  ∧ objects (handled e w).2 = objects w ∧ trace (handled e w).2 = trace w.
Proof. unfold handled. by destruct (is_exception e). Qed.

(** X2.  Every call of [fetch_and_store_data] asks the data source exactly
    once, for the ticker and period given and daily bars. *)
Theorem one_download_per_call (ticker period storage_target : string)
    (gcs_bucket : option Bucket) (w : World) :
  downloads (trace (fetch_and_store_data env ticker period storage_target gcs_bucket w).2)
  = downloads (trace w) ++ [EvDownload ticker period "1d"].
Proof.
  rewrite fetch_and_store_data_eq. cbn zeta.
  destruct (yf_download env ticker period "1d") as [e | data].
  { destruct (handled_frame e) with (w := {| stdin := stdin w;
        stdout := stdout w ++ [fetching_message env ticker storage_target];
        files := files w; dirs := dirs w; objects := objects w;
        trace := trace w ++ [EvDownload ticker period "1d"] |}) as (_ & _ & _ & ->).
    simpl. by rewrite downloads_app. }
  destruct (empty data); [simpl; by rewrite downloads_app|].
  match goal with
  | |- context [for_each ?l ?f ?w0] =>
      pose proof (for_each_downloads ticker storage_target gcs_bucket l w0
                    (iterrows_plain data)) as Hloop;
      destruct (for_each l f w0) as [[[]|e] w2]
  end; simpl in *.
  - by rewrite Hloop, downloads_app.
  - destruct (handled_frame e w2) as (_ & _ & _ & ->). by rewrite Hloop, downloads_app.
Qed.

Lemma get_user_choice_loop_member (prompt : string) (options : Options)
    (choice : string) (answers : list answer) (w w' : World) :
  answers = stdin w →
  get_user_choice_loop env prompt options answers w = (Ret choice, w') →
  choice ∈ members options.
Proof.
  revert w. induction answers as [|l answers IH]; intros w Hin; simpl.
  - unfold input. by rewrite <- Hin.
  - unfold bind, input. rewrite <- Hin. destruct l as [text|]; [|discriminate].
    case_bool_decide as Hmem.
    + intros [= <- _]. exact Hmem.
    + apply IH. reflexivity.
Qed.

(** X5.  A choice that [get_user_choice] returns is one of the options. *)
Theorem get_user_choice_member (prompt : string) (options : Options)
    (choice : string) (w w' : World) :
  get_user_choice env prompt options w = (Ret choice, w') →
  choice ∈ members options.
Proof. unfold get_user_choice. by apply get_user_choice_loop_member. Qed.

Lemma row_keys_injective (ticker : string) (d1 d2 : Timestamp) :
  valid_date d1 → valid_date d2 →
  local_path ticker (strftime_Ymd d1) = local_path ticker (strftime_Ymd d2)
  ∨ blob_name ticker (strftime_Ymd d1) = blob_name ticker (strftime_Ymd d2) →
  d1 = d2.
Proof.
  intros V1 V2 [H | H]; apply strftime_inj; try done.
  - apply local_path_inj in H as [_ H]; [done| | |done]; apply file_name_has_no_sep.
  - apply blob_name_inj in H as [_ H]; [done|..]; apply file_name_has_no_sep.
Qed.

(** X3.  Within one run the ticker is fixed, and then both key constructions
    tell valid dates apart, whatever the ticker. *)
Theorem row_keys_distinct (ticker : string) (d1 d2 : Timestamp) :
  valid_date d1 → valid_date d2 →
  d1 ≠ d2 →
  bool_decide (local_path ticker (strftime_Ymd d1) = local_path ticker (strftime_Ymd d2))
  = false
  ∧ bool_decide (blob_name ticker (strftime_Ymd d1) = blob_name ticker (strftime_Ymd d2))
    = false.
Proof.
  intros V1 V2 Hne.
  split; apply bool_decide_eq_false_2; intros H; apply Hne;
    apply (row_keys_injective ticker); auto.
Qed.

Lemma fold_insert_size `{Countable K} {A V} (key : A → K) (val : A → V)
    (l : list A) (m : gmap K V) :
  NoDup (map key l) →
  (∀ x, x ∈ l → m !! key x = None) →
  size (fold_left (λ m y, <[key y := val y]> m) l m) = (size m + length l)%nat.
Proof.
  revert m. induction l as [|x l IH]; intros m Hnd Hfresh; simpl.
  - lia.
  - apply NoDup_cons in Hnd as [Hx Hnd].
    rewrite IH; [| done |].
    + rewrite map_size_insert_None by (apply Hfresh; left). lia.
    + intros y Hy. rewrite lookup_insert_ne; [apply Hfresh; by right|].
      intros Heq. apply Hx. rewrite Heq. apply list_elem_of_In, in_map, list_elem_of_In, Hy.
Qed.

Lemma NoDup_row_keys {K} (key : Timestamp → K) (l : list PriceRow) :
  (∀ d1 d2, valid_date d1 → valid_date d2 → key d1 = key d2 → d1 = d2) →
  Forall (λ row, valid_date (Date row)) l →
  NoDup (map Date l) →
  NoDup (map (λ row, key (Date row)) l).
Proof.
  intros Hinj Hvalid Hnd.
  induction l as [|row l IH]; simpl; [constructor|].
  apply Forall_cons in Hvalid as [Hv Hvalid].
  simpl in Hnd. apply NoDup_cons in Hnd as [Hx Hnd].
  apply NoDup_cons. split; [|by apply IH].
  intros Hin. apply Hx.
  apply list_elem_of_In, in_map_iff in Hin as (row' & Hk & Hin).
  apply list_elem_of_In, in_map_iff. exists row'. split; [|done].
  apply Hinj; [| done | done].
  rewrite Forall_forall in Hvalid. apply Hvalid, list_elem_of_In, Hin.
Qed.

(** X4.  A table of N rows with distinct valid dates, none of which has a
    partition yet, leaves N more artifacts in the chosen store when every
    write succeeds. *)
Theorem distinct_dates_distinct_artifacts (ticker period : string)
    (data : PriceSeries) (w : World) :
  yf_download env ticker period "1d" = inr data →
  empty data = false →
  Forall (λ row, valid_date (Date row)) (iterrows data) →
  NoDup (map Date (iterrows data)) →
  ((∀ row, row ∈ iterrows data →
      makedirs_error env (dirname (local_path ticker (file_date_of row))) = None
      ∧ open_error env (local_path ticker (file_date_of row)) = None
      ∧ files w !! local_path ticker (file_date_of row) = None) →
   ∀ gcs_bucket,
     size (files (fetch_and_store_data env ticker period "local" gcs_bucket w).2)
     = (size (files w) + length (iterrows data))%nat)
  ∧ (∀ bucket : Bucket,
     (∀ row, row ∈ iterrows data →
        upload_error env bucket (blob_name ticker (file_date_of row)) = None
        ∧ objects w !! (bucket, blob_name ticker (file_date_of row)) = None) →
     size (objects (fetch_and_store_data env ticker period "gcp" (Some bucket) w).2)
     = (size (objects w) + length (iterrows data))%nat).
Proof.
  intros Hsrc Hne Hvalid Hnd. split.
  - intros Hok gcs_bucket.
    destruct (run_local_ok ticker period data gcs_bucket w Hsrc Hne
                (λ row Hrow, conj (proj1 (Hok row Hrow)) (proj1 (proj2 (Hok row Hrow)))))
      as (w' & -> & Hfl & _).
    simpl. rewrite Hfl. apply fold_insert_size.
    + apply (NoDup_row_keys (λ d, local_path ticker (strftime_Ymd d))); [|done..].
      intros d1 d2 ?? Hk. apply (row_keys_injective ticker); auto.
    + intros row Hrow. apply Hok, Hrow.
  - intros bucket Hok.
    destruct (run_gcp_ok ticker period data bucket w Hsrc Hne
                (λ row Hrow, proj1 (Hok row Hrow))) as (w' & -> & Hobj & _).
    simpl. rewrite Hobj. apply fold_insert_size.
    + apply (NoDup_row_keys (λ d, (bucket, blob_name ticker (strftime_Ymd d)))); [|done..].
      intros d1 d2 ?? Hk. apply (row_keys_injective ticker); auto.
      right. congruence.
    + intros row Hrow. apply Hok, Hrow.
Qed.

(** ** One store per run *)

Lemma cloud_calls_app (t1 t2 : list event) :
  cloud_calls (t1 ++ t2) = cloud_calls t1 ++ cloud_calls t2.
Proof. apply List.filter_app. Qed.

Lemma local_calls_app (t1 t2 : list event) :
  local_calls (t1 ++ t2) = local_calls t1 ++ local_calls t2.
Proof. apply List.filter_app. Qed.

Lemma store_row_local_frame (ticker : string) (gcs_bucket : option Bucket)
    (row : PriceRow) (w : World) :
  plain (labels row) = true →
  objects (store_row env ticker "local" gcs_bucket row w).2 = objects w
  ∧ cloud_calls (trace (store_row env ticker "local" gcs_bucket row w).2)
    = cloud_calls (trace w).
Proof.
  intros Hp. rewrite (store_row_eq _ _ _ _ Hp). simpl.
  unfold save_data_locally, makedirs, to_csv_path, bind, emit, check.
  destruct (makedirs_error env _); simpl;
    [by rewrite cloud_calls_app, app_nil_r|].
  destruct (open_error env _); simpl; by rewrite !cloud_calls_app, !app_nil_r.
Qed.

Lemma store_row_remote_frame (ticker storage_target : string)
    (gcs_bucket : option Bucket) (row : PriceRow) (w : World) :
  plain (labels row) = true →
  storage_target ≠ "local" →
  files (store_row env ticker storage_target gcs_bucket row w).2 = files w
  ∧ dirs (store_row env ticker storage_target gcs_bucket row w).2 = dirs w
  ∧ local_calls (trace (store_row env ticker storage_target gcs_bucket row w).2)
    = local_calls (trace w).
Proof.
  intros Hp Hl. rewrite (store_row_eq _ _ _ _ Hp). rewrite (bool_decide_eq_false_2 _ Hl).
  destruct (bool_decide (storage_target = "gcp")), gcs_bucket as [bucket|]; try done.
  unfold upload_data_to_gcs, upload_from_string, bind, emit, check.
  destruct (upload_error env _ _); simpl; by rewrite local_calls_app, app_nil_r.
Qed.

Lemma for_each_local_frame (ticker : string) (gcs_bucket : option Bucket)
    (l : list PriceRow) (w : World) :
  price_rows l →
  objects (for_each l (store_row env ticker "local" gcs_bucket) w).2 = objects w
  ∧ cloud_calls (trace (for_each l (store_row env ticker "local" gcs_bucket) w).2)
    = cloud_calls (trace w).
Proof.
  intros Hp. revert w. induction Hp as [|row l Hrow _ IH]; intros w; [done|].
  simpl. unfold bind.
  destruct (store_row_local_frame ticker gcs_bucket row w Hrow) as [Ho Hc].
  destruct (store_row env ticker "local" gcs_bucket row w) as [[[]|e] w1];
    simpl in *; [|done].
  destruct (IH w1) as [Ho' Hc']. split; congruence.
Qed.

Lemma for_each_remote_frame (ticker storage_target : string)
    (gcs_bucket : option Bucket) (l : list PriceRow) (w : World) :
  price_rows l →
  storage_target ≠ "local" →
  files (for_each l (store_row env ticker storage_target gcs_bucket) w).2 = files w
  ∧ dirs (for_each l (store_row env ticker storage_target gcs_bucket) w).2 = dirs w
  ∧ local_calls
      (trace (for_each l (store_row env ticker storage_target gcs_bucket) w).2)
    = local_calls (trace w).
Proof.
  intros Hp Hl. revert w. induction Hp as [|row l Hrow _ IH]; intros w; [done|].
  simpl. unfold bind.
  destruct (store_row_remote_frame ticker storage_target gcs_bucket row w Hrow Hl)
    as (Hf & Hd & Hc).
  destruct (store_row env ticker storage_target gcs_bucket row w) as [[[]|e] w1];
    simpl in *; [|done].
  destruct (IH w1) as (Hf' & Hd' & Hc'). repeat split; congruence.
Qed.

Lemma fetch_local_frame (ticker period : string) (gcs_bucket : option Bucket) (w : World) :
  objects (fetch_and_store_data env ticker period "local" gcs_bucket w).2 = objects w
  ∧ cloud_calls (trace (fetch_and_store_data env ticker period "local" gcs_bucket w).2)
    = cloud_calls (trace w).
Proof.
  rewrite fetch_and_store_data_eq. cbn zeta.
  destruct (yf_download env ticker period "1d") as [e | data].
  { match goal with
    | |- context [handled e ?w0] => destruct (handled_frame e w0) as (_ & _ & -> & ->)
    end.
    simpl. by rewrite cloud_calls_app, app_nil_r. }
  destruct (empty data); [simpl; by rewrite cloud_calls_app, app_nil_r|].
  match goal with
  | |- context [for_each ?l ?f ?w0] =>
      destruct (for_each_local_frame ticker gcs_bucket l w0 (iterrows_plain data))
        as [Ho Hc];
      destruct (for_each l f w0) as [[[]|e] w2]
  end; simpl in *.
  - rewrite Ho, Hc, cloud_calls_app, app_nil_r. done.
  - destruct (handled_frame e w2) as (_ & _ & -> & ->).
    rewrite Ho, Hc, cloud_calls_app, app_nil_r. done.
Qed.

Lemma fetch_remote_frame (ticker period storage_target : string)
    (gcs_bucket : option Bucket) (w : World) :
  storage_target ≠ "local" →
  files (fetch_and_store_data env ticker period storage_target gcs_bucket w).2 = files w
  ∧ dirs (fetch_and_store_data env ticker period storage_target gcs_bucket w).2 = dirs w
  ∧ local_calls
      (trace (fetch_and_store_data env ticker period storage_target gcs_bucket w).2)
    = local_calls (trace w).
Proof.
  intros Hl. rewrite fetch_and_store_data_eq. cbn zeta.
  destruct (yf_download env ticker period "1d") as [e | data].
  { match goal with
    | |- context [handled e ?w0] => destruct (handled_frame e w0) as (-> & -> & _ & ->)
    end.
    simpl. by rewrite local_calls_app, app_nil_r. }
  destruct (empty data); [simpl; by rewrite local_calls_app, app_nil_r|].
  match goal with
  | |- context [for_each ?l ?f ?w0] =>
      destruct (for_each_remote_frame ticker storage_target gcs_bucket l w0
                  (iterrows_plain data) Hl) as (Hf & Hd & Hc);
      destruct (for_each l f w0) as [[[]|e] w2]
  end; simpl in *.
  - rewrite Hf, Hd, Hc, local_calls_app, app_nil_r. done.
  - destruct (handled_frame e w2) as (-> & -> & _ & ->).
    rewrite Hf, Hd, Hc, local_calls_app, app_nil_r. done.
Qed.

(** X6.  A run writes to one store at most, whatever its outcome: with the
    target [local] no object is touched and no call goes to the object
    store; with any other target no file or directory is touched and no
    call goes to the file system. *)
Theorem one_store_per_run (ticker period storage_target : string)
    (gcs_bucket : option Bucket) (w : World) :
  (storage_target = "local" →
   objects (fetch_and_store_data env ticker period storage_target gcs_bucket w).2
   = objects w
   ∧ cloud_calls
       (trace (fetch_and_store_data env ticker period storage_target gcs_bucket w).2)
     = cloud_calls (trace w))
  ∧ (storage_target ≠ "local" →
     files (fetch_and_store_data env ticker period storage_target gcs_bucket w).2
     = files w
     ∧ dirs (fetch_and_store_data env ticker period storage_target gcs_bucket w).2
       = dirs w
     ∧ local_calls
         (trace (fetch_and_store_data env ticker period storage_target gcs_bucket w).2)
       = local_calls (trace w)).
Proof.
  split.
  - intros ->. apply fetch_local_frame.
  - apply fetch_remote_frame.
Qed.


(** ** Writing and reading back *)

Lemma up_to_last_sep_app_sep (a b : string) :
  ∃ h, up_to_last_sep (a +:+ String Str.sep b) = Some h ∧ h ≠ "".
Proof.
  induction a as [|c a (h & IH & _)].
  - rewrite app_nil_l. simpl.
    destruct (up_to_last_sep b); eexists; (split; [reflexivity | done]).
  - rewrite app_cons. simpl. rewrite IH. eexists. split; [reflexivity | done].
Qed.

Lemma dirname_local_path_nonempty (ticker file_date : string) :
  dirname (local_path ticker file_date) ≠ "".
Proof.
  rewrite local_path_eq.
  change ("stock_data_lake/ticker=" +:+ ticker
          +:+ (if Str.endswith_sep ticker then "" else "/")
          +:+ "date=" +:+ file_date +:+ ".csv")
    with ("stock_data_lake"
          +:+ String Str.sep ("ticker=" +:+ ticker
                 +:+ (if Str.endswith_sep ticker then "" else "/")
                 +:+ "date=" +:+ file_date +:+ ".csv")).
  destruct (up_to_last_sep_app_sep "stock_data_lake"
              ("ticker=" +:+ ticker +:+ (if Str.endswith_sep ticker then "" else "/")
               +:+ "date=" +:+ file_date +:+ ".csv")) as (h & Hh & Hne).
  unfold dirname. rewrite Hh. simpl. by destruct (rstrip_sep h).
Qed.

Lemma parents_head (d : string) : d ≠ "" → d ∈ parents (String.length d) d.
Proof.
  intros Hd. destruct d as [|c d]; [done|].
  cbn [String.length parents]. case_bool_decide; [done | by left].
Qed.

(** X8.  A successful local write can be read back: the file holds the CSV of
    the table, every other file is as before, the directory of the file
    exists afterwards and no directory has disappeared. *)
Theorem save_then_read (df : DataFrame) (ticker file_date : string) (w : World) :
  makedirs_error env (dirname (local_path ticker file_date)) = None →
  open_error env (local_path ticker file_date) = None →
  ∃ w', save_data_locally env df ticker file_date w = (Ret tt, w')
        ∧ files w' !! local_path ticker file_date = Some (to_csv df)
        ∧ (∀ path, path ≠ local_path ticker file_date → files w' !! path = files w !! path)
        ∧ dirname (local_path ticker file_date) ∈ dirs w'
        ∧ dirs w ⊆ dirs w'
        ∧ objects w' = objects w.
Proof.
  intros Hmk Hop. rewrite (save_data_locally_ok df ticker file_date w Hmk Hop).
  eexists. split; [reflexivity|]. simpl.
  split; [apply lookup_insert_eq|].
  split; [intros path Hp; by apply lookup_insert_ne|].
  split.
  - apply elem_of_union. right. apply elem_of_list_to_set, parents_head.
    apply dirname_local_path_nonempty.
  - split; [|done]. apply union_subseteq_l.
Qed.

(** X9.  A successful upload can be read back: the object holds the CSV of the
    table with the content type [text/csv], every other object is as
    before, and no file is touched. *)
Theorem upload_then_read (df : DataFrame) (ticker file_date : string)
    (bucket : Bucket) (w : World) :
  upload_error env bucket (blob_name ticker file_date) = None →
  ∃ w', upload_data_to_gcs env df ticker file_date bucket w = (Ret tt, w')
        ∧ objects w' !! (bucket, blob_name ticker file_date) = Some (to_csv df, "text/csv")
        ∧ (∀ key, key ≠ (bucket, blob_name ticker file_date) →
             objects w' !! key = objects w !! key)
        ∧ files w' = files w ∧ dirs w' = dirs w.
Proof.
  intros Hup. rewrite (upload_data_to_gcs_ok df ticker file_date bucket w Hup).
  eexists. split; [reflexivity|]. simpl.
  split; [apply lookup_insert_eq|].
  split; [intros key Hk; by apply lookup_insert_ne | done].
Qed.

(** ** The directory of a ticker *)

Lemma rstrip_sep_snoc (p : string) : rstrip_sep (p +:+ "/") = rstrip_sep p.
Proof.
  induction p as [|c p IH]; [done|].
  rewrite app_cons. simpl. by rewrite IH.
Qed.

Lemma rstrip_sep_id (p : string) : Str.endswith_sep p = false → rstrip_sep p = p.
Proof.
  induction p as [|c p IH]; [done|]. simpl.
  destruct p as [|c' p].
  - simpl. by intros ->.
  - intros Hp. rewrite (IH Hp). done.
Qed.

Lemma dirname_local_path (ticker : string) (t : Timestamp) :
  dirname (local_path ticker (strftime_Ymd t))
  = rstrip_sep ("stock_data_lake/ticker=" +:+ ticker).
Proof.
  rewrite local_path_eq.
  assert (∃ q, "stock_data_lake/ticker=" +:+ ticker
               +:+ (if Str.endswith_sep ticker then "" else "/")
               +:+ "date=" +:+ strftime_Ymd t +:+ ".csv"
               = q +:+ ("date=" +:+ strftime_Ymd t +:+ ".csv")
               ∧ Str.endswith_sep q = true
               ∧ rstrip_sep q = rstrip_sep ("stock_data_lake/ticker=" +:+ ticker))
    as (q & -> & Hq & Hr).
  { destruct (Str.endswith_sep ticker) eqn:Hsep.
    - exists ("stock_data_lake/ticker=" +:+ ticker).
      split; [by rewrite app_nil_l|]. split; [|done].
      by rewrite endswith_sep_ticker.
    - exists (("stock_data_lake/ticker=" +:+ ticker) +:+ "/").
      split; [by rewrite !app_assoc_str|].
      split; [apply endswith_sep_snoc | apply rstrip_sep_snoc]. }
  unfold dirname.
  rewrite up_to_last_sep_app_none by apply file_name_has_no_sep.
  rewrite (up_to_last_sep_endswith q Hq).
  assert (rstrip_sep ("stock_data_lake/ticker=" +:+ ticker) ≠ "") as Hne.
  { change ("stock_data_lake/ticker=" +:+ ticker)
      with (String "s" ("tock_data_lake/ticker=" +:+ ticker)).
    cbn [rstrip_sep].
    destruct (rstrip_sep ("tock_data_lake/ticker=" +:+ ticker));
      [rewrite bool_decide_eq_false_2 by done|]; done. }
  unfold default, from_option, id. rewrite Hr.
  by destruct (rstrip_sep ("stock_data_lake/ticker=" +:+ ticker)).
Qed.

(** X10.  All partitions of one ticker lie in one directory, the same for every
    date; for a ticker that does not end with the separator it is
    stock_data_lake/ticker=TICKER. *)
Theorem one_directory_per_ticker (ticker : string) (d1 d2 : Timestamp) :
  dirname (local_path ticker (strftime_Ymd d1))
  = dirname (local_path ticker (strftime_Ymd d2))
  ∧ (Str.endswith_sep ticker = false →
     dirname (local_path ticker (strftime_Ymd d1)) = "stock_data_lake/ticker=" +:+ ticker).
Proof.
  rewrite !dirname_local_path. split; [done|].
  intros Hsep. apply rstrip_sep_id. by rewrite endswith_sep_ticker.
Qed.

(** ** The bucket handle *)

Lemma get_gcs_bucket_eq (bucket_name : string) (w : World) :
  get_gcs_bucket env bucket_name w
  = if storage_imported env then
      match client_error env bucket_name with
      | None => (Ret (Some bucket_name), set_trace (trace w ++ [EvClient bucket_name]) w)
      | Some e =>
          if is_exception e then
            (Ret None,
             {| stdin := stdin w;
                stdout := stdout w ++ [no_client_message];
                files := files w; dirs := dirs w; objects := objects w;
                trace := trace w ++ [EvClient bucket_name] |})
          else (Raise e, set_trace (trace w ++ [EvClient bucket_name]) w)
      end
    else (Ret None, set_stdout (stdout w ++ [not_installed_message]) w).
Proof.
  unfold get_gcs_bucket. destruct (storage_imported env); simpl; [|reflexivity].
  unfold try_except, bind, emit, check, print.
  destruct (client_error env bucket_name) as [e|]; [|reflexivity].
  simpl. by destruct (is_exception e).
Qed.

(** X11.  [get_gcs_bucket] lets no exception of the class [Exception] out.
    Without the client library it prints the line that asks to install it
    and returns [None], and no client is built.  With the library it
    builds the client once: it returns the handle of the named bucket and
    prints nothing when that succeeds, prints the line about the
    credentials and returns [None] when that raises an [Exception], and
    raises what the construction raised when that is not an [Exception].
    No file, directory or object is touched. *)
Theorem get_gcs_bucket_outcome (bucket_name : string) (w : World) :
  (storage_imported env = false →
   get_gcs_bucket env bucket_name w
   = (Ret None,
      {| stdin := stdin w;
         stdout := stdout w
                   ++ [Str.nl +:+ "FATAL: 'google-cloud-storage' not installed. Run 'pip install google-cloud-storage'."];
         files := files w; dirs := dirs w; objects := objects w; trace := trace w |}))
  ∧ (storage_imported env = true → client_error env bucket_name = None →
     get_gcs_bucket env bucket_name w
     = (Ret (Some bucket_name),
        {| stdin := stdin w; stdout := stdout w;
           files := files w; dirs := dirs w; objects := objects w;
           trace := trace w ++ [EvClient bucket_name] |}))
  ∧ (∀ msg, storage_imported env = true →
       client_error env bucket_name = Some (Exception msg) →
       get_gcs_bucket env bucket_name w
       = (Ret None,
          {| stdin := stdin w;
             stdout := stdout w
                       ++ [Str.nl +:+ "FATAL: Could not initialize GCS client. Ensure GOOGLE_APPLICATION_CREDENTIALS is set."];
             files := files w; dirs := dirs w; objects := objects w;
             trace := trace w ++ [EvClient bucket_name] |}))
  ∧ (∀ e w', get_gcs_bucket env bucket_name w = (Raise e, w') →
       is_exception e = false
       ∧ storage_imported env = true ∧ client_error env bucket_name = Some e
       ∧ stdout w' = stdout w ∧ files w' = files w ∧ dirs w' = dirs w
       ∧ objects w' = objects w ∧ trace w' = trace w ++ [EvClient bucket_name]).
Proof.
  rewrite get_gcs_bucket_eq. split; [|split; [|split]].
  - by intros ->.
  - by intros -> ->.
  - by intros msg -> ->.
  - intros e w'. destruct (storage_imported env); [|discriminate].
    destruct (client_error env bucket_name) as [e0|]; [|discriminate].
    destruct (is_exception e0) eqn:He; [discriminate|].
    intros [= <- <-]. done.
Qed.

(** ** The prompts *)

Lemma get_user_choice_loop_retries (prompt : string) (options : Options)
    (good : string) (rest : list answer) (bad : list string) (w : World) :
  stdin w = map Line bad ++ Line good :: rest →
  Forall (λ l, str_strip env (str_lower env l) ∉ members options) bad →
  str_strip env (str_lower env good) ∈ members options →
  get_user_choice_loop env prompt options (map Line bad ++ Line good :: rest) w
  = (Ret (str_strip env (str_lower env good)),
     {| stdin := rest;
        stdout := stdout w
                  ++ flat_map (λ _, [prompt;
                                     "Invalid choice. Please select one of "
                                     +:+ repr_options options +:+ "."]) bad
                  ++ [prompt];
        files := files w; dirs := dirs w; objects := objects w; trace := trace w |}).
Proof.
  intros Hin Hbad Hgood. revert w Hin.
  induction bad as [|b bad IH]; intros w Hin; simpl in *.
  - unfold bind, input. rewrite Hin.
    rewrite bool_decide_eq_true_2 by done. reflexivity.
  - apply Forall_cons in Hbad as [Hb Hbad].
    unfold bind at 1. unfold input. rewrite Hin.
    rewrite bool_decide_eq_false_2 by done.
    unfold bind, print. cbn [fst snd].
    rewrite IH; [|done|reflexivity].
    simpl. by rewrite <- !app_assoc.
Qed.

(** X12.  [get_user_choice] asks again after every line that is not an option
    once lower-cased and trimmed, and returns the first line that is one,
    lower-cased and trimmed; it reads no further, prints the prompt once
    per line read and one complaint per rejected line.  This holds
    whatever [str.lower] and [str.strip] make of the lines. *)
Theorem get_user_choice_retries (prompt : string) (options : Options)
    (bad : list string) (good : string) (rest : list answer) (w : World) :
  stdin w = map Line bad ++ Line good :: rest →
  Forall (λ l, str_strip env (str_lower env l) ∉ members options) bad →
  str_strip env (str_lower env good) ∈ members options →
  get_user_choice env prompt options w
  = (Ret (str_strip env (str_lower env good)),
     {| stdin := rest;
        stdout := stdout w
                  ++ flat_map (λ _, [prompt;
                                     "Invalid choice. Please select one of "
                                     +:+ repr_options options +:+ "."]) bad
                  ++ [prompt];
        files := files w; dirs := dirs w; objects := objects w; trace := trace w |}).
Proof.
  intros Hin Hbad Hgood. unfold get_user_choice. rewrite Hin.
  by apply get_user_choice_loop_retries.
Qed.

Lemma get_user_choice_loop_stops (prompt : string) (options : Options)
    (bad : list string) (tail : list answer) (w : World) :
  stdin w = map Line bad ++ tail →
  tail = [] ∨ (∃ rest, tail = Interrupt :: rest) →
  Forall (λ l, str_strip env (str_lower env l) ∉ members options) bad →
  get_user_choice_loop env prompt options (map Line bad ++ tail) w
  = (Raise (match tail with [] => EOFError | _ => KeyboardInterrupt end),
     {| stdin := List.tl tail;
        stdout := stdout w
                  ++ flat_map (λ _, [prompt;
                                     "Invalid choice. Please select one of "
                                     +:+ repr_options options +:+ "."]) bad
                  ++ [prompt];
        files := files w; dirs := dirs w; objects := objects w; trace := trace w |}).
Proof.
  intros Hin Htail Hbad. revert w Hin.
  induction bad as [|b bad IH]; intros w Hin; simpl in *.
  - destruct Htail as [-> | [rest ->]]; simpl.
    + unfold input, set_stdout. rewrite Hin. reflexivity.
    + unfold bind, input. rewrite Hin. reflexivity.
  - apply Forall_cons in Hbad as [Hb Hbad].
    unfold bind at 1. unfold input. rewrite Hin.
    rewrite bool_decide_eq_false_2 by done.
    unfold bind, print. cbn [fst snd].
    rewrite IH; [|done|reflexivity].
    simpl. by rewrite <- !app_assoc.
Qed.

(** X13.  The loop of [get_user_choice] ends without a choice only when
    [input] raises.  When every line typed is rejected and the input
    ends, it has read all of it and raises [EOFError]; when the operator
    interrupts after rejected lines, it raises [KeyboardInterrupt] and
    reads no further.  Nothing in [main.py] catches either. *)
Theorem get_user_choice_eof (prompt : string) (options : Options)
    (bad : list string) (w : World) :
  Forall (λ l, str_strip env (str_lower env l) ∉ members options) bad →
  (stdin w = map Line bad →
   get_user_choice env prompt options w
   = (Raise EOFError,
      {| stdin := [];
         stdout := stdout w
                   ++ flat_map (λ _, [prompt;
                                      "Invalid choice. Please select one of "
                                      +:+ repr_options options +:+ "."]) bad
                   ++ [prompt];
         files := files w; dirs := dirs w; objects := objects w; trace := trace w |}))
  ∧ (∀ rest, stdin w = map Line bad ++ Interrupt :: rest →
     get_user_choice env prompt options w
     = (Raise KeyboardInterrupt,
        {| stdin := rest;
           stdout := stdout w
                     ++ flat_map (λ _, [prompt;
                                        "Invalid choice. Please select one of "
                                        +:+ repr_options options +:+ "."]) bad
                     ++ [prompt];
           files := files w; dirs := dirs w; objects := objects w; trace := trace w |})).
Proof.
  intros Hbad. split.
  - intros Hin. unfold get_user_choice. rewrite Hin.
    rewrite <- (app_nil_r (map Line bad)).
    rewrite (get_user_choice_loop_stops prompt options bad [] w); auto.
    by rewrite app_nil_r.
  - intros rest Hin. unfold get_user_choice. rewrite Hin.
    rewrite (get_user_choice_loop_stops prompt options bad (Interrupt :: rest) w); eauto.
Qed.

(** What [get_user_choice] raises is what [input] raised: the end of the
    input, reached with nothing left to read, or an interrupt of the
    operator. *)
Lemma get_user_choice_raises (prompt : string) (options : Options)
    (e : exn) (w w' : World) :
  get_user_choice env prompt options w = (Raise e, w') →
  (e = EOFError ∧ stdin w' = []) ∨ (e = KeyboardInterrupt ∧ Interrupt ∈ stdin w).
Proof.
  unfold get_user_choice.
  assert (∀ answers w, answers = stdin w →
            get_user_choice_loop env prompt options answers w = (Raise e, w') →
            (e = EOFError ∧ stdin w' = []) ∨ (e = KeyboardInterrupt ∧ Interrupt ∈ answers))
    as Hloop.
  { clear w. induction answers as [|a answers IH]; intros w Hin; simpl.
    - unfold input. rewrite <- Hin. intros [= <- <-]. left.
      split; [done | simpl; by rewrite <- Hin].
    - unfold bind at 1. unfold input. rewrite <- Hin. destruct a as [text|].
      + case_bool_decide; [discriminate|].
        unfold bind, print. cbn [fst snd]. intros Hrun.
        apply IH in Hrun as [? | [? ?]]; [by left | right; split; [done | by right] | done].
      + intros [= <- _]. right. split; [done | by left]. }
  intros Hrun. eapply Hloop in Hrun; [|reflexivity]. done.
Qed.

(** ** The ticker and the period *)

Lemma get_analysis_parameters_eq (w : World) :
  get_analysis_parameters env w
  = let w0 := set_stdout (stdout w ++ [Str.nl +:+ "--- Asset & Period Selection ---";
                                      "Formats: NSE -> RELIANCE.NS | BSE -> 500325.BO | MF -> AXISBLUECHIP.NS";
                                      "Enter ticker symbol: "]) w in
    match stdin w with
    | [] => (Raise EOFError, w0)
    | Interrupt :: rest => (Raise KeyboardInterrupt, set_stdin rest w0)
    | Line line :: rest =>
        let w1 := {| stdin := rest;
                     stdout := stdout w0
                               ++ (Str.nl +:+ "Select time period:")
                               :: map (λ kv, "  " +:+ kv.1 +:+ ": " +:+ kv.2)
                                    period_map_display;
                     files := files w; dirs := dirs w; objects := objects w;
                     trace := trace w |} in
        match get_user_choice env "Enter choice (1-6): "
                (OKeys (map fst period_options)) w1 with
        | (Ret choice, w2) =>
            match dict_get period_options choice w2 with
            | (Ret period, w3) => (Ret (str_strip env (str_upper env line), period), w3)
            | (Raise e, w3) => (Raise e, w3)
            end
        | (Raise e, w2) => (Raise e, w2)
        end
    end.
Proof.
  destruct w as [answers out fs ds os tr].
  unfold get_analysis_parameters, bind, print, input, ret.
  cbn -[get_user_choice dict_get period_options String.append].
  destruct answers as [|[line|] rest];
    cbn -[get_user_choice dict_get period_options String.append];
    cbv [set_stdout set_stdin stdin stdout files dirs objects trace];
    rewrite <- !app_assoc; reflexivity.
Qed.

Lemma dict_get_period (choice : string) (w : World) :
  choice ∈ members (OKeys (map fst period_options)) →
  ∃ period, dict_get period_options choice w = (Ret period, w)
            ∧ (choice, period) ∈ period_options
            ∧ period ∈ ["7d"; "1mo"; "1y"; "3y"; "5y"; "max"].
Proof.
  simpl. intros Hchoice.
  repeat (apply elem_of_cons in Hchoice as [-> | Hchoice]);
    [..|by apply elem_of_nil in Hchoice];
    eexists; (split; [reflexivity|]);
    split; apply list_elem_of_In; simpl; auto 10.
Qed.

(** X14.  What [get_analysis_parameters] returns: the ticker is the first
    line typed, upper-cased and trimmed by the methods of the
    interpreter; the period is the code that [period_options] holds for
    a key the operator chose, one of the six period codes, so the
    look-up never misses. *)
Theorem analysis_parameters_from_input (ticker period : string) (w w' : World) :
  get_analysis_parameters env w = (Ret (ticker, period), w') →
  (∃ line rest, stdin w = Line line :: rest
                ∧ ticker = str_strip env (str_upper env line))
  ∧ (∃ key, key ∈ ["1"; "2"; "3"; "4"; "5"; "6"] ∧ (key, period) ∈ period_options)
  ∧ period ∈ ["7d"; "1mo"; "1y"; "3y"; "5y"; "max"].
Proof.
  rewrite get_analysis_parameters_eq. cbn zeta.
  destruct (stdin w) as [|[line|] rest]; [discriminate | | discriminate].
  destruct (get_user_choice _ _ _ _) as [[choice|e] w2] eqn:Hchoice; [|discriminate].
  apply get_user_choice_loop_member in Hchoice; [|done].
  destruct (dict_get_period choice w2 Hchoice) as (p & -> & Hkey & Hp).
  intros [= <- <- _]. split; [by eauto|]. split; [|done].
  exists choice. split; [exact Hchoice | exact Hkey].
Qed.

(** X15.  [get_analysis_parameters] never raises [KeyError]: the key
    looked up in [period_options] is always one of its keys.  What it
    raises is what [input] raised at one of its two prompts: [EOFError]
    once the input is used up, or [KeyboardInterrupt] when the operator
    interrupts. *)
Theorem analysis_parameters_raise_only_input (e : exn) (w w' : World) :
  get_analysis_parameters env w = (Raise e, w') →
  (e = EOFError ∧ stdin w' = []) ∨ (e = KeyboardInterrupt ∧ Interrupt ∈ stdin w).
Proof.
  rewrite get_analysis_parameters_eq. cbn zeta.
  destruct (stdin w) as [|[line|] rest] eqn:Hin.
  - intros [= <- <-]. left. split; [done | exact Hin].
  - destruct (get_user_choice _ _ _ _) as [[choice|e1] w2] eqn:Hchoice.
    + apply get_user_choice_loop_member in Hchoice; [|done].
      destruct (dict_get_period choice w2 Hchoice) as (p & -> & _). discriminate.
    + intros [= <- <-].
      apply get_user_choice_raises in Hchoice as [? | [? Hint]]; [by left|].
      right. split; [done|]. by right.
  - intros [= <- _]. right. split; [done | by left].
Qed.

(** ** The processing stage *)

Lemma plot_stock_performance_frame (df : DataFrame) (ticker period : string) (w : World) :
  files (plot_stock_performance env df ticker period w).2 = files w
  ∧ dirs (plot_stock_performance env df ticker period w).2 = dirs w
  ∧ objects (plot_stock_performance env df ticker period w).2 = objects w
  ∧ trace (plot_stock_performance env df ticker period w).2
    = trace w ++ (if plotting_imported env then [EvPlot ticker (str_upper env period)] else []).
Proof.
  unfold plot_stock_performance.
  destruct (plotting_imported env); simpl.
  - unfold bind, print, emit, check. simpl. by destruct (plot_error env).
  - unfold bind, print. simpl. by rewrite app_nil_r.
Qed.

Lemma process_data_locally_frame (fetched_data : option DataFrame)
    (ticker period : string) (w : World) :
  files (process_data_locally env fetched_data ticker period w).2 = files w
  ∧ dirs (process_data_locally env fetched_data ticker period w).2 = dirs w
  ∧ objects (process_data_locally env fetched_data ticker period w).2 = objects w
  ∧ trace (process_data_locally env fetched_data ticker period w).2
    = trace w
      ++ match fetched_data with
         | Some df =>
             match rows df with
             | [] => []
             | _ => if plotting_imported env then [EvPlot ticker (str_upper env period)] else []
             end
         | None => []
         end.
Proof.
  unfold process_data_locally, bind, print. cbn [fst snd].
  destruct fetched_data as [df|]; [|simpl; by rewrite app_nil_r].
  destruct (rows df) eqn:Hrows; [simpl; by rewrite app_nil_r|].
  match goal with
  | |- context [plot_stock_performance env df ticker period ?w0] =>
      destruct (plot_stock_performance_frame df ticker period w0) as (Hf & Hd & Ho & Ht)
  end.
  by rewrite Hf, Hd, Ho, Ht.
Qed.

Lemma provide_databricks_instructions_eq (ticker : string) (w : World) :
  provide_databricks_instructions env ticker w
  = (Ret tt,
     {| stdin := stdin w;
        stdout := stdout w
                  ++ [Str.nl +:+ "[2] Data is ready for Databricks analysis.";
                      "-> Paste the following PySpark code into a Databricks notebook cell:";
                      Str.repeat_char "-" 70;
                      db_code env ticker (GCS_BUCKET_NAME env);
                      Str.repeat_char "-" 70];
        files := files w; dirs := dirs w; objects := objects w; trace := trace w |}).
Proof.
  unfold provide_databricks_instructions, bind, print, set_stdout. simpl.
  by rewrite <- !app_assoc.
Qed.


(** [process_data_locally] raises only what the drawing raises: without a
    table, with an empty table, or without the plotting libraries it
    returns after its messages. *)
Lemma process_data_locally_outcome (fetched_data : option DataFrame)
    (ticker period : string) (w : World) :
  (∃ w', process_data_locally env fetched_data ticker period w = (Ret tt, w'))
  ∨ (∃ e w', process_data_locally env fetched_data ticker period w = (Raise e, w')
             ∧ plotting_imported env = true ∧ plot_error env = Some e).
Proof.
  unfold process_data_locally. unfold bind at 1. unfold print at 1. cbn [fst snd].
  destruct fetched_data as [df|]; [|unfold print; left; by eauto].
  destruct (rows df) eqn:Hrows; [unfold print; left; by eauto|].
  unfold plot_stock_performance.
  destruct (plotting_imported env) eqn:Himp; simpl.
  - unfold bind, print, emit, check.
    destruct (plot_error env) as [e|]; simpl; [right | left]; by eauto.
  - unfold bind, print. simpl. left. by eauto.
Qed.

(** ** [main] after the prompts *)

(** What is left of [main] once the three prompts have been answered. *)
Lemma main_after_prompts (storage_target processing_target ticker period : string)
    (w w1 w2 w3 : World) :
  get_user_choice env "Select storage target (local/gcp): " (OList ["local"; "gcp"]) w
  = (Ret storage_target, w1) →
  get_user_choice env "Select processing target (local/databricks): "
    (OList ["local"; "databricks"]) w1
  = (Ret processing_target, w2) →
  get_analysis_parameters env w2 = (Ret (ticker, period), w3) →
  main env w
  = (if bool_decide (ticker = "") then print no_ticker_message
     else if bool_decide (storage_target = "gcp")
             && bool_decide (GCS_BUCKET_NAME env = placeholder_bucket) then
       print placeholder_message
     else
       do gcs_bucket <- (if bool_decide (storage_target = "gcp")
                         then get_gcs_bucket env (GCS_BUCKET_NAME env)
                         else ret None);
       if bool_decide (storage_target = "gcp") && bool_decide (gcs_bucket = None) then
         ret tt
       else
         do fetched_data <- fetch_and_store_data env ticker period storage_target gcs_bucket;
         if bool_decide (processing_target = "local") then
           process_data_locally env fetched_data ticker period
         else if bool_decide (processing_target = "databricks") then
           provide_databricks_instructions env ticker
         else ret tt) w3.
Proof.
  intros H1 H2 H3. unfold main. unfold bind at 1. rewrite H1.
  unfold bind at 1. rewrite H2. unfold bind at 1. rewrite H3. reflexivity.
Qed.

Lemma prompts_same_stores (storage_target processing_target ticker period : string)
    (w w1 w2 w3 : World) :
  get_user_choice env "Select storage target (local/gcp): " (OList ["local"; "gcp"]) w
  = (Ret storage_target, w1) →
  get_user_choice env "Select processing target (local/databricks): "
    (OList ["local"; "databricks"]) w1
  = (Ret processing_target, w2) →
  get_analysis_parameters env w2 = (Ret (ticker, period), w3) →
  same_stores w w3.
Proof.
  intros H1 H2 H3.
  pose proof (console_only_get_user_choice
                "Select storage target (local/gcp): " (OList ["local"; "gcp"]) w) as S1.
  pose proof (console_only_get_user_choice
                "Select processing target (local/databricks): "
                (OList ["local"; "databricks"]) w1) as S2.
  pose proof (console_only_get_analysis_parameters w2) as S3.
  rewrite H1 in S1. rewrite H2 in S2. rewrite H3 in S3.
  eapply same_stores_trans; [exact S1|].
  eapply same_stores_trans; [exact S2 | exact S3].
Qed.

(** X17.  With [gcp] chosen, a real bucket name and a ticker, [main] stops when
    the bucket handle cannot be had.  Without the client library its only
    output after the prompts is the line that asks to install it, and no
    call goes out; when the construction of the client raises an
    [Exception], its only output is the line about the credentials, and
    the one call made is that construction.  In both cases it returns
    without asking the data source and without writing anything. *)
Theorem no_bucket_no_fetch (processing_target ticker period : string)
    (w w1 w2 w3 : World) :
  GCS_BUCKET_NAME env ≠ placeholder_bucket →
  ticker ≠ "" →
  storage_imported env = false
  ∨ (∃ msg, client_error env (GCS_BUCKET_NAME env) = Some (Exception msg)) →
  get_user_choice env "Select storage target (local/gcp): " (OList ["local"; "gcp"]) w
  = (Ret "gcp", w1) →
  get_user_choice env "Select processing target (local/databricks): "
    (OList ["local"; "databricks"]) w1
  = (Ret processing_target, w2) →
  get_analysis_parameters env w2 = (Ret (ticker, period), w3) →
  ∃ w',
    main env w = (Ret tt, w')
    ∧ stdout w'
      = stdout w3
        ++ [if storage_imported env then
              Str.nl +:+ "FATAL: Could not initialize GCS client. Ensure GOOGLE_APPLICATION_CREDENTIALS is set."
            else
              Str.nl +:+ "FATAL: 'google-cloud-storage' not installed. Run 'pip install google-cloud-storage'."]
    ∧ trace w'
      = trace w ++ (if storage_imported env then [EvClient (GCS_BUCKET_NAME env)] else [])
    ∧ files w' = files w ∧ dirs w' = dirs w ∧ objects w' = objects w.
Proof.
  intros Hcfg Hticker Hfail H1 H2 H3.
  destruct (prompts_same_stores _ _ _ _ _ _ _ _ H1 H2 H3) as (Hf & Hd & Ho & Ht).
  rewrite (main_after_prompts _ _ _ _ _ _ _ _ H1 H2 H3).
  rewrite (bool_decide_eq_false_2 _ Hticker), (bool_decide_eq_false_2 _ Hcfg).
  rewrite bool_decide_eq_true_2 by done. cbn [andb].
  unfold bind. rewrite get_gcs_bucket_eq.
  destruct (storage_imported env).
  - destruct Hfail as [? | [msg He]]; [done|]. rewrite He. simpl.
    eexists. split; [reflexivity|]. simpl. by rewrite Ht.
  - simpl. eexists. split; [reflexivity|]. simpl. by rewrite Ht, app_nil_r.
Qed.

Lemma fetch_download_count (ticker period storage_target : string)
    (gcs_bucket : option Bucket) (w : World) :
  length (downloads (trace (fetch_and_store_data env ticker period storage_target
                              gcs_bucket w).2))
  = S (length (downloads (trace w))).
Proof.
  pose proof (fetch_and_store_data_eq ticker period storage_target gcs_bucket w) as Heq.
  cbn zeta in Heq.
  assert (downloads (trace (fetch_and_store_data env ticker period storage_target
                              gcs_bucket w).2)
          = downloads (trace w) ++ [EvDownload ticker period "1d"]) as ->.
  { rewrite Heq. clear Heq.
    destruct (yf_download env ticker period "1d") as [e | data].
    { match goal with
      | |- context [handled e ?w0] => destruct (handled_frame e w0) as (_ & _ & _ & ->)
      end.
      simpl. by rewrite downloads_app. }
    destruct (empty data); [simpl; by rewrite downloads_app|].
    match goal with
    | |- context [for_each ?l ?f ?w0] =>
        pose proof (for_each_downloads ticker storage_target gcs_bucket l w0
                      (iterrows_plain data)) as Hloop;
        destruct (for_each l f w0) as [[[]|e] w2]
    end; simpl in *.
    - by rewrite Hloop, downloads_app.
    - destruct (handled_frame e w2) as (_ & _ & _ & ->). by rewrite Hloop, downloads_app. }
  rewrite length_app. simpl. lia.
Qed.

(** What [fetch_and_store_data] raises is not an [Exception]. *)
Lemma fetch_raises (ticker period storage_target : string)
    (gcs_bucket : option Bucket) (e : exn) (w w' : World) :
  fetch_and_store_data env ticker period storage_target gcs_bucket w = (Raise e, w') →
  is_exception e = false.
Proof.
  rewrite fetch_and_store_data_eq. cbn zeta.
  assert (∀ e0 w0, handled e0 w0 = (Raise e, w') → is_exception e = false) as Hesc.
  { intros e0 w0. unfold handled.
    destruct (is_exception e0) eqn:He; [discriminate|]. by intros [= <- _]. }
  destruct (yf_download env ticker period "1d") as [e0 | data]; [apply Hesc|].
  destruct (empty data); [discriminate|].
  destruct (for_each _ _ _) as [[[]|e0] w2]; [discriminate | apply Hesc].
Qed.

(** Without interrupts [fetch_and_store_data] returns. *)
Lemma fetch_returns (ticker period storage_target : string)
    (gcs_bucket : option Bucket) (w : World) :
  no_interrupt env →
  ∃ r w', fetch_and_store_data env ticker period storage_target gcs_bucket w = (Ret r, w').
Proof.
  intros (Hdl & Hmk & Hop & _ & Hup).
  rewrite fetch_and_store_data_eq. cbn zeta.
  destruct (yf_download env ticker period "1d") as [e0 | data] eqn:Hsrc.
  - unfold handled. rewrite (Hdl _ _ _ _ Hsrc). by eauto.
  - destruct (empty data); [by eauto|].
    destruct (for_each _ _ _) as [[[]|e0] w2] eqn:Hloop; [by eauto|].
    apply for_each_raises in Hloop as [[d H] | [[path H] | (bucket & key & H)]];
      [| | |apply iterrows_plain];
      unfold handled; [rewrite (Hmk _ _ H) | rewrite (Hop _ _ H) | rewrite (Hup _ _ _ H)];
      by eauto.
Qed.

(** The step of [main] that asks for the bucket handle. *)
Lemma bucket_step_frame (storage_target : string) (w : World) :
  files ((if bool_decide (storage_target = "gcp")
          then get_gcs_bucket env (GCS_BUCKET_NAME env) else ret None) w).2 = files w
  ∧ objects ((if bool_decide (storage_target = "gcp")
              then get_gcs_bucket env (GCS_BUCKET_NAME env) else ret None) w).2 = objects w
  ∧ downloads (trace ((if bool_decide (storage_target = "gcp")
                       then get_gcs_bucket env (GCS_BUCKET_NAME env) else ret None) w).2)
    = downloads (trace w).
Proof.
  case_bool_decide; [|done]. rewrite get_gcs_bucket_eq.
  destruct (storage_imported env); [|done].
  destruct (client_error env _) as [e|]; [destruct (is_exception e)|];
    simpl; by rewrite downloads_app, app_nil_r.
Qed.

Lemma bucket_step_raises (storage_target : string) (e : exn) (w w' : World) :
  (if bool_decide (storage_target = "gcp")
   then get_gcs_bucket env (GCS_BUCKET_NAME env) else ret None) w = (Raise e, w') →
  is_exception e = false ∧ client_error env (GCS_BUCKET_NAME env) = Some e.
Proof.
  case_bool_decide; [|discriminate]. rewrite get_gcs_bucket_eq.
  destruct (storage_imported env); [|discriminate].
  destruct (client_error env _) as [e0|]; [|discriminate].
  destruct (is_exception e0) eqn:He; [discriminate|]. by intros [= <- _].
Qed.

(** X18.  Once the prompts are answered, [main] lets an exception of the
    class [Exception] out only when the drawing of the chart raises it:
    every such failure of the data source, of the client or of a write
    has been turned into a message on the way; anything else that comes
    out is an interrupt or an exit request.  When the collaborators raise
    nothing of that kind and the drawing cannot fail, [main] returns. *)
Theorem main_returns (storage_target processing_target ticker period : string)
    (w w1 w2 w3 : World) :
  get_user_choice env "Select storage target (local/gcp): " (OList ["local"; "gcp"]) w
  = (Ret storage_target, w1) →
  get_user_choice env "Select processing target (local/databricks): "
    (OList ["local"; "databricks"]) w1
  = (Ret processing_target, w2) →
  get_analysis_parameters env w2 = (Ret (ticker, period), w3) →
  (∀ e w', main env w = (Raise e, w') →
     (processing_target = "local" ∧ plotting_imported env = true ∧ plot_error env = Some e)
     ∨ is_exception e = false)
  ∧ (no_interrupt env →
     processing_target ≠ "local" ∨ plotting_imported env = false ∨ plot_error env = None →
     ∃ w', main env w = (Ret tt, w')).
Proof.
  intros H1 H2 H3.
  rewrite (main_after_prompts _ _ _ _ _ _ _ _ H1 H2 H3).
  case_bool_decide; [unfold print; split; [discriminate | by eauto]|].
  destruct (bool_decide (storage_target = "gcp")
            && bool_decide (GCS_BUCKET_NAME env = placeholder_bucket));
    [unfold print; split; [discriminate | by eauto]|].
  unfold bind at 1 3.
  destruct ((if bool_decide (storage_target = "gcp")
             then get_gcs_bucket env (GCS_BUCKET_NAME env) else ret None) w3)
    as [[b|e0] w4] eqn:Hb.
  2:{ apply bucket_step_raises in Hb as [He0 Hcl]. split.
      - intros e w' [= <- _]. by right.
      - intros (_ & _ & _ & Hclient & _) _. rewrite (Hclient _ _ Hcl) in He0. done. }
  destruct (bool_decide (storage_target = "gcp") && bool_decide (b = None));
    [split; [discriminate | by eauto]|].
  unfold bind at 1 2.
  destruct (fetch_and_store_data env ticker period storage_target b w4)
    as [[r|e0] w5] eqn:Hfetch.
  2:{ split.
      - intros e w' [= <- _]. right. by apply fetch_raises in Hfetch.
      - intros Hquiet _.
        destruct (fetch_returns ticker period storage_target b w4 Hquiet) as (r & w' & Hr).
        rewrite Hr in Hfetch. discriminate. }
  destruct (bool_decide (processing_target = "local")) eqn:Hpt.
  - apply bool_decide_eq_true_1 in Hpt.
    destruct (process_data_locally_outcome r ticker period w5)
      as [[w' Hr] | (e0 & w' & Hr & Himp & Hplot)]; rewrite Hr.
    + split; [discriminate | by eauto].
    + split; [intros e w'' [= <- _]; by left|].
      intros _ [? | [? | ?]]; congruence.
  - destruct (bool_decide (processing_target = "databricks"));
      [rewrite provide_databricks_instructions_eq|]; (split; [discriminate | by eauto]).
Qed.

Lemma processing_cloud_frame (processing_target : string) (fetched_data : option DataFrame)
    (ticker period : string) (w : World) :
  objects ((if bool_decide (processing_target = "local") then
              process_data_locally env fetched_data ticker period
            else if bool_decide (processing_target = "databricks") then
              provide_databricks_instructions env ticker
            else ret tt) w).2 = objects w
  ∧ cloud_calls (trace ((if bool_decide (processing_target = "local") then
                           process_data_locally env fetched_data ticker period
                         else if bool_decide (processing_target = "databricks") then
                           provide_databricks_instructions env ticker
                         else ret tt) w).2) = cloud_calls (trace w)
  ∧ downloads (trace ((if bool_decide (processing_target = "local") then
                         process_data_locally env fetched_data ticker period
                       else if bool_decide (processing_target = "databricks") then
                         provide_databricks_instructions env ticker
                       else ret tt) w).2) = downloads (trace w)
  ∧ files ((if bool_decide (processing_target = "local") then
              process_data_locally env fetched_data ticker period
            else if bool_decide (processing_target = "databricks") then
              provide_databricks_instructions env ticker
            else ret tt) w).2 = files w.
Proof.
  case_bool_decide.
  - destruct (process_data_locally_frame fetched_data ticker period w)
      as (Hf & _ & Ho & Ht).
    rewrite Hf, Ho, Ht, cloud_calls_app, downloads_app.
    destruct fetched_data as [df|]; [|by rewrite !app_nil_r].
    destruct (rows df); [by rewrite !app_nil_r|].
    destruct (plotting_imported env); by rewrite !app_nil_r.
  - case_bool_decide; [|done].
    by rewrite provide_databricks_instructions_eq.
Qed.

(** X19.  With [local] chosen at the first prompt, a run of [main] never
    reaches the object store, however it ends: no client is built, no
    upload is made and the objects are those of before. *)
Theorem local_run_stays_local (w w1 : World) :
  get_user_choice env "Select storage target (local/gcp): " (OList ["local"; "gcp"]) w
  = (Ret "local", w1) →
  objects (main env w).2 = objects w
  ∧ cloud_calls (trace (main env w).2) = cloud_calls (trace w).
Proof.
  intros H1.
  pose proof (console_only_get_user_choice
                "Select storage target (local/gcp): " (OList ["local"; "gcp"]) w) as S1.
  rewrite H1 in S1. destruct S1 as (_ & _ & Ho1 & Ht1). simpl in Ho1, Ht1.
  destruct (main env w) as [res wf] eqn:Hmain. cbn [snd]. revert Hmain.
  unfold main. unfold bind at 1. rewrite H1.
  unfold bind at 1.
  pose proof (console_only_get_user_choice
                "Select processing target (local/databricks): "
                (OList ["local"; "databricks"]) w1) as S2.
  destruct (get_user_choice _ _ _ w1) as [[processing_target|e] w2];
    destruct S2 as (_ & _ & Ho2 & Ht2); simpl in Ho2, Ht2;
    [|intros [= _ <-]; split; congruence].
  unfold bind at 1.
  pose proof (console_only_get_analysis_parameters w2) as S3.
  destruct (get_analysis_parameters env w2) as [[[ticker period]|e] w3];
    destruct S3 as (_ & _ & Ho3 & Ht3); simpl in Ho3, Ht3;
    [|intros [= _ <-]; split; congruence].
  cbn [fst snd].
  case_bool_decide;
    [unfold print; intros [= _ <-]; cbn [set_stdout objects trace]; split; congruence|].
  rewrite (bool_decide_eq_false_2 ("local" = "gcp")) by done. cbn [andb].
  unfold bind at 1. unfold ret at 1. cbn [andb].
  unfold bind at 1.
  destruct (fetch_local_frame ticker period None w3) as [Ho4 Ht4].
  destruct (fetch_and_store_data env ticker period "local" None w3) as [[r|e] w4];
    simpl in Ho4, Ht4; [|intros [= _ <-]; split; congruence].
  destruct (processing_cloud_frame processing_target r ticker period w4)
    as (Ho5 & Ht5 & _).
  intros Hmain. rewrite Hmain in Ho5, Ht5. cbn [snd] in Ho5, Ht5.
  split; congruence.
Qed.

(** X20.  A run of [main] asks the data source at most once, however it ends. *)
Theorem main_downloads_at_most_once (w : World) :
  (length (downloads (trace w)) ≤ length (downloads (trace (main env w).2))
   ≤ S (length (downloads (trace w))))%nat.
Proof.
  destruct (main env w) as [res wf] eqn:Hmain. cbn [snd]. revert Hmain.
  unfold main. unfold bind at 1.
  pose proof (console_only_get_user_choice
                "Select storage target (local/gcp): " (OList ["local"; "gcp"]) w) as S1.
  destruct (get_user_choice _ _ _ w) as [[storage_target|e] w1];
    destruct S1 as (_ & _ & _ & Ht1); simpl in Ht1;
    [|intros [= _ <-]; rewrite Ht1; lia].
  unfold bind at 1.
  pose proof (console_only_get_user_choice
                "Select processing target (local/databricks): "
                (OList ["local"; "databricks"]) w1) as S2.
  destruct (get_user_choice _ _ _ w1) as [[processing_target|e] w2];
    destruct S2 as (_ & _ & _ & Ht2); simpl in Ht2;
    [|intros [= _ <-]; rewrite Ht2, Ht1; lia].
  unfold bind at 1.
  pose proof (console_only_get_analysis_parameters w2) as S3.
  destruct (get_analysis_parameters env w2) as [[[ticker period]|e] w3];
    destruct S3 as (_ & _ & _ & Ht3); simpl in Ht3;
    [|intros [= _ <-]; rewrite Ht3, Ht2, Ht1; lia].
  cbn [fst snd].
  assert (trace w3 = trace w) as Ht by congruence. clear Ht1 Ht2 Ht3.
  case_bool_decide; [unfold print; intros [= _ <-]; simpl; rewrite Ht; lia|].
  destruct (bool_decide (storage_target = "gcp")
            && bool_decide (GCS_BUCKET_NAME env = placeholder_bucket));
    [unfold print; intros [= _ <-]; simpl; rewrite Ht; lia|].
  unfold bind at 1.
  destruct (bucket_step_frame storage_target w3) as (_ & _ & Hd4).
  destruct ((if bool_decide (storage_target = "gcp")
             then get_gcs_bucket env (GCS_BUCKET_NAME env) else ret None) w3)
    as [[b|e] w4]; cbn [snd] in Hd4; rewrite Ht in Hd4;
    [|intros [= _ <-]; rewrite Hd4; lia].
  destruct (bool_decide (storage_target = "gcp") && bool_decide (b = None));
    [intros [= _ <-]; rewrite Hd4; lia|].
  unfold bind at 1.
  pose proof (fetch_download_count ticker period storage_target b w4) as Hd5.
  destruct (fetch_and_store_data env ticker period storage_target b w4) as [[r|e] w5];
    simpl in Hd5; [|intros [= _ <-]; rewrite Hd5, Hd4; lia].
  destruct (processing_cloud_frame processing_target r ticker period w5)
    as (_ & _ & Hd6 & _).
  intros Hmain. rewrite Hmain in Hd6. cbn [snd] in Hd6.
  rewrite Hd6, Hd5, Hd4. lia.
Qed.

(** X21.  A whole local run: with [local] chosen, a ticker typed, a non-empty
    table fetched and no failing write, [main] leaves one file per row
    (the fold of the per-row writes over the files of before), no object,
    and one call to the data source; the processing stage adds nothing to
    the files. *)
Theorem main_local_writes_all_rows (processing_target ticker period : string)
    (data : PriceSeries) (w w1 w2 w3 : World) :
  ticker ≠ "" →
  yf_download env ticker period "1d" = inr data →
  empty data = false →
  (∀ row, row ∈ iterrows data →
     makedirs_error env (dirname (local_path ticker (file_date_of row))) = None
     ∧ open_error env (local_path ticker (file_date_of row)) = None) →
  get_user_choice env "Select storage target (local/gcp): " (OList ["local"; "gcp"]) w
  = (Ret "local", w1) →
  get_user_choice env "Select processing target (local/databricks): "
    (OList ["local"; "databricks"]) w1
  = (Ret processing_target, w2) →
  get_analysis_parameters env w2 = (Ret (ticker, period), w3) →
  files (main env w).2
  = fold_left (λ m row, <[local_path ticker (file_date_of row)
                          := to_csv (day_frame ticker row)]> m)
      (iterrows data) (files w)
  ∧ objects (main env w).2 = objects w
  ∧ downloads (trace (main env w).2)
    = downloads (trace w) ++ [EvDownload ticker period "1d"].
Proof.
  intros Hticker Hsrc Hne Hok H1 H2 H3.
  destruct (prompts_same_stores _ _ _ _ _ _ _ _ H1 H2 H3) as (Hf & Hd & Ho & Ht).
  destruct (main env w) as [res wf] eqn:Hmain. cbn [snd]. revert Hmain.
  rewrite (main_after_prompts _ _ _ _ _ _ _ _ H1 H2 H3).
  rewrite (bool_decide_eq_false_2 _ Hticker).
  rewrite (bool_decide_eq_false_2 ("local" = "gcp")) by done. cbn [andb].
  unfold bind at 1. unfold ret at 1. cbn [andb]. unfold bind at 1.
  destruct (run_local_ok ticker period data None w3 Hsrc Hne Hok)
    as (w4 & -> & Hf4 & Ho4 & Ht4 & _).
  destruct (processing_cloud_frame processing_target (Some (reset_index data))
              ticker period w4) as (Ho5 & _ & Hd5 & Hf5).
  intros Hmain. rewrite Hmain in Ho5, Hd5, Hf5. cbn [snd] in Ho5, Hd5, Hf5.
  rewrite Hf5, Ho5, Hd5, Hf4, Ho4, Ht4, Hf, Ho, Ht.
  split; [done|]. split; [done|].
  rewrite downloads_app. f_equal. simpl. f_equal.
  clear. induction (iterrows data) as [|row l IH]; [done|]. simpl. exact IH.
Qed.

(** X22.  A whole cloud run: with [gcp] chosen, a real bucket name, a ticker
    typed, the client built, a non-empty table fetched and no failing
    upload, [main] builds the client once and before the download, then
    uploads one object per row into the configured bucket; no file is
    written. *)
Theorem main_gcp_uploads_all_rows (processing_target ticker period : string)
    (data : PriceSeries) (w w1 w2 w3 : World) :
  ticker ≠ "" →
  GCS_BUCKET_NAME env ≠ placeholder_bucket →
  storage_imported env = true →
  client_error env (GCS_BUCKET_NAME env) = None →
  yf_download env ticker period "1d" = inr data →
  empty data = false →
  (∀ row, row ∈ iterrows data →
     upload_error env (GCS_BUCKET_NAME env) (blob_name ticker (file_date_of row)) = None) →
  get_user_choice env "Select storage target (local/gcp): " (OList ["local"; "gcp"]) w
  = (Ret "gcp", w1) →
  get_user_choice env "Select processing target (local/databricks): "
    (OList ["local"; "databricks"]) w1
  = (Ret processing_target, w2) →
  get_analysis_parameters env w2 = (Ret (ticker, period), w3) →
  objects (main env w).2
  = fold_left (λ m row, <[(GCS_BUCKET_NAME env, blob_name ticker (file_date_of row))
                          := (to_csv (day_frame ticker row), "text/csv")]> m)
      (iterrows data) (objects w)
  ∧ files (main env w).2 = files w
  ∧ ∃ plots,
      trace (main env w).2
      = trace w ++ EvClient (GCS_BUCKET_NAME env) :: EvDownload ticker period "1d"
        :: map (λ row, EvUpload (GCS_BUCKET_NAME env) (blob_name ticker (file_date_of row)))
             (iterrows data)
        ++ plots
      ∧ cloud_calls plots = [] ∧ downloads plots = [].
Proof.
  intros Hticker Hcfg Himp Hcl Hsrc Hne Hok H1 H2 H3.
  destruct (prompts_same_stores _ _ _ _ _ _ _ _ H1 H2 H3) as (Hf & Hd & Ho & Ht).
  destruct (main env w) as [res wf] eqn:Hmain. cbn [snd]. revert Hmain.
  rewrite (main_after_prompts _ _ _ _ _ _ _ _ H1 H2 H3).
  rewrite (bool_decide_eq_false_2 _ Hticker), (bool_decide_eq_false_2 _ Hcfg).
  rewrite bool_decide_eq_true_2 by done. cbn [andb].
  unfold bind at 1. rewrite get_gcs_bucket_eq, Himp, Hcl.
  rewrite (bool_decide_eq_false_2 (Some (GCS_BUCKET_NAME env) = None)) by done.
  cbn [andb]. unfold bind at 1.
  destruct (run_gcp_ok ticker period data (GCS_BUCKET_NAME env)
              (set_trace (trace w3 ++ [EvClient (GCS_BUCKET_NAME env)]) w3) Hsrc Hne Hok)
    as (w4 & Hrun & Ho4 & Hf4 & Ht4 & _).
  match goal with
  | |- context [fetch_and_store_data env ticker period "gcp" ?b ?w0] =>
      replace (fetch_and_store_data env ticker period "gcp" b w0)
        with (Ret (Some (reset_index data)), w4) by (symmetry; exact Hrun)
  end.
  simpl in Ho4, Hf4, Ht4.
  assert (rows (reset_index data) ≠ []) as Hrows.
  { unfold reset_index. simpl. unfold empty in Hne.
    destruct (series_columns data); [discriminate|].
    by destruct (series_rows data). }
  case_bool_decide.
  - destruct (process_data_locally_frame (Some (reset_index data)) ticker period w4)
      as (Hf5 & _ & Ho5 & Ht5).
    intros Hmain. rewrite Hmain in Hf5, Ho5, Ht5. cbn [snd] in Hf5, Ho5, Ht5.
    rewrite Hf5, Ho5, Ht5, Hf4, Ho4, Ht4, Hf, Ho, Ht.
    split; [done|]. split; [done|].
    eexists. split; [by rewrite <- !app_assoc|].
    destruct (rows (reset_index data)); [done|]. by destruct (plotting_imported env).
  - case_bool_decide.
    + rewrite provide_databricks_instructions_eq. intros [= _ <-]. simpl.
      rewrite Hf4, Ho4, Ht4, Hf, Ho, Ht.
      split; [done|]. split; [done|].
      exists []. rewrite app_nil_r. split; [by rewrite <- !app_assoc | done].
    + intros [= _ <-]. rewrite Hf4, Ho4, Ht4, Hf, Ho, Ht.
      split; [done|]. split; [done|].
      exists []. rewrite app_nil_r. split; [by rewrite <- !app_assoc | done].
Qed.

End Ingestion.

(** ** Worked runs *)

Lemma empty_series_no_data_witness :
  fetch_and_store_data (calm (source_of no_days) "lake") "NOPE.NS" "1mo" "local" None fresh
  = (Ret None,
     {| stdin := [];
        stdout := [] ++ [fetching_message (calm (source_of no_days) "lake") "NOPE.NS" "local";
                         no_data_message "NOPE.NS"];
        files := ∅; dirs := ∅; objects := ∅;
        trace := [] ++ [EvDownload "NOPE.NS" "1mo" "1d"] |}).
Proof.
  apply (empty_series_no_data (calm (source_of no_days) "lake") "NOPE.NS" "1mo" "local"
           None no_days fresh).
  - reflexivity.
  - vm_compute. reflexivity.
Defined.

Lemma source_failure_reported_witness :
  fetch_and_store_data (calm (source_down "timed out") "lake") "TCS.NS" "1mo" "local" None fresh
  = (Ret None,
     {| stdin := [];
        stdout := [] ++ [fetching_message (calm (source_down "timed out") "lake")
                           "TCS.NS" "local";
                         "An error occurred during data fetch: " +:+ "timed out"];
        files := ∅; dirs := ∅; objects := ∅;
        trace := [] ++ [EvDownload "TCS.NS" "1mo" "1d"] |}).
Proof.
  apply (source_failure_reported (calm (source_down "timed out") "lake")
           "TCS.NS" "1mo" "local" None "timed out" fresh).
  reflexivity.
Defined.


Lemma placeholder_bucket_stops_run_witness :
  let env := calm (source_of three_days) placeholder_bucket in
  let w := typed ["gcp"; "local"; "tcs.ns"; "2"] in
  let w1 := (get_user_choice env "Select storage target (local/gcp): "
               (OList ["local"; "gcp"]) w).2 in
  let w2 := (get_user_choice env "Select processing target (local/databricks): "
               (OList ["local"; "databricks"]) w1).2 in
  let w3 := (get_analysis_parameters env w2).2 in
  ∃ w', main env w = (Ret tt, w')
        ∧ trace w' = trace w ∧ files w' = files w ∧ dirs w' = dirs w
        ∧ objects w' = objects w
        ∧ ("TCS.NS" ≠ "" → stdout w' = stdout w3 ++ [placeholder_message])
        ∧ ("TCS.NS" = "" → stdout w' = stdout w3 ++ [no_ticker_message]).
Proof.
  intros env w w1 w2 w3.
  apply (placeholder_bucket_stops_run env "local" "TCS.NS" "1mo" w w1 w2 w3);
    vm_compute; reflexivity.
Defined.

(** C3 as stated fails when no ticker is typed: [gcp] is chosen and the
    bucket name is the placeholder, yet the run ends on the no-ticker line
    and never prints the request to edit the bucket name. *)
Lemma empty_ticker_precedes_bucket_check :
  let env := calm (source_of three_days) placeholder_bucket in
  let w := typed ["gcp"; "local"; ""; "2"] in
  GCS_BUCKET_NAME env = placeholder_bucket
  ∧ (get_user_choice env "Select storage target (local/gcp): "
       (OList ["local"; "gcp"]) w).1 = Ret "gcp"
  ∧ (main env w).1 = Ret tt
  ∧ last (stdout (main env w).2) = Some no_ticker_message
  ∧ bool_decide (placeholder_message ∈ stdout (main env w).2) = false.
Proof. repeat split; vm_compute; reflexivity. Qed.

(** C1 as stated fails: of three rows only the first cannot be written,
    yet no partition file exists afterwards (not two) and the function
    returns [None] (not the table). *)
Lemma one_failed_write_aborts_run :
  let env := failing_at ["stock_data_lake/ticker=TCS.NS/date=2024-01-02.csv"]
               (source_of three_days) in
  let r := fetch_and_store_data env "TCS.NS" "1mo" "local" None fresh in
  yf_download env "TCS.NS" "1mo" "1d" = inr three_days
  ∧ iterrows three_days = [day2; day3; day4]
  ∧ open_error env (local_path "TCS.NS" (file_date_of day2)) = Some (Exception "disk full")
  ∧ open_error env (local_path "TCS.NS" (file_date_of day3)) = None
  ∧ open_error env (local_path "TCS.NS" (file_date_of day4)) = None
  ∧ r.1 = Ret None
  ∧ files r.2 = ∅
  ∧ stdout r.2 = [fetching_message env "TCS.NS" "local"; fetched_message 3;
                  "An error occurred during data fetch: disk full"].
Proof. repeat split; vm_compute; reflexivity. Qed.

Lemma write_failure_aborts_witness :
  let env := failing_at ["stock_data_lake/ticker=TCS.NS/date=2024-01-03.csv";
                         "ticker=TCS.NS/date=2024-01-03.csv"]
               (source_of three_days) in
  (∃ w', fetch_and_store_data env "TCS.NS" "1mo" "local" None fresh = (Ret None, w')
         ∧ files w' = <["stock_data_lake/ticker=TCS.NS/date=2024-01-02.csv"
                        := to_csv (day_frame "TCS.NS" day2)]> ∅
         ∧ objects w' = ∅
         ∧ stdout w' = [fetching_message env "TCS.NS" "local"; fetched_message 3;
                        "An error occurred during data fetch: disk full"])
  ∧ (∃ w', fetch_and_store_data env "TCS.NS" "1mo" "gcp" (Some "lake") fresh = (Ret None, w')
           ∧ objects w' = <[("lake", "ticker=TCS.NS/date=2024-01-02.csv")
                            := (to_csv (day_frame "TCS.NS" day2), "text/csv")]> ∅
           ∧ files w' = ∅
           ∧ stdout w' = [fetching_message env "TCS.NS" "gcp"; fetched_message 3;
                          "An error occurred during data fetch: 503"]).
Proof.
  intros env.
  assert (iterrows three_days = [day2] ++ day3 :: [day4]) as Hrows
    by (vm_compute; reflexivity).
  split.
  - destruct (write_failure_aborts env "TCS.NS" "1mo" three_days [day2] [day4] day3
                "disk full" fresh eq_refl Hrows) as [Hlocal _].
    apply (Hlocal (λ r Hr, conj eq_refl
                     match list_elem_of_singleton r day2 with
                     | conj f _ => f_equal (λ x, open_error env
                                     (local_path "TCS.NS" (file_date_of x))) (f Hr)
                     end)
                  (or_intror (conj eq_refl eq_refl)) None).
  - destruct (write_failure_aborts env "TCS.NS" "1mo" three_days [day2] [day4] day3
                "503" fresh eq_refl Hrows) as [_ Hgcp].
    apply (Hgcp "lake"
             (λ r Hr, match list_elem_of_singleton r day2 with
                      | conj f _ => f_equal (λ x, upload_error env "lake"
                                      (blob_name "TCS.NS" (file_date_of x))) (f Hr)
                      end)
             eq_refl).
Defined.


Lemma second_write_wins_witness :
  let env := calm (source_of three_days) "lake" in
  (∃ w1 w2,
     save_data_locally env (day_frame "TCS.NS" day2) "TCS.NS" "2024-01-02" fresh = (Ret tt, w1)
     ∧ save_data_locally env (day_frame "TCS.NS" day3) "TCS.NS" "2024-01-02" w1 = (Ret tt, w2)
     ∧ files w2 !! "stock_data_lake/ticker=TCS.NS/date=2024-01-02.csv"
       = Some (to_csv (day_frame "TCS.NS" day3))
     ∧ files w2 = {["stock_data_lake/ticker=TCS.NS/date=2024-01-02.csv"
                    := to_csv (day_frame "TCS.NS" day3)]}
     ∧ dom (files w2) = dom (files w1))
  ∧ (∃ w1 w2,
     upload_data_to_gcs env (day_frame "TCS.NS" day2) "TCS.NS" "2024-01-02" "lake" fresh
     = (Ret tt, w1)
     ∧ upload_data_to_gcs env (day_frame "TCS.NS" day3) "TCS.NS" "2024-01-02" "lake" w1
       = (Ret tt, w2)
     ∧ objects w2 !! ("lake", "ticker=TCS.NS/date=2024-01-02.csv")
       = Some (to_csv (day_frame "TCS.NS" day3), "text/csv")
     ∧ objects w2 = {[("lake", "ticker=TCS.NS/date=2024-01-02.csv")
                      := (to_csv (day_frame "TCS.NS" day3), "text/csv")]}
     ∧ dom (objects w2) = dom (objects w1)).
Proof.
  intros env.
  exact (second_write_wins env (day_frame "TCS.NS" day2) (day_frame "TCS.NS" day3)
           "TCS.NS" "2024-01-02" "lake" fresh eq_refl eq_refl eq_refl).
Defined.

(** A run over three days through each back end: what lies at the key of
    the third of January is the one-row table of a fetched row, and every
    fetched day has its artifact. *)
Lemma artifacts_are_one_row_tables_witness :
  let env := calm (source_of three_days) "lake" in
  let c := to_csv (day_frame "TCS.NS" day3) in
  let local_run := fetch_and_store_data env "TCS.NS" "1mo" "local" None fresh in
  let cloud_run := fetch_and_store_data env "TCS.NS" "1mo" "gcp" (Some "lake") fresh in
  (files fresh !! "stock_data_lake/ticker=TCS.NS/date=2024-01-03.csv" = Some c
   ∨ (∃ data row,
        yf_download env "TCS.NS" "1mo" "1d" = inr data ∧ row ∈ iterrows data
        ∧ "local" = "local"
        ∧ "stock_data_lake/ticker=TCS.NS/date=2024-01-03.csv"
          = local_path "TCS.NS" (strftime_Ymd (Date row))
        ∧ one_row_table "TCS.NS" row c))
  ∧ (objects fresh !! ("lake", "ticker=TCS.NS/date=2024-01-03.csv") = Some (c, "text/csv")
     ∨ (∃ data row bucket,
          yf_download env "TCS.NS" "1mo" "1d" = inr data ∧ row ∈ iterrows data
          ∧ "gcp" = "gcp" ∧ Some "lake" = Some bucket
          ∧ ("lake", "ticker=TCS.NS/date=2024-01-03.csv")
            = (bucket, blob_name "TCS.NS" (strftime_Ymd (Date row)))
          ∧ "text/csv" = "text/csv"
          ∧ one_row_table "TCS.NS" row c))
  ∧ (∃ data,
       yf_download env "TCS.NS" "1mo" "1d" = inr data
       ∧ ∀ row, row ∈ iterrows data →
           ∃ c' row',
             files local_run.2 !! local_path "TCS.NS" (strftime_Ymd (Date row)) = Some c'
             ∧ row' ∈ iterrows data
             ∧ strftime_Ymd (Date row') = strftime_Ymd (Date row)
             ∧ one_row_table "TCS.NS" row' c')
  ∧ (∃ data,
       yf_download env "TCS.NS" "1mo" "1d" = inr data
       ∧ ∀ row, row ∈ iterrows data →
           ∃ c' row',
             objects cloud_run.2 !! ("lake", blob_name "TCS.NS" (strftime_Ymd (Date row)))
             = Some (c', "text/csv")
             ∧ row' ∈ iterrows data
             ∧ strftime_Ymd (Date row') = strftime_Ymd (Date row)
             ∧ one_row_table "TCS.NS" row' c').
Proof.
  intros env c local_run cloud_run.
  destruct (artifacts_are_one_row_tables env "TCS.NS" "1mo" "local" None fresh)
    as (Hfiles & _ & Hall_local).
  destruct (artifacts_are_one_row_tables env "TCS.NS" "1mo" "gcp" (Some "lake") fresh)
    as (_ & Hobjects & Hall_cloud).
  split; [|split; [|split]].
  - apply (Hfiles "stock_data_lake/ticker=TCS.NS/date=2024-01-03.csv" c).
    vm_compute. reflexivity.
  - apply (Hobjects ("lake", "ticker=TCS.NS/date=2024-01-03.csv") c "text/csv").
    vm_compute. reflexivity.
  - destruct (Hall_local (reset_index three_days) local_run.2)
      as (data & Hsrc & _ & Hrows & _); [vm_compute; reflexivity|].
    exists data. split; [exact Hsrc | exact (Hrows eq_refl)].
  - destruct (Hall_cloud (reset_index three_days) cloud_run.2)
      as (data & Hsrc & _ & _ & Hrows); [vm_compute; reflexivity|].
    exists data. split; [exact Hsrc | exact (Hrows "lake" eq_refl eq_refl)].
Defined.

(** C6 as stated fails for a table whose columns have two levels, price
    field and ticker, as the data source labels them: the file of the day
    has two header lines before its one record, three lines in all. *)
Lemma two_level_columns_two_header_lines :
  let env := calm (source_of two_levels) "lake" in
  let r := fetch_and_store_data env "TCS.NS" "1mo" "local" None fresh in
  yf_download env "TCS.NS" "1mo" "1d" = inr two_levels
  ∧ r.1 = Ret (Some (reset_index two_levels))
  ∧ ∃ c, files r.2 !! "stock_data_lake/ticker=TCS.NS/date=2024-01-02.csv" = Some c
         ∧ header c
           = [["Date"; "Close"; "High"; "Low"; "Open"; "Volume"; "Ticker"];
              [""; "TCS.NS"; "TCS.NS"; "TCS.NS"; "TCS.NS"; "TCS.NS"; ""]]
         ∧ length (header c) = 2%nat
         ∧ length (records c) = 1%nat.
Proof.
  intros env r. split; [reflexivity|]. split; [vm_compute; reflexivity|].
  exists (to_csv (day_frame "TCS.NS" (default day2 (head (iterrows two_levels))))).
  repeat split; vm_compute; reflexivity.
Qed.

Lemma row_keys_distinct_witness :
  bool_decide (local_path "A/" (strftime_Ymd (jan 2)) = local_path "A/" (strftime_Ymd (jan 3)))
  = false
  ∧ bool_decide (blob_name "A/" (strftime_Ymd (jan 2)) = blob_name "A/" (strftime_Ymd (jan 3)))
    = false.
Proof.
  apply (row_keys_distinct "A/" (jan 2) (jan 3)).
  - apply valid_jan. lia.
  - apply valid_jan. lia.
  - discriminate.
Defined.

Lemma distinct_dates_distinct_artifacts_witness :
  let env := calm (source_of three_days) "lake" in
  size (files (fetch_and_store_data env "TCS.NS" "1mo" "local" None fresh).2) = 3%nat
  ∧ size (objects (fetch_and_store_data env "TCS.NS" "1mo" "gcp" (Some "lake") fresh).2)
    = 3%nat.
Proof.
  intros env.
  destruct (distinct_dates_distinct_artifacts env "TCS.NS" "1mo" three_days fresh eq_refl)
    as [Hlocal Hgcp].
  - vm_compute. reflexivity.
  - repeat (apply List.Forall_cons; [apply valid_jan; lia|]). apply List.Forall_nil.
  - apply (bool_decide_unpack _). vm_compute. exact I.
  - split.
    + apply (Hlocal (λ _ _, conj eq_refl (conj eq_refl eq_refl)) None).
    + apply (Hgcp "lake" (λ _ _, conj eq_refl eq_refl)).
Defined.

Lemma get_user_choice_member_witness :
  "gcp" ∈ members (OList ["local"; "gcp"]).
Proof.
  apply (get_user_choice_member (calm (source_of three_days) "lake")
           "Select storage target (local/gcp): "
           (OList ["local"; "gcp"]) "gcp" (typed ["s3"; " GCP "; "local"])
           (get_user_choice (calm (source_of three_days) "lake")
              "Select storage target (local/gcp): "
              (OList ["local"; "gcp"]) (typed ["s3"; " GCP "; "local"])).2).
  vm_compute. reflexivity.
Defined.

(** An interrupt during the download is not caught; a data source that
    merely fails is. *)
Lemma fetch_and_store_data_returns_witness :
  (fetch_and_store_data (calm source_interrupted "lake") "TCS.NS" "1mo" "local" None fresh).1
  = Raise KeyboardInterrupt
  ∧ is_exception KeyboardInterrupt = false
  ∧ ∃ r w', fetch_and_store_data (calm (source_down "timed out") "lake")
              "TCS.NS" "1mo" "local" None fresh = (Ret r, w').
Proof.
  split; [vm_compute; reflexivity|].
  split.
  - destruct (fetch_and_store_data_returns (calm source_interrupted "lake")
                "TCS.NS" "1mo" "local" None fresh) as [Hesc _].
    apply (Hesc KeyboardInterrupt
             (fetch_and_store_data (calm source_interrupted "lake")
                "TCS.NS" "1mo" "local" None fresh).2).
    vm_compute. reflexivity.
  - destruct (fetch_and_store_data_returns (calm (source_down "timed out") "lake")
                "TCS.NS" "1mo" "local" None fresh) as [_ Hret].
    apply Hret. unfold no_interrupt. simpl. unfold source_down.
    repeat split; intros; try discriminate.
    match goal with H : inl _ = inl _ |- _ => injection H as <- end. reflexivity.
Defined.

Lemma one_store_per_run_witness :
  let env := calm (source_of three_days) "lake" in
  (objects (fetch_and_store_data env "TCS.NS" "1mo" "local" None fresh).2 = objects fresh
   ∧ cloud_calls (trace (fetch_and_store_data env "TCS.NS" "1mo" "local" None fresh).2)
     = cloud_calls (trace fresh))
  ∧ (files (fetch_and_store_data env "TCS.NS" "1mo" "gcp" (Some "lake") fresh).2
     = files fresh
     ∧ dirs (fetch_and_store_data env "TCS.NS" "1mo" "gcp" (Some "lake") fresh).2
       = dirs fresh
     ∧ local_calls
         (trace (fetch_and_store_data env "TCS.NS" "1mo" "gcp" (Some "lake") fresh).2)
       = local_calls (trace fresh)).
Proof.
  intros env. split.
  - destruct (one_store_per_run env "TCS.NS" "1mo" "local" None fresh) as [H _].
    exact (H eq_refl).
  - destruct (one_store_per_run env "TCS.NS" "1mo" "gcp" (Some "lake") fresh) as [_ H].
    apply H. discriminate.
Defined.


Lemma save_then_read_witness :
  let env := calm (source_of three_days) "lake" in
  ∃ w', save_data_locally env (day_frame "TCS.NS" day2) "TCS.NS" "2024-01-02" fresh
        = (Ret tt, w')
        ∧ files w' !! local_path "TCS.NS" "2024-01-02" = Some (to_csv (day_frame "TCS.NS" day2))
        ∧ dirname (local_path "TCS.NS" "2024-01-02") ∈ dirs w'.
Proof.
  intros env.
  destruct (save_then_read env (day_frame "TCS.NS" day2) "TCS.NS" "2024-01-02" fresh
              eq_refl eq_refl) as (w' & Hrun & Hget & _ & Hdir & _).
  exists w'. split; [exact Hrun|]. split; [exact Hget | exact Hdir].
Defined.

Lemma upload_then_read_witness :
  let env := calm (source_of three_days) "lake" in
  ∃ w', upload_data_to_gcs env (day_frame "TCS.NS" day2) "TCS.NS" "2024-01-02" "lake" fresh
        = (Ret tt, w')
        ∧ objects w' !! ("lake", blob_name "TCS.NS" "2024-01-02")
          = Some (to_csv (day_frame "TCS.NS" day2), "text/csv")
        ∧ files w' = files fresh.
Proof.
  intros env.
  destruct (upload_then_read env (day_frame "TCS.NS" day2) "TCS.NS" "2024-01-02" "lake"
              fresh eq_refl) as (w' & Hrun & Hget & _ & Hfiles & _).
  exists w'. split; [exact Hrun|]. split; [exact Hget | exact Hfiles].
Defined.

Lemma one_directory_per_ticker_witness :
  dirname (local_path "TCS.NS" (strftime_Ymd (jan 2)))
  = dirname (local_path "TCS.NS" (strftime_Ymd (jan 3)))
  ∧ dirname (local_path "TCS.NS" (strftime_Ymd (jan 2)))
    = "stock_data_lake/ticker=" +:+ "TCS.NS".
Proof.
  destruct (one_directory_per_ticker "TCS.NS" (jan 2) (jan 3)) as [Hsame Hform].
  split; [exact Hsame | exact (Hform eq_refl)].
Defined.

(** The three ways [get_gcs_bucket] ends without a handle, and the one
    with: no library, no credentials, an interrupt, a client. *)
Lemma get_gcs_bucket_outcome_witness :
  get_gcs_bucket (no_storage_library (source_of three_days) "lake") "lake" fresh
  = (Ret None,
     {| stdin := [];
        stdout := [] ++ [Str.nl +:+ "FATAL: 'google-cloud-storage' not installed. Run 'pip install google-cloud-storage'."];
        files := ∅; dirs := ∅; objects := ∅; trace := [] |})
  ∧ get_gcs_bucket (calm (source_of three_days) "lake") "lake" fresh
    = (Ret (Some "lake"),
       {| stdin := []; stdout := []; files := ∅; dirs := ∅; objects := ∅;
          trace := [] ++ [EvClient "lake"] |})
  ∧ get_gcs_bucket (no_credentials (source_of three_days) "lake") "lake" fresh
    = (Ret None,
       {| stdin := [];
          stdout := [] ++ [Str.nl +:+ "FATAL: Could not initialize GCS client. Ensure GOOGLE_APPLICATION_CREDENTIALS is set."];
          files := ∅; dirs := ∅; objects := ∅;
          trace := [] ++ [EvClient "lake"] |}).
Proof.
  split; [|split].
  - destruct (get_gcs_bucket_outcome (no_storage_library (source_of three_days) "lake")
                "lake" fresh) as (H & _).
    exact (H eq_refl).
  - destruct (get_gcs_bucket_outcome (calm (source_of three_days) "lake") "lake" fresh)
      as (_ & H & _).
    exact (H eq_refl eq_refl).
  - destruct (get_gcs_bucket_outcome (no_credentials (source_of three_days) "lake")
                "lake" fresh) as (_ & _ & H & _).
    exact (H "DefaultCredentialsError" eq_refl eq_refl).
Defined.

Lemma get_user_choice_retries_witness :
  let env := calm (source_of three_days) "lake" in
  get_user_choice env "Select storage target (local/gcp): " (OList ["local"; "gcp"])
    (typed ["s3"; " GCP "; "local"])
  = (Ret (str_strip env (str_lower env " GCP ")),
     {| stdin := [Line "local"];
        stdout := stdout (typed ["s3"; " GCP "; "local"])
                  ++ flat_map (λ _, ["Select storage target (local/gcp): ";
                                     "Invalid choice. Please select one of "
                                     +:+ repr_options (OList ["local"; "gcp"]) +:+ "."])
                       ["s3"]
                  ++ ["Select storage target (local/gcp): "];
        files := files (typed ["s3"; " GCP "; "local"]);
        dirs := dirs (typed ["s3"; " GCP "; "local"]);
        objects := objects (typed ["s3"; " GCP "; "local"]);
        trace := trace (typed ["s3"; " GCP "; "local"]) |}).
Proof.
  intros env.
  apply (get_user_choice_retries env "Select storage target (local/gcp): "
           (OList ["local"; "gcp"]) ["s3"] " GCP " [Line "local"]
           (typed ["s3"; " GCP "; "local"])).
  - reflexivity.
  - apply (bool_decide_unpack _). vm_compute. exact I.
  - apply (bool_decide_unpack _). vm_compute. exact I.
Defined.

Lemma get_user_choice_eof_witness :
  let env := calm (source_of three_days) "lake" in
  get_user_choice env "Select storage target (local/gcp): " (OList ["local"; "gcp"])
    (typed ["s3"; "azure"])
  = (Raise EOFError,
     {| stdin := [];
        stdout := stdout (typed ["s3"; "azure"])
                  ++ flat_map (λ _, ["Select storage target (local/gcp): ";
                                     "Invalid choice. Please select one of "
                                     +:+ repr_options (OList ["local"; "gcp"]) +:+ "."])
                       ["s3"; "azure"]
                  ++ ["Select storage target (local/gcp): "];
        files := files (typed ["s3"; "azure"]);
        dirs := dirs (typed ["s3"; "azure"]);
        objects := objects (typed ["s3"; "azure"]);
        trace := trace (typed ["s3"; "azure"]) |})
  ∧ (get_user_choice env "Select storage target (local/gcp): " (OList ["local"; "gcp"])
       (set_stdin [Line "s3"; Interrupt; Line "local"] fresh)).1
    = Raise KeyboardInterrupt.
Proof.
  intros env. split.
  - destruct (get_user_choice_eof env "Select storage target (local/gcp): "
                (OList ["local"; "gcp"]) ["s3"; "azure"] (typed ["s3"; "azure"]))
      as [Heof _].
    + apply (bool_decide_unpack _). vm_compute. exact I.
    + exact (Heof eq_refl).
  - destruct (get_user_choice_eof env "Select storage target (local/gcp): "
                (OList ["local"; "gcp"]) ["s3"]
                (set_stdin [Line "s3"; Interrupt; Line "local"] fresh))
      as [_ Hint].
    + apply (bool_decide_unpack _). vm_compute. exact I.
    + exact (f_equal fst (Hint [Line "local"] eq_refl)).
Defined.

Lemma analysis_parameters_from_input_witness :
  let env := calm (source_of three_days) "lake" in
  (∃ line rest, stdin (typed ["  tcs.ns "; "9"; "2"]) = Line line :: rest
                ∧ "TCS.NS" = str_strip env (str_upper env line))
  ∧ (∃ key, key ∈ ["1"; "2"; "3"; "4"; "5"; "6"] ∧ (key, "1mo") ∈ period_options)
  ∧ "1mo" ∈ ["7d"; "1mo"; "1y"; "3y"; "5y"; "max"].
Proof.
  intros env.
  apply (analysis_parameters_from_input env "TCS.NS" "1mo" (typed ["  tcs.ns "; "9"; "2"])
           (get_analysis_parameters env (typed ["  tcs.ns "; "9"; "2"])).2).
  vm_compute. reflexivity.
Defined.

Lemma analysis_parameters_raise_only_input_witness :
  let env := calm (source_of three_days) "lake" in
  let w := typed ["tcs.ns"; "9"] in
  (get_analysis_parameters env w).1 = Raise EOFError
  ∧ ((EOFError = EOFError ∧ stdin (get_analysis_parameters env w).2 = [])
     ∨ (EOFError = KeyboardInterrupt ∧ Interrupt ∈ stdin w)).
Proof.
  intros env w. split; [vm_compute; reflexivity|].
  apply (analysis_parameters_raise_only_input env EOFError w
           (get_analysis_parameters env w).2).
  vm_compute. reflexivity.
Defined.

Lemma no_bucket_no_fetch_witness :
  let env := no_credentials (source_of three_days) "lake" in
  let w := typed ["gcp"; "local"; "tcs.ns"; "2"] in
  let w1 := (get_user_choice env "Select storage target (local/gcp): "
               (OList ["local"; "gcp"]) w).2 in
  let w2 := (get_user_choice env "Select processing target (local/databricks): "
               (OList ["local"; "databricks"]) w1).2 in
  let w3 := (get_analysis_parameters env w2).2 in
  ∃ w',
    main env w = (Ret tt, w')
    ∧ stdout w'
      = stdout w3
        ++ [if storage_imported env then
              Str.nl +:+ "FATAL: Could not initialize GCS client. Ensure GOOGLE_APPLICATION_CREDENTIALS is set."
            else
              Str.nl +:+ "FATAL: 'google-cloud-storage' not installed. Run 'pip install google-cloud-storage'."]
    ∧ trace w'
      = trace w ++ (if storage_imported env then [EvClient (GCS_BUCKET_NAME env)] else [])
    ∧ files w' = files w ∧ dirs w' = dirs w ∧ objects w' = objects w.
Proof.
  intros env w w1 w2 w3.
  apply (no_bucket_no_fetch env "local" "TCS.NS" "1mo" w w1 w2 w3).
  - discriminate.
  - discriminate.
  - right. exists "DefaultCredentialsError". reflexivity.
  - vm_compute. reflexivity.
  - vm_compute. reflexivity.
  - vm_compute. reflexivity.
Defined.

Lemma main_returns_witness :
  let env := calm (source_down "timed out") "lake" in
  let w := typed ["local"; "local"; "tcs.ns"; "2"] in
  let w1 := (get_user_choice env "Select storage target (local/gcp): "
               (OList ["local"; "gcp"]) w).2 in
  let w2 := (get_user_choice env "Select processing target (local/databricks): "
               (OList ["local"; "databricks"]) w1).2 in
  let w3 := (get_analysis_parameters env w2).2 in
  stdin w3 = [] ∧ ∃ w', main env w = (Ret tt, w').
Proof.
  intros env w w1 w2 w3. split; [vm_compute; reflexivity|].
  destruct (main_returns env "local" "local" "TCS.NS" "1mo" w w1 w2 w3) as [_ Hret].
  - vm_compute. reflexivity.
  - vm_compute. reflexivity.
  - vm_compute. reflexivity.
  - apply Hret.
    + unfold no_interrupt. simpl. unfold source_down.
      repeat split; intros; try discriminate.
      match goal with H : inl _ = inl _ |- _ => injection H as <- end. reflexivity.
    + right. right. reflexivity.
Defined.

Lemma local_run_stays_local_witness :
  let env := calm (source_of three_days) "lake" in
  let w := typed ["local"; "databricks"; "tcs.ns"; "2"] in
  objects (main env w).2 = objects w
  ∧ cloud_calls (trace (main env w).2) = cloud_calls (trace w).
Proof.
  intros env w.
  apply (local_run_stays_local env w
           (get_user_choice env "Select storage target (local/gcp): "
              (OList ["local"; "gcp"]) w).2).
  vm_compute. reflexivity.
Defined.

Lemma main_local_writes_all_rows_witness :
  let env := calm (source_of three_days) "lake" in
  let w := typed ["local"; "local"; "tcs.ns"; "2"] in
  let w1 := (get_user_choice env "Select storage target (local/gcp): "
               (OList ["local"; "gcp"]) w).2 in
  let w2 := (get_user_choice env "Select processing target (local/databricks): "
               (OList ["local"; "databricks"]) w1).2 in
  let w3 := (get_analysis_parameters env w2).2 in
  stdin w3 = []
  ∧ files (main env w).2
    = fold_left (λ m row, <[local_path "TCS.NS" (file_date_of row)
                            := to_csv (day_frame "TCS.NS" row)]> m)
        (iterrows three_days) (files w)
  ∧ objects (main env w).2 = objects w
  ∧ downloads (trace (main env w).2)
    = downloads (trace w) ++ [EvDownload "TCS.NS" "1mo" "1d"].
Proof.
  intros env w w1 w2 w3. split; [vm_compute; reflexivity|].
  apply (main_local_writes_all_rows env "local" "TCS.NS" "1mo" three_days w w1 w2 w3).
  - discriminate.
  - reflexivity.
  - vm_compute. reflexivity.
  - intros row _. split; reflexivity.
  - vm_compute. reflexivity.
  - vm_compute. reflexivity.
  - vm_compute. reflexivity.
Defined.

Lemma main_gcp_uploads_all_rows_witness :
  let env := calm (source_of three_days) "lake" in
  let w := typed ["gcp"; "databricks"; "tcs.ns"; "2"] in
  let w1 := (get_user_choice env "Select storage target (local/gcp): "
               (OList ["local"; "gcp"]) w).2 in
  let w2 := (get_user_choice env "Select processing target (local/databricks): "
               (OList ["local"; "databricks"]) w1).2 in
  let w3 := (get_analysis_parameters env w2).2 in
  stdin w3 = []
  ∧ objects (main env w).2
    = fold_left (λ m row, <[(GCS_BUCKET_NAME env, blob_name "TCS.NS" (file_date_of row))
                            := (to_csv (day_frame "TCS.NS" row), "text/csv")]> m)
        (iterrows three_days) (objects w)
  ∧ files (main env w).2 = files w
  ∧ ∃ plots,
      trace (main env w).2
      = trace w ++ EvClient (GCS_BUCKET_NAME env) :: EvDownload "TCS.NS" "1mo" "1d"
        :: map (λ row, EvUpload (GCS_BUCKET_NAME env) (blob_name "TCS.NS" (file_date_of row)))
             (iterrows three_days)
        ++ plots
      ∧ cloud_calls plots = [] ∧ downloads plots = [].
Proof.
  intros env w w1 w2 w3. split; [vm_compute; reflexivity|].
  apply (main_gcp_uploads_all_rows env "databricks" "TCS.NS" "1mo" three_days w w1 w2 w3).
  - discriminate.
  - discriminate.
  - reflexivity.
  - reflexivity.
  - reflexivity.
  - vm_compute. reflexivity.
  - intros row _. reflexivity.
  - vm_compute. reflexivity.
  - vm_compute. reflexivity.
  - vm_compute. reflexivity.
Defined.
